(** * The message-intake pipeline of backend/server.py

    A shallow embedding of the decision logic of the chat backend:
    [detect_crisis], [analyze_sentiment], [generate_ai_response], [chat]
    and [get_sentiment_trends], together with the document store and the
    generation service they talk to.

    Conventions.
    - Python [str] values are Rocq [string]s.  The model covers ASCII text:
      [lower] folds [A-Z] only, and the classes [\s] and [\w] are the ASCII
      parts of Python's Unicode classes.
    - Python [float] values are the kernel's binary64 floats, compared with
      [PrimFloat.leb] and [PrimFloat.ltb] exactly as [<=] and [<] compare
      them in Python.
    - [async] handlers are run to completion one at a time: a handler is a
      function from the world before it to its result and the world after
      it.  The world holds the two collections of the store that the chat
      turn uses and the events of the handlers so far.
    - What the code cannot decide is an [Env]: the analyzer's scores, the
      random ids, the clock, date arithmetic, the faults of the store and
      the answers of the generation service.  The properties hold for
      every [Env].

    The file has the model first (texts, patterns, detection, sentiment,
    store, handlers), then a small concrete world, then the properties. *)

From Stdlib Require Import List String Ascii Bool ZArith Lia Arith.
From Stdlib Require Import Floats Sorted.
Import ListNotations.

Open Scope string_scope.

(** ** Text primitives *)

Module Str.

(** [c.lower()] on one ASCII character. *)
Definition lower_ascii (c : ascii) : ascii :=
  let n := nat_of_ascii c in
  if (65 <=? n)%nat && (n <=? 90)%nat then ascii_of_nat (n + 32) else c.

(** [text.lower()]. *)
Fixpoint lower (s : string) : string :=
  match s with
  | EmptyString => EmptyString
  | String c s' => String (lower_ascii c) (lower s')
  end.

(** [needle in hay] on strings: [needle] starts at some position of [hay]. *)
Fixpoint contains (needle hay : string) : bool :=
  String.prefix needle hay ||
  match hay with
  | EmptyString => false
  | String _ hay' => contains needle hay'
  end.

(** [c.isspace()] on ASCII: TAB, LF, VT, FF, CR, the separators FS, GS, RS,
    US and the space.  The class [\s] of [re] is the same set. *)
Definition is_space (c : ascii) : bool :=
  let n := nat_of_ascii c in
  ((9 <=? n)%nat && (n <=? 13)%nat) || ((28 <=? n)%nat && (n <=? 32)%nat).

(** The class [\w] of [re] on ASCII: letters, digits and the underscore. *)
Definition is_word (c : ascii) : bool :=
  let n := nat_of_ascii c in
  ((48 <=? n)%nat && (n <=? 57)%nat) || ((65 <=? n)%nat && (n <=? 90)%nat)
  || (n =? 95)%nat || ((97 <=? n)%nat && (n <=? 122)%nat).

Fixpoint lstrip (s : string) : string :=
  match s with
  | String c s' => if is_space c then lstrip s' else s
  | EmptyString => EmptyString
  end.

Fixpoint rstrip (s : string) : string :=
  match s with
  | EmptyString => EmptyString
  | String c s' =>
      match rstrip s' with
      | EmptyString => if is_space c then EmptyString else String c EmptyString
      | r => String c r
      end
  end.

(** [s.strip()]. *)
Definition strip (s : string) : string := rstrip (lstrip s).

End Str.

(** ** The fragment of [re] that [detect_crisis] uses *)

Module Re.

(** The patterns of [detect_crisis] are sequences of three kinds of atoms:
    a literal character, [\s+] and [\b]. *)
Inductive atom : Type :=
| Chr (c : ascii)
| Spaces
| WordBoundary.

Definition pattern := list atom.

(** The literal characters of [s], one atom each. *)
Fixpoint lit (s : string) : pattern :=
  match s with
  | EmptyString => []
  | String c s' => Chr c :: lit s'
  end.

Definition word_before (prev : option ascii) : bool :=
  match prev with Some c => Str.is_word c | None => false end.

Definition word_after (s : string) : bool :=
  match s with String c _ => Str.is_word c | EmptyString => false end.

(** [\b] holds between a word character and a non-word character, the two
    ends of the text counting as non-word. *)
Definition at_boundary (prev : option ascii) (s : string) : bool :=
  xorb (word_before prev) (word_after s).

(** [match_here p prev s]: the pattern [p] matches a prefix of [s], where
    [prev] is the character of the text just before [s].  [\s+] takes one
    blank and then either more blanks or the rest of the pattern, which is
    what backtracking over the greedy loop explores. *)
Fixpoint match_here (p : pattern) : option ascii -> string -> bool :=
  match p with
  | [] => fun _ _ => true
  | Chr c :: p' =>
      fun _ s =>
        match s with
        | String x s' => Ascii.eqb x c && match_here p' (Some x) s'
        | EmptyString => false
        end
  | WordBoundary :: p' =>
      fun prev s => at_boundary prev s && match_here p' prev s
  | Spaces :: p' =>
      fun _ s =>
        (fix blanks (s : string) : bool :=
           match s with
           | String x s' =>
               Str.is_space x && (blanks s' || match_here p' (Some x) s')
           | EmptyString => false
           end) s
  end.

Fixpoint search_from (p : pattern) (prev : option ascii) (s : string) : bool :=
  match_here p prev s ||
  match s with
  | String x s' => search_from p (Some x) s'
  | EmptyString => false
  end.

(** [re.search(p, s)] as a truth value: [p] matches somewhere in [s]. *)
Definition search (p : pattern) (s : string) : bool := search_from p None s.

End Re.

(** ** Crisis detection (server.py, lines 47-57 and 197-223) *)

Definition CRISIS_KEYWORDS : list string :=
  [ "suicide"; "kill myself"; "end my life"; "want to die"; "harm myself";
    "self harm"; "cut myself"; "overdose"; "not worth living"; "better off dead";
    "hopeless"; "can't go on"; "give up"; "end it all"; "hurt myself" ].

Definition CRISIS_PHRASES : list string :=
  [ "i want to die"; "i'm going to kill myself"; "life isn't worth living";
    "i can't take it anymore"; "nobody would miss me"; "i'm done with life" ].

(** The four raw patterns of [detect_crisis]:
    [\bi\s+want\s+to\s+die\b], [\bkill\s+myself\b], [\bcommit\s+suicide\b]
    and [\bend\s+my\s+life\b]. *)
Definition crisis_patterns : list Re.pattern :=
  let b := [Re.WordBoundary] in
  let s := [Re.Spaces] in
  [ b ++ Re.lit "i" ++ s ++ Re.lit "want" ++ s ++ Re.lit "to" ++ s ++ Re.lit "die" ++ b;
    b ++ Re.lit "kill" ++ s ++ Re.lit "myself" ++ b;
    b ++ Re.lit "commit" ++ s ++ Re.lit "suicide" ++ b;
    b ++ Re.lit "end" ++ s ++ Re.lit "my" ++ s ++ Re.lit "life" ++ b ]%list.

(** The three loops of [detect_crisis], each returning at its first hit. *)
Definition detect_crisis (text : string) : bool :=
  let text_lower := Str.lower text in
  if existsb (fun keyword => Str.contains keyword text_lower) CRISIS_KEYWORDS then true
  else if existsb (fun phrase => Str.contains phrase text_lower) CRISIS_PHRASES then true
  else if existsb (fun pattern => Re.search pattern text_lower) crisis_patterns then true
  else false.

(** ** Sentiment labels (server.py, lines 164-195) *)

Set Warnings "-inexact-float".

(** What [SentimentIntensityAnalyzer.polarity_scores] returns: the dict with
    the keys [neg], [neu], [pos] and [compound]. *)
Record Scores : Type := {
  neg : float;
  neu : float;
  pos : float;
  compound : float
}.

(** The dict that [analyze_sentiment] returns, one field per key. *)
Module Sentiment.
Record t : Type := {
  compound : float;
  positive : float;
  negative : float;
  neutral : float;
  label : string;
  emotional_state : string
}.
End Sentiment.

(** The body of [analyze_sentiment] after the call of the analyzer. *)
Definition sentiment_of_scores (scores : Scores) : Sentiment.t :=
  let compound := compound scores in
  let label :=
    if (0.05 <=? compound)%float then "positive"
    else if (compound <=? -0.05)%float then "negative"
    else "neutral" in
  let emotional_state :=
    if (compound <=? -0.5)%float then "very_negative"
    else if (compound <=? -0.2)%float then "negative"
    else if (0.5 <=? compound)%float then "very_positive"
    else if (0.2 <=? compound)%float then "positive"
    else "neutral" in
  {| Sentiment.compound := compound;
     Sentiment.positive := pos scores;
     Sentiment.negative := neg scores;
     Sentiment.neutral := neu scores;
     Sentiment.label := label;
     Sentiment.emotional_state := emotional_state |}.

(** ** Static resources (server.py, lines 59-117) *)

(** A resource is a dict from field names to texts; the catalog is a dict
    from category names to lists of resources.  Both keep their literal
    order. *)
Definition Resource := list (string * string).

Fixpoint getitem {V : Type} (key : string) (d : list (string * V)) : option V :=
  match d with
  | [] => None
  | (k, v) :: d' => if String.eqb k key then Some v else getitem key d'
  end.

Definition MENTAL_HEALTH_RESOURCES : list (string * list Resource) :=
  [ ("crisis",
     [ [ ("name", "National Suicide Prevention Lifeline");
         ("phone", "988");
         ("description", "24/7 crisis support and suicide prevention") ];
       [ ("name", "Crisis Text Line");
         ("phone", "Text HOME to 741741");
         ("description", "24/7 crisis support via text") ];
       [ ("name", "International Association for Suicide Prevention");
         ("website", "https://www.iasp.info/resources/Crisis_Centres/");
         ("description", "Global crisis centers directory") ] ]);
    ("general",
     [ [ ("name", "Mental Health America");
         ("website", "https://www.mhanational.org/finding-help");
         ("description", "Mental health resources and support") ];
       [ ("name", "NAMI (National Alliance on Mental Illness)");
         ("website", "https://www.nami.org/help");
         ("description", "Mental health education and support") ];
       [ ("name", "Psychology Today Therapist Finder");
         ("website", "https://www.psychologytoday.com/us/therapists");
         ("description", "Find therapists and mental health professionals") ] ]);
    ("coping_strategies",
     [ [ ("name", "Box Breathing");
         ("description", "Breathe in for 4, hold for 4, out for 4, hold for 4. Repeat 4 times.");
         ("category", "anxiety") ];
       [ ("name", "5-4-3-2-1 Grounding");
         ("description", "Name 5 things you see, 4 you can touch, 3 you hear, 2 you smell, 1 you taste.");
         ("category", "anxiety") ];
       [ ("name", "Progressive Muscle Relaxation");
         ("description", "Tense and relax each muscle group from toes to head.");
         ("category", "stress") ];
       [ ("name", "Thought Reframing");
         ("description", "Challenge negative thoughts by asking: Is this realistic? What would I tell a friend?");
         ("category", "depression") ] ]) ].

(** ** Documents, requests and responses (server.py, lines 119-161) *)

(** A point in time, in microseconds since the epoch. *)
Definition datetime := Z.

(** A document of [db.sessions]: a [UserSession] with its two dates in
    ISO format. *)
Module Session.
Record doc : Type := {
  id : string;
  nickname : option string;
  created_at : string;
  last_activity : string;
  settings : list (string * string)
}.
End Session.

(** A document of [db.messages]: a [ChatMessage] with its timestamp in ISO
    format. *)
Module Message.
Record doc : Type := {
  id : string;
  session_id : string;
  content : string;
  is_user : bool;
  timestamp : string;
  sentiment_score : option float;
  sentiment_label : option string;
  crisis_detected : bool
}.
End Message.

Module ChatRequest.
Record t : Type := {
  message : string;
  session_id : option string
}.
End ChatRequest.

Module ChatResponse.
Record t : Type := {
  message : string;
  session_id : string;
  crisis_detected : bool;
  sentiment : option Sentiment.t;
  resources : option (list Resource)
}.
End ChatResponse.

(** One entry of the [messages] argument of the completion call. *)
Record ContextMessage : Type := {
  role : string;
  content : string
}.

(** What [client.chat.completions.create] does: it raises, or it returns a
    response whose [choices] each carry a content that may be [None]. *)
Inductive Completion : Type :=
| CompletionRaised
| CompletionResponse (choices : list (option string)).

(** The scalars in the dicts that [get_sentiment_trends] returns. *)
Inductive Value : Type :=
| VInt (z : Z)
| VFloat (f : float)
| VStr (s : string).

Definition Dict := list (string * Value).

(** The dict with the keys [trends] and [summary] that
    [get_sentiment_trends] returns. *)
Record Trends : Type := {
  trends : list Dict;
  summary : Dict
}.

(** ** The world around a handler *)

(** Exceptions that the handlers can meet. *)
Inductive Exn : Type :=
| StoreError
| ServiceError
| IndexError
| AttributeError
| KeyError
| OverflowError
| ValueError
| TypeError
| ZeroDivisionError
| HTTPException (status_code : Z) (detail : string).

Inductive Result (A : Type) : Type :=
| Ok (a : A)
| Raise (e : Exn).
Arguments Ok {A} a.
Arguments Raise {A} e.

(** What a handler does to the outside, in the order it does it. *)
Inductive Event : Type :=
| SessionInserted (d : Session.doc)
| MessageInserted (d : Message.doc)
| CompletionRequested (messages : list ContextMessage)
| ErrorLogged (e : Exn).

(** The two collections the chat turn uses, in insertion order, the number
    of draws made so far from each outside source, and the events so far
    (oldest first). *)
Record World : Type := {
  db_sessions : list Session.doc;
  db_messages : list Message.doc;
  uuids_drawn : nat;
  clock_reads : nat;
  store_ops : nat;
  completions : nat;
  events : list Event
}.

(** Everything a handler cannot decide: the analyzer's lexicon, the random
    ids, the clock, date arithmetic, the store's faults and the generation
    service.  The draws are indexed by how many were made before. *)
Record Env : Type := {
  polarity_scores : string -> Scores;
  uuid4 : nat -> string;
  utcnow : nat -> datetime;
  isoformat : datetime -> string;
  (** [d - timedelta(days=n)], or [None] where Python raises [OverflowError]. *)
  minus_days : datetime -> Z -> option datetime;
  (** [datetime.fromisoformat(s).date().isoformat()], or [None] where
      Python raises [ValueError]. *)
  iso_date : string -> option string;
  (** Whether the store operation with this index raises. *)
  store_fails : nat -> bool;
  (** The service's answer to the call with this index. *)
  completions_create : nat -> list ContextMessage -> Completion
}.

(** A handler: from the world before to its result and the world after. *)
Definition M (A : Type) : Type := World -> Result A * World.

Definition ret {A : Type} (a : A) : M A := fun w => (Ok a, w).

Definition raise {A : Type} (e : Exn) : M A := fun w => (Raise e, w).

Definition bind {A B : Type} (m : M A) (k : A -> M B) : M B :=
  fun w =>
    match m w with
    | (Ok a, w') => k a w'
    | (Raise e, w') => (Raise e, w')
    end.

(** [try: m  except Exception as e: h e]. *)
Definition try_except {A : Type} (m : M A) (h : Exn -> M A) : M A :=
  fun w =>
    match m w with
    | (Ok a, w') => (Ok a, w')
    | (Raise e, w') => h e w'
    end.

Notation "x <- m ;; k" := (bind m (fun x => k))
  (at level 61, m at next level, right associativity).
Notation "m ;;; k" := (bind m (fun _ => k))
  (at level 61, right associativity).

(** [o] when it is there, the exception [e] otherwise. *)
Definition or_raise {A : Type} (o : option A) (e : Exn) : M A :=
  match o with
  | Some a => ret a
  | None => raise e
  end.

(** ** The store's queries *)

Fixpoint insert_by {A : Type} (le : A -> A -> bool) (x : A) (l : list A) : list A :=
  match l with
  | [] => [x]
  | y :: l' => if le x y then x :: l else y :: insert_by le x l'
  end.

(** A stable sort: documents that compare equal keep the store's order. *)
Fixpoint sort_by {A : Type} (le : A -> A -> bool) (l : list A) : list A :=
  match l with
  | [] => []
  | x :: l' => insert_by le x (sort_by le l')
  end.

(** The store compares the ISO texts of two timestamps as strings. *)
Definition older_eq (a b : Message.doc) : bool :=
  String.leb (Message.timestamp a) (Message.timestamp b).

Definition newer_eq (a b : Message.doc) : bool := older_eq b a.

(** [find({"session_id": sid}).sort("timestamp", -1).limit(n)]. *)
Definition recent_messages_of (sid : string) (n : nat) (docs : list Message.doc)
  : list Message.doc :=
  firstn n
    (sort_by newer_eq
       (filter (fun d => String.eqb (Message.session_id d) sid) docs)).

(** The query of [get_sentiment_trends]: the scored user messages of the
    session since [start], oldest first. *)
Definition scored_messages_since (sid start : string) (docs : list Message.doc)
  : list Message.doc :=
  sort_by older_eq
    (filter
       (fun d =>
          String.eqb (Message.session_id d) sid
          && Message.is_user d
          && (match Message.sentiment_score d with Some _ => true | None => false end)
          && String.leb start (Message.timestamp d))
       docs).

(** [update_one({"id": sid}, {"$set": {"last_activity": ts}})]: the first
    session with this id, if any. *)
Fixpoint set_last_activity (sid ts : string) (docs : list Session.doc)
  : list Session.doc :=
  match docs with
  | [] => []
  | d :: docs' =>
      if String.eqb (Session.id d) sid
      then {| Session.id := Session.id d;
              Session.nickname := Session.nickname d;
              Session.created_at := Session.created_at d;
              Session.last_activity := ts;
              Session.settings := Session.settings d |} :: docs'
      else d :: set_last_activity sid ts docs'
  end.

(** ** Effects *)

Definition with_store (w : World) (ss : list Session.doc) (ms : list Message.doc)
  : World :=
  {| db_sessions := ss; db_messages := ms;
     uuids_drawn := uuids_drawn w; clock_reads := clock_reads w;
     store_ops := store_ops w; completions := completions w;
     events := events w |}.

Definition emit (ev : Event) (w : World) : World :=
  {| db_sessions := db_sessions w; db_messages := db_messages w;
     uuids_drawn := uuids_drawn w; clock_reads := clock_reads w;
     store_ops := store_ops w; completions := completions w;
     events := (events w ++ [ev])%list |}.

Definition count_store_op (w : World) : World :=
  {| db_sessions := db_sessions w; db_messages := db_messages w;
     uuids_drawn := uuids_drawn w; clock_reads := clock_reads w;
     store_ops := S (store_ops w); completions := completions w;
     events := events w |}.

Definition count_uuid (w : World) : World :=
  {| db_sessions := db_sessions w; db_messages := db_messages w;
     uuids_drawn := S (uuids_drawn w); clock_reads := clock_reads w;
     store_ops := store_ops w; completions := completions w;
     events := events w |}.

Definition count_clock_read (w : World) : World :=
  {| db_sessions := db_sessions w; db_messages := db_messages w;
     uuids_drawn := uuids_drawn w; clock_reads := S (clock_reads w);
     store_ops := store_ops w; completions := completions w;
     events := events w |}.

Definition count_completion (w : World) : World :=
  {| db_sessions := db_sessions w; db_messages := db_messages w;
     uuids_drawn := uuids_drawn w; clock_reads := clock_reads w;
     store_ops := store_ops w; completions := S (completions w);
     events := events w |}.

(** [len(l)] as a float, exact below 2^53. *)
Definition float_of_nat (n : nat) : float :=
  PrimFloat.of_uint63 (Uint63.of_Z (Z.of_nat n)).

(** [sum(scores)]: from the integer 0, left to right (from Python 3.12 on the
    interpreter compensates the rounding of this loop).  A score that is
    [None] cannot be added: [None] stands for the [TypeError]. *)
Fixpoint sum_from (acc : float) (scores : list (option float)) : option float :=
  match scores with
  | [] => Some acc
  | Some x :: scores' => sum_from (acc + x)%float scores'
  | None :: _ => None
  end.

Definition sum (scores : list (option float)) : option float := sum_from 0%float scores.

(** [daily_sentiments[date_key].append(score)] on a dict that keeps the
    order in which its keys were first seen. *)
Fixpoint append_at {V : Type} (key : string) (v : V) (d : list (string * list V))
  : list (string * list V) :=
  match d with
  | [] => [(key, [v])]
  | (k, vs) :: d' =>
      if String.eqb k key then (k, (vs ++ [v])%list) :: d'
      else (k, vs) :: append_at key v d'
  end.

(** ** Texts of [generate_ai_response] (server.py, lines 237-255, 280-281) *)

Definition system_prompt_base : string :=
"You are a compassionate mental health support chatbot. Your role is to:

1. Provide empathetic, supportive responses
2. Encourage users to seek professional help when appropriate
3. Never provide medical diagnoses or specific medical advice
4. Offer coping strategies and emotional support
5. Be mindful of crisis situations and respond appropriately

IMPORTANT SAFETY RULES:
- Always include disclaimers about not being a replacement for professional help
- For any crisis situations, provide immediate support resources
- Focus on validation, empathy, and gentle guidance
- Use warm, supportive language
- Keep responses concise but meaningful (2-3 sentences typically)

Remember: You are NOT a licensed therapist. You provide peer support and encourage professional help.".

Definition system_prompt_crisis : string :=
"

IMPORTANT: The user may be in crisis. Prioritize immediate safety and provide crisis resources. Be extra supportive and encourage immediate professional help.".

Definition crisis_fallback : string :=
"I'm here to listen and support you. Please reach out to a crisis helpline immediately if you're having thoughts of self-harm. You can call 988 (Suicide Prevention Lifeline) or text HOME to 741741. Your life has value and there are people who want to help.".

Definition generic_fallback : string :=
"I'm here to support you, though I'm having trouble generating a response right now. Remember that it's always okay to reach out to a mental health professional if you need additional support.".

Definition system_prompt (crisis_detected : bool) : string :=
  if crisis_detected then system_prompt_base ++ system_prompt_crisis
  else system_prompt_base.

(** The entry that a stored message becomes in the context. *)
Definition context_entry (msg : Message.doc) : ContextMessage :=
  {| role := if Message.is_user msg then "user" else "assistant";
     content := Message.content msg |}.

(** [context_messages] as lines 234-265 build it from the store's answer. *)
Definition context_messages (recent_messages : list Message.doc)
  (message : string) (crisis_detected : bool) : list ContextMessage :=
  ([ {| role := "system"; content := system_prompt crisis_detected |} ]
   ++ map context_entry (rev recent_messages)
   ++ [ {| role := "user"; content := message |} ])%list.

(** ** The handlers *)

Section Handlers.

Variable E : Env.

Definition analyze_sentiment (text : string) : Sentiment.t :=
  sentiment_of_scores (polarity_scores E text).

(** [str(uuid.uuid4())]. *)
Definition uuid4_str : M string :=
  fun w => (Ok (uuid4 E (uuids_drawn w)), count_uuid w).

(** [datetime.now(timezone.utc)]. *)
Definition datetime_now : M datetime :=
  fun w => (Ok (utcnow E (clock_reads w)), count_clock_read w).

Definition now_iso : M string :=
  t <- datetime_now ;;
  ret (isoformat E t).

(** A call of the store: it raises when the store is at fault, and acts on
    the world otherwise. *)
Definition store_op {A : Type} (act : World -> A * World) : M A :=
  fun w =>
    if store_fails E (store_ops w) then (Raise StoreError, count_store_op w)
    else match act (count_store_op w) with (a, w') => (Ok a, w') end.

Definition sessions_insert_one (d : Session.doc) : M unit :=
  store_op (fun w =>
    (tt, emit (SessionInserted d)
           (with_store w (db_sessions w ++ [d])%list (db_messages w)))).

Definition messages_insert_one (d : Message.doc) : M unit :=
  store_op (fun w =>
    (tt, emit (MessageInserted d)
           (with_store w (db_sessions w) (db_messages w ++ [d])%list))).

Definition messages_find_recent (session_id : string) : M (list Message.doc) :=
  store_op (fun w => (recent_messages_of session_id 6 (db_messages w), w)).

Definition sessions_update_last_activity (session_id ts : string) : M unit :=
  store_op (fun w =>
    (tt, with_store w (set_last_activity session_id ts (db_sessions w))
           (db_messages w))).

Definition messages_find_scored_since (session_id start : string)
  : M (list Message.doc) :=
  store_op (fun w => (scored_messages_since session_id start (db_messages w), w)).

(** [client.chat.completions.create(messages=...)], the model and the
    sampling parameters being constants of the call. *)
Definition chat_completions_create (messages : list ContextMessage)
  : M (list (option string)) :=
  fun w =>
    let w' := emit (CompletionRequested messages) (count_completion w) in
    match completions_create E (completions w) messages with
    | CompletionRaised => (Raise ServiceError, w')
    | CompletionResponse choices => (Ok choices, w')
    end.

Definition logging_error (e : Exn) : M unit :=
  fun w => (Ok tt, emit (ErrorLogged e) w).

(** [UserSession()] and the dict made of it: the default factories run in
    the order of the fields. *)
Definition new_session : M Session.doc :=
  id <- uuid4_str ;;
  created_at <- now_iso ;;
  last_activity <- now_iso ;;
  ret {| Session.id := id; Session.nickname := None;
         Session.created_at := created_at;
         Session.last_activity := last_activity;
         Session.settings := [] |}.

(** [ChatMessage(...)] and the dict made of it. *)
Definition new_message (session_id content : string) (is_user : bool)
  (sentiment_score : option float) (sentiment_label : option string)
  (crisis_detected : bool) : M Message.doc :=
  id <- uuid4_str ;;
  timestamp <- now_iso ;;
  ret {| Message.id := id; Message.session_id := session_id;
         Message.content := content; Message.is_user := is_user;
         Message.timestamp := timestamp;
         Message.sentiment_score := sentiment_score;
         Message.sentiment_label := sentiment_label;
         Message.crisis_detected := crisis_detected |}.

(** [response.choices[0].message.content.strip()]. *)
Definition first_content (choices : list (option string)) : M string :=
  choice <- or_raise (nth_error choices 0) IndexError ;;
  content <- or_raise choice AttributeError ;;
  ret (Str.strip content).

(** The [try] block of [generate_ai_response]. *)
Definition generate_ai_response_try (message session_id : string)
  (crisis_detected : bool) : M string :=
  recent_messages <- messages_find_recent session_id ;;
  choices <- chat_completions_create
               (context_messages recent_messages message crisis_detected) ;;
  first_content choices.

Definition generate_ai_response (message session_id : string)
  (crisis_detected : bool) : M string :=
  try_except
    (generate_ai_response_try message session_id crisis_detected)
    (fun e =>
       logging_error e ;;;
       if crisis_detected then ret crisis_fallback else ret generic_fallback).

(** Lines 315-320 of [chat]: a new session, stored, and its id. *)
Definition create_chat_session : M string :=
  session <- new_session ;;
  sessions_insert_one session ;;;
  ret (Session.id session).

(** The [try] block of [chat].  [not session_id] holds of [None] and of the
    empty text. *)
Definition chat_try (request : ChatRequest.t) : M ChatResponse.t :=
  session_id <-
    match ChatRequest.session_id request with
    | None => create_chat_session
    | Some sid => if String.eqb sid "" then create_chat_session else ret sid
    end ;;
  let sentiment := analyze_sentiment (ChatRequest.message request) in
  let crisis_detected := detect_crisis (ChatRequest.message request) in
  user_message <- new_message session_id (ChatRequest.message request) true
                    (Some (Sentiment.compound sentiment))
                    (Some (Sentiment.label sentiment)) crisis_detected ;;
  messages_insert_one user_message ;;;
  ai_response <- generate_ai_response (ChatRequest.message request)
                   session_id crisis_detected ;;
  ai_message <- new_message session_id ai_response false None None false ;;
  messages_insert_one ai_message ;;;
  ts <- now_iso ;;
  sessions_update_last_activity session_id ts ;;;
  if crisis_detected then
    crisis <- or_raise (getitem "crisis" MENTAL_HEALTH_RESOURCES) KeyError ;;
    ret {| ChatResponse.message := ai_response;
           ChatResponse.session_id := session_id;
           ChatResponse.crisis_detected := crisis_detected;
           ChatResponse.sentiment := Some sentiment;
           ChatResponse.resources := Some crisis |}
  else
    ret {| ChatResponse.message := ai_response;
           ChatResponse.session_id := session_id;
           ChatResponse.crisis_detected := crisis_detected;
           ChatResponse.sentiment := Some sentiment;
           ChatResponse.resources := None |}.

Definition chat (request : ChatRequest.t) : M ChatResponse.t :=
  try_except (chat_try request)
    (fun e =>
       logging_error e ;;;
       raise (HTTPException 500 "Internal server error")).

(** The loop that groups the scores by day. *)
Fixpoint group_by_day (messages : list Message.doc)
  (daily_sentiments : list (string * list (option float)))
  : M (list (string * list (option float))) :=
  match messages with
  | [] => ret daily_sentiments
  | msg :: messages' =>
      date_key <- or_raise (iso_date E (Message.timestamp msg)) ValueError ;;
      group_by_day messages'
        (append_at date_key (Message.sentiment_score msg) daily_sentiments)
  end.

(** [sum(scores) / len(scores)]. *)
Definition mean (scores : list (option float)) : M float :=
  total <- or_raise (sum scores) TypeError ;;
  match scores with
  | [] => raise ZeroDivisionError
  | _ :: _ => ret (total / float_of_nat (List.length scores))%float
  end.

(** The loop that averages each day. *)
Fixpoint daily_trends (daily_sentiments : list (string * list (option float)))
  : M (list Dict) :=
  match daily_sentiments with
  | [] => ret []
  | (date, scores) :: rest =>
      avg_score <- mean scores ;;
      trends <- daily_trends rest ;;
      ret ([ ("date", VStr date);
             ("avg_sentiment", VFloat avg_score);
             ("message_count", VInt (Z.of_nat (List.length scores))) ] :: trends)
  end.

Definition get_sentiment_trends (session_id : string) (days : Z) : M Trends :=
  today <- datetime_now ;;
  start_date <- or_raise (minus_days E today days) OverflowError ;;
  messages <- messages_find_scored_since session_id (isoformat E start_date) ;;
  match messages with
  | [] =>
      ret {| trends := [];
             summary := [ ("avg_sentiment", VInt 0); ("total_messages", VInt 0) ] |}
  | _ :: _ =>
      daily_sentiments <- group_by_day messages [] ;;
      trends <- daily_trends daily_sentiments ;;
      avg_sentiment <- mean (map Message.sentiment_score messages) ;;
      ret {| trends := trends;
             summary :=
               [ ("avg_sentiment", VFloat avg_sentiment);
                 ("total_messages", VInt (Z.of_nat (List.length messages)));
                 ("days_analyzed", VInt days) ] |}
  end.

End Handlers.

(** ** A small concrete world, for running the handlers *)

Module Sample.

(** An analyzer that finds every text neutral. *)
Definition neutral_scores (_ : string) : Scores :=
  {| neg := 0%float; neu := 1%float; pos := 0%float; compound := 0%float |}.

Definition digit (n : nat) : string :=
  String (ascii_of_nat (48 + Nat.modulo n 10)) "".

(** Midnight of 2024-01-01 UTC. *)
Definition midnight : datetime := 1704067200000000%Z.

(** The six digits of a number of microseconds below one hundred. *)
Definition micros (us : nat) : string :=
  if (us =? 0)%nat then "" else ".0000" ++ digit (us / 10) ++ digit us.

(** ISO texts of the first microseconds after [midnight], and of the first
    microseconds of the same hour a week before. *)
Definition iso (t : datetime) : string :=
  if (t <? midnight)%Z
  then "2023-12-25T00:00:00"
       ++ micros (Z.to_nat (t - (midnight - 7 * 86400000000))%Z) ++ "+00:00"
  else "2024-01-01T00:00:00" ++ micros (Z.to_nat (t - midnight)%Z) ++ "+00:00".

(** A store that never fails and a service that always raises; the clock
    advances by one microsecond at each reading. *)
Definition service_down : Env :=
  {| polarity_scores := neutral_scores;
     uuid4 := fun n => "id-" ++ digit (n / 10) ++ digit n;
     utcnow := fun n => (midnight + Z.of_nat n)%Z;
     isoformat := iso;
     minus_days := fun t days => Some (t - days * 86400000000)%Z;
     iso_date := fun s => Some (substring 0 10 s);
     store_fails := fun _ => false;
     completions_create := fun _ _ => CompletionRaised |}.

(** The same world with a service that answers every call. *)
Definition service_up : Env :=
  {| polarity_scores := neutral_scores;
     uuid4 := uuid4 service_down;
     utcnow := utcnow service_down;
     isoformat := iso;
     minus_days := minus_days service_down;
     iso_date := iso_date service_down;
     store_fails := fun _ => false;
     completions_create :=
       fun _ _ => CompletionResponse [Some "  I hear you. 
"] |}.

Definition empty_world : World :=
  {| db_sessions := []; db_messages := [];
     uuids_drawn := 0; clock_reads := 0; store_ops := 0; completions := 0;
     events := [] |}.

Definition turn (text : string) : ChatRequest.t :=
  {| ChatRequest.message := text; ChatRequest.session_id := Some "s1" |}.

Definition first_turn (text : string) : ChatRequest.t :=
  {| ChatRequest.message := text; ChatRequest.session_id := None |}.

(** The user's message of the turn [hello] in the empty world, as stored. *)
Definition hello : Message.doc :=
  {| Message.id := "id-00";
     Message.session_id := "s1";
     Message.content := "hello";
     Message.is_user := true;
     Message.timestamp := "2024-01-01T00:00:00+00:00";
     Message.sentiment_score := Some 0%float;
     Message.sentiment_label := Some "neutral";
     Message.crisis_detected := false |}.

(** The world after three turns of the session [s1]: six stored messages. *)
Definition after_three_turns : World :=
  let w1 := snd (chat service_up (turn "hello") empty_world) in
  let w2 := snd (chat service_up (turn "how are you") w1) in
  snd (chat service_up (turn "fine") w2).

End Sample.

(** ** The other models and the mood entries (server.py, lines 120-161) *)

(** [UserSession], [ChatMessage] and [MoodEntry] as the handlers return
    them, with their dates as points in time. *)
Module UserSession.
Record t : Type := {
  id : string;
  nickname : option string;
  created_at : datetime;
  last_activity : datetime;
  settings : list (string * string)
}.
End UserSession.

Module ChatMessage.
Record t : Type := {
  id : string;
  session_id : string;
  content : string;
  is_user : bool;
  timestamp : datetime;
  sentiment_score : option float;
  sentiment_label : option string;
  crisis_detected : bool
}.
End ChatMessage.

Module MoodEntry.
Record t : Type := {
  id : string;
  session_id : string;
  mood_score : Z;
  note : option string;
  timestamp : datetime
}.
End MoodEntry.

(** A document of [db.mood_entries]: a [MoodEntry] with its timestamp in
    ISO format. *)
Module Mood.
Record doc : Type := {
  id : string;
  session_id : string;
  mood_score : Z;
  note : option string;
  timestamp : string
}.
End Mood.

Module MoodRequest.
Record t : Type := {
  mood_score : Z;
  note : option string;
  session_id : string
}.
End MoodRequest.

Module SessionRequest.
Record t : Type := {
  nickname : option string
}.
End SessionRequest.

(** [Field(..., ge=1, le=5)]. *)
Definition mood_score_ok (mood_score : Z) : bool :=
  ((1 <=? mood_score) && (mood_score <=? 5))%Z.

(** ** The whole store *)

(** The world of the chat turn together with the third collection. *)
Record Backend : Type := {
  core : World;
  db_mood_entries : list Mood.doc
}.

(** A handler that may touch the mood entries. *)
Definition B (A : Type) : Type := Backend -> Result A * Backend.

Definition retB {A : Type} (a : A) : B A := fun b => (Ok a, b).

Definition raiseB {A : Type} (e : Exn) : B A := fun b => (Raise e, b).

Definition bindB {A C : Type} (m : B A) (k : A -> B C) : B C :=
  fun b =>
    match m b with
    | (Ok a, b') => k a b'
    | (Raise e, b') => (Raise e, b')
    end.

Definition try_exceptB {A : Type} (m : B A) (h : Exn -> B A) : B A :=
  fun b =>
    match m b with
    | (Ok a, b') => (Ok a, b')
    | (Raise e, b') => h e b'
    end.

(** A handler of the chat world, run in the whole store. *)
Definition lift {A : Type} (m : M A) : B A :=
  fun b =>
    match m (core b) with
    | (r, w') => (r, {| core := w'; db_mood_entries := db_mood_entries b |})
    end.

Notation "x <~ m ;; k" := (bindB m (fun x => k))
  (at level 61, m at next level, right associativity).
Notation "m ;;~ k" := (bindB m (fun _ => k))
  (at level 61, right associativity).

(** ** The other queries *)

(** [cursor.limit(n)]: the first [n] documents; no limit when [n] is 0,
    and the first [-n] when [n] is negative. *)
Definition cursor_limit {A : Type} (limit : Z) (l : list A) : list A :=
  if (limit =? 0)%Z then l else firstn (Z.abs_nat limit) l.

(** [find({"session_id": sid}).sort("timestamp", -1).limit(limit)]. *)
Definition history_of (sid : string) (limit : Z) (docs : list Message.doc)
  : list Message.doc :=
  cursor_limit limit
    (sort_by newer_eq
       (filter (fun d => String.eqb (Message.session_id d) sid) docs)).

(** [find_one({"id": sid})]: the first session with this id. *)
Definition session_with_id (sid : string) (docs : list Session.doc)
  : option Session.doc :=
  find (fun d => String.eqb (Session.id d) sid) docs.

(** [delete_one({"id": sid})]: all but the first session with this id. *)
Fixpoint without_first_session (sid : string) (docs : list Session.doc)
  : list Session.doc :=
  match docs with
  | [] => []
  | d :: docs' =>
      if String.eqb (Session.id d) sid then docs'
      else d :: without_first_session sid docs'
  end.

(** [x in ids], as [$in] tests it. *)
Definition among (ids : list string) (x : string) : bool :=
  existsb (String.eqb x) ids.

(** The store compares the ISO texts of the timestamps of two mood entries
    as strings. *)
Definition mood_older_eq (a b : Mood.doc) : bool :=
  String.leb (Mood.timestamp a) (Mood.timestamp b).

(** The query of [get_mood_history]: the entries of the session since
    [start], oldest first. *)
Definition moods_since (sid start : string) (docs : list Mood.doc) : list Mood.doc :=
  sort_by mood_older_eq
    (filter
       (fun d =>
          String.eqb (Mood.session_id d) sid
          && String.leb start (Mood.timestamp d))
       docs).

(** The query of [startup_cleanup]: the sessions last active before
    [cutoff]. *)
Definition stale_sessions (cutoff : string) (docs : list Session.doc)
  : list Session.doc :=
  filter (fun d => String.ltb (Session.last_activity d) cutoff) docs.

Definition message_model (d : Message.doc) (timestamp : datetime) : ChatMessage.t :=
  {| ChatMessage.id := Message.id d;
     ChatMessage.session_id := Message.session_id d;
     ChatMessage.content := Message.content d;
     ChatMessage.is_user := Message.is_user d;
     ChatMessage.timestamp := timestamp;
     ChatMessage.sentiment_score := Message.sentiment_score d;
     ChatMessage.sentiment_label := Message.sentiment_label d;
     ChatMessage.crisis_detected := Message.crisis_detected d |}.

Definition mood_doc (isoformat : datetime -> string) (entry : MoodEntry.t) : Mood.doc :=
  {| Mood.id := MoodEntry.id entry;
     Mood.session_id := MoodEntry.session_id entry;
     Mood.mood_score := MoodEntry.mood_score entry;
     Mood.note := MoodEntry.note entry;
     Mood.timestamp := isoformat (MoodEntry.timestamp entry) |}.

Definition mood_model (d : Mood.doc) (timestamp : datetime) : MoodEntry.t :=
  {| MoodEntry.id := Mood.id d;
     MoodEntry.session_id := Mood.session_id d;
     MoodEntry.mood_score := Mood.mood_score d;
     MoodEntry.note := Mood.note d;
     MoodEntry.timestamp := timestamp |}.

Definition session_doc (isoformat : datetime -> string) (session : UserSession.t)
  : Session.doc :=
  {| Session.id := UserSession.id session;
     Session.nickname := UserSession.nickname session;
     Session.created_at := isoformat (UserSession.created_at session);
     Session.last_activity := isoformat (UserSession.last_activity session);
     Session.settings := UserSession.settings session |}.

(** ** The other handlers (server.py, lines 284-306, 378-420, 463-485,
    514-542) *)

Section OtherHandlers.

Variable E : Env.

(** [datetime.fromisoformat], or [None] where Python raises [ValueError]. *)
Variable fromisoformat : string -> option datetime.

Definition create_session (request : SessionRequest.t) : M UserSession.t :=
  id <- uuid4_str E ;;
  created_at <- datetime_now E ;;
  last_activity <- datetime_now E ;;
  let session :=
    {| UserSession.id := id;
       UserSession.nickname := SessionRequest.nickname request;
       UserSession.created_at := created_at;
       UserSession.last_activity := last_activity;
       UserSession.settings := [] |} in
  sessions_insert_one E (session_doc (isoformat E) session) ;;;
  ret session.

Definition sessions_find_one (session_id : string) : M (option Session.doc) :=
  store_op E (fun w => (session_with_id session_id (db_sessions w), w)).

Definition get_session (session_id : string) : M UserSession.t :=
  session <- sessions_find_one session_id ;;
  match session with
  | None => raise (HTTPException 404 "Session not found")
  | Some d =>
      created_at <- or_raise (fromisoformat (Session.created_at d)) ValueError ;;
      last_activity <- or_raise (fromisoformat (Session.last_activity d)) ValueError ;;
      ret {| UserSession.id := Session.id d;
             UserSession.nickname := Session.nickname d;
             UserSession.created_at := created_at;
             UserSession.last_activity := last_activity;
             UserSession.settings := Session.settings d |}
  end.

Definition messages_find_history (session_id : string) (limit : Z)
  : M (list Message.doc) :=
  store_op E (fun w => (history_of session_id limit (db_messages w), w)).

(** The loop of lines 386-387, which reads the timestamps in the order of
    the store's answer, and the models made of the documents. *)
Fixpoint message_models (messages : list Message.doc) : M (list ChatMessage.t) :=
  match messages with
  | [] => ret []
  | msg :: messages' =>
      timestamp <- or_raise (fromisoformat (Message.timestamp msg)) ValueError ;;
      models <- message_models messages' ;;
      ret (message_model msg timestamp :: models)
  end.

Definition get_chat_history (session_id : string) (limit : Z)
  : M (list ChatMessage.t) :=
  messages <- messages_find_history session_id limit ;;
  models <- message_models messages ;;
  ret (rev models).

(** [MoodEntry(...)]: both default factories run, and a score outside 1..5
    is a validation error, which is a [ValueError]. *)
Definition new_mood_entry (session_id : string) (mood_score : Z)
  (note : option string) : M MoodEntry.t :=
  id <- uuid4_str E ;;
  timestamp <- datetime_now E ;;
  if mood_score_ok mood_score then
    ret {| MoodEntry.id := id;
           MoodEntry.session_id := session_id;
           MoodEntry.mood_score := mood_score;
           MoodEntry.note := note;
           MoodEntry.timestamp := timestamp |}
  else raise ValueError.

(** A call of the store on the mood entries. *)
Definition mood_store_op {A : Type} (act : list Mood.doc -> A * list Mood.doc) : B A :=
  fun b =>
    if store_fails E (store_ops (core b))
    then (Raise StoreError,
          {| core := count_store_op (core b); db_mood_entries := db_mood_entries b |})
    else match act (db_mood_entries b) with
         | (a, moods) =>
             (Ok a, {| core := count_store_op (core b); db_mood_entries := moods |})
         end.

Definition moods_insert_one (d : Mood.doc) : B unit :=
  mood_store_op (fun moods => (tt, (moods ++ [d])%list)).

Definition moods_find_since (session_id start : string) : B (list Mood.doc) :=
  mood_store_op (fun moods => (moods_since session_id start moods, moods)).

Definition moods_delete_many (session_id : string) : B unit :=
  mood_store_op (fun moods =>
    (tt, filter (fun d => negb (String.eqb (Mood.session_id d) session_id)) moods)).

Definition moods_delete_many_in (ids : list string) : B unit :=
  mood_store_op (fun moods =>
    (tt, filter (fun d => negb (among ids (Mood.session_id d))) moods)).

Definition messages_delete_many (session_id : string) : M unit :=
  store_op E (fun w =>
    (tt, with_store w (db_sessions w)
           (filter (fun d => negb (String.eqb (Message.session_id d) session_id))
              (db_messages w)))).

Definition messages_delete_many_in (ids : list string) : M unit :=
  store_op E (fun w =>
    (tt, with_store w (db_sessions w)
           (filter (fun d => negb (among ids (Message.session_id d)))
              (db_messages w)))).

Definition sessions_delete_one (session_id : string) : M unit :=
  store_op E (fun w =>
    (tt, with_store w (without_first_session session_id (db_sessions w))
           (db_messages w))).

Definition sessions_delete_many_in (ids : list string) : M unit :=
  store_op E (fun w =>
    (tt, with_store w
           (filter (fun d => negb (among ids (Session.id d))) (db_sessions w))
           (db_messages w))).

Definition sessions_find_stale (cutoff : string) : M (list Session.doc) :=
  store_op E (fun w => (stale_sessions cutoff (db_sessions w), w)).

Definition log_mood (request : MoodRequest.t) : B MoodEntry.t :=
  mood_entry <~ lift (new_mood_entry (MoodRequest.session_id request)
                        (MoodRequest.mood_score request)
                        (MoodRequest.note request)) ;;
  moods_insert_one (mood_doc (isoformat E) mood_entry) ;;~
  retB mood_entry.

(** The loop of lines 417-418 and the models of line 420, each of which
    checks its score again. *)
Fixpoint mood_timestamps (entries : list Mood.doc) : M (list (Mood.doc * datetime)) :=
  match entries with
  | [] => ret []
  | entry :: entries' =>
      timestamp <- or_raise (fromisoformat (Mood.timestamp entry)) ValueError ;;
      rest <- mood_timestamps entries' ;;
      ret ((entry, timestamp) :: rest)
  end.

Fixpoint mood_models (entries : list (Mood.doc * datetime)) : M (list MoodEntry.t) :=
  match entries with
  | [] => ret []
  | (entry, timestamp) :: entries' =>
      if mood_score_ok (Mood.mood_score entry) then
        models <- mood_models entries' ;;
        ret (mood_model entry timestamp :: models)
      else raise ValueError
  end.

Definition get_mood_history (session_id : string) (days : Z) : B (list MoodEntry.t) :=
  today <~ lift (datetime_now E) ;;
  start_date <~ lift (or_raise (minus_days E today days) OverflowError) ;;
  mood_entries <~ moods_find_since session_id (isoformat E start_date) ;;
  dated <~ lift (mood_timestamps mood_entries) ;;
  lift (mood_models dated).

(** [get_resources]: the whole catalog. *)
Definition get_resources : M (list (string * list Resource)) :=
  ret MENTAL_HEALTH_RESOURCES.

Definition delete_user_data (session_id : string) : B string :=
  try_exceptB
    (lift (messages_delete_many session_id) ;;~
     moods_delete_many session_id ;;~
     lift (sessions_delete_one session_id) ;;~
     retB "All user data deleted successfully")
    (fun e =>
       lift (logging_error e) ;;~
       raiseB (HTTPException 500 "Error deleting user data")).

(** [startup_cleanup]: the sweep of the sessions idle for thirty days.  The
    line it logs on success is no event of the model. *)
Definition startup_cleanup : B unit :=
  try_exceptB
    (today <~ lift (datetime_now E) ;;
     cutoff_date <~ lift (or_raise (minus_days E today 30) OverflowError) ;;
     old_sessions <~ lift (sessions_find_stale (isoformat E cutoff_date)) ;;
     let old_session_ids := map Session.id old_sessions in
     match old_session_ids with
     | [] => retB tt
     | _ :: _ =>
         lift (messages_delete_many_in old_session_ids) ;;~
         moods_delete_many_in old_session_ids ;;~
         lift (sessions_delete_many_in old_session_ids) ;;~
         retB tt
     end)
    (fun e => lift (logging_error e)).

End OtherHandlers.

(** ** Vocabulary of the properties *)

(** The generation call fails: the service raises, or its answer has no
    choice, or its first choice has no content.  These are the three ways
    in which lines 268-275 raise. *)
Definition generation_fails (c : Completion) : Prop :=
  match c with
  | CompletionRaised => True
  | CompletionResponse [] => True
  | CompletionResponse (None :: _) => True
  | CompletionResponse (Some _ :: _) => False
  end.

(** What lines 268-275 make of the service's answer. *)
Definition completion_reply (c : Completion) : Result string :=
  match c with
  | CompletionRaised => Raise ServiceError
  | CompletionResponse [] => Raise IndexError
  | CompletionResponse (None :: _) => Raise AttributeError
  | CompletionResponse (Some content :: _) => Ok (Str.strip content)
  end.

(** The contexts sent to the service among some events, oldest first. *)
Fixpoint requested (evs : list Event) : list (list ContextMessage) :=
  match evs with
  | [] => []
  | CompletionRequested messages :: evs' => messages :: requested evs'
  | _ :: evs' => requested evs'
  end.

(** A handler only adds: the events and the stored messages of the world
    before are a prefix of those after. *)
Definition grows (w w' : World) : Prop :=
  (exists evs, events w' = (events w ++ evs)%list)
  /\ (exists docs, db_messages w' = (db_messages w ++ docs)%list).

(** A handler that only adds, from every world. *)
Definition growing {A : Type} (m : M A) : Prop := forall w, grows w (snd (m w)).

(** The user's message of a turn, as [chat] stores it. *)
Definition is_user_message_of (E : Env) (request : ChatRequest.t) (d : Message.doc)
  : Prop :=
  Message.content d = ChatRequest.message request
  /\ Message.is_user d = true
  /\ Message.sentiment_score d =
     Some (Sentiment.compound (analyze_sentiment E (ChatRequest.message request)))
  /\ Message.sentiment_label d =
     Some (Sentiment.label (analyze_sentiment E (ChatRequest.message request)))
  /\ Message.crisis_detected d = detect_crisis (ChatRequest.message request).

(** A non-empty run of blanks, as [\s+] takes it. *)
Definition blank_run (s : string) : bool :=
  match s with
  | EmptyString => false
  | String _ _ => forallb Str.is_space (list_ascii_of_string s)
  end.

(** The least number of characters that a match of a pattern spans. *)
Fixpoint min_length (p : Re.pattern) : nat :=
  match p with
  | [] => 0
  | Re.WordBoundary :: p' => min_length p'
  | _ :: p' => S (min_length p')
  end.

(** The first and the last character of a text, if any. *)
Definition first_char (s : string) : option ascii :=
  match s with
  | EmptyString => None
  | String c _ => Some c
  end.

Fixpoint last_char (s : string) : option ascii :=
  match s with
  | EmptyString => None
  | String c EmptyString => Some c
  | String _ s' => last_char s'
  end.

(** A handler that sends nothing to the service, from every world. *)
Definition silent {A : Type} (m : M A) : Prop :=
  forall w, requested (events (snd (m w))) = requested (events w).

(** A handler that raises nothing but a fault of the store. *)
Definition store_faults_only {A : Type} (m : M A) : Prop :=
  forall w e, fst (m w) = Raise e -> e = StoreError.

(** The same outside world with other faults of the store. *)
Definition with_store_faults (fails : nat -> bool) (E : Env) : Env :=
  {| polarity_scores := polarity_scores E;
     uuid4 := uuid4 E;
     utcnow := utcnow E;
     isoformat := isoformat E;
     minus_days := minus_days E;
     iso_date := iso_date E;
     store_fails := fails;
     completions_create := completions_create E |}.

(** The same outside world with another generation service. *)
Definition with_service (service : nat -> list ContextMessage -> Completion)
  (E : Env) : Env :=
  {| polarity_scores := polarity_scores E;
     uuid4 := uuid4 E;
     utcnow := utcnow E;
     isoformat := isoformat E;
     minus_days := minus_days E;
     iso_date := iso_date E;
     store_fails := store_fails E;
     completions_create := service |}.

(** The [message_count] and the [date] of a bucket of the trends. *)
Definition count_of (bucket : Dict) : Z :=
  match getitem "message_count" bucket with
  | Some (VInt n) => n
  | _ => 0%Z
  end.

Definition date_of (bucket : Dict) : option Value := getitem "date" bucket.

(** The number of scores kept in the groups of [daily_sentiments]. *)
Definition grouped {V : Type} (daily : list (string * list V)) : nat :=
  fold_right (fun day n => (List.length (snd day) + n)%nat) 0%nat daily.

(** A model read from a stored message: the document with its timestamp
    read from its ISO text. *)
Definition is_model_of (fromisoformat : string -> option datetime)
  (m : ChatMessage.t) (d : Message.doc) : Prop :=
  exists timestamp,
    fromisoformat (Message.timestamp d) = Some timestamp
    /\ m = message_model d timestamp.

(** The stored messages of a session, in the order of the store. *)
Definition messages_of (sid : string) (docs : list Message.doc) : list Message.doc :=
  filter (fun d => String.eqb (Message.session_id d) sid) docs.

(** A model read from a stored mood entry. *)
Definition is_mood_model_of (fromisoformat : string -> option datetime)
  (m : MoodEntry.t) (d : Mood.doc) : Prop :=
  exists timestamp,
    fromisoformat (Mood.timestamp d) = Some timestamp
    /\ m = mood_model d timestamp.

(** Every stored mood entry has a score that [MoodEntry] accepts. *)
Definition moods_in_range (docs : list Mood.doc) : Prop :=
  Forall (fun d => (1 <= Mood.mood_score d <= 5)%Z) docs.

(** An id of a stored session that was last active before the cutoff. *)
Definition stale_id (cutoff : string) (sessions : list Session.doc) (x : string)
  : Prop :=
  exists s,
    In s sessions
    /\ String.ltb (Session.last_activity s) cutoff = true
    /\ Session.id s = x.

Arguments detect_crisis : simpl never.
Arguments analyze_sentiment : simpl never.
Arguments context_messages : simpl never.
Arguments recent_messages_of : simpl never.
Arguments scored_messages_since : simpl never.
Arguments set_last_activity : simpl never.
Arguments Str.strip : simpl never.
Arguments getitem : simpl never.

(** ** A small concrete store, for running the other handlers *)

Module SampleStore.

(** The instants that [Sample.iso] tells apart. *)
Definition instants : list datetime :=
  (map (fun n => (Sample.midnight + Z.of_nat n)%Z) (seq 0 100)
   ++ map (fun n => (Sample.midnight - 7 * 86400000000 + Z.of_nat n)%Z) (seq 0 100))%list.

(** [fromisoformat] on the texts of [Sample.iso]: the first instant that
    is written so; any other text is no ISO text. *)
Definition fromisoformat (s : string) : option datetime :=
  find (fun t => String.eqb (Sample.iso t) s) instants.

(** The world of [Sample.service_up] with a store that is down, and with
    a store that fails at one call only. *)
Definition store_down : Env := with_store_faults (fun _ => true) Sample.service_up.

Definition failing_at (n : nat) : Env :=
  with_store_faults (Nat.eqb n) Sample.service_up.

Definition sam : SessionRequest.t := {| SessionRequest.nickname := Some "sam" |}.

(** The session that [create_session] makes of [sam] in the empty world,
    and the world after it. *)
Definition sam_session : UserSession.t :=
  {| UserSession.id := "id-00";
     UserSession.nickname := Some "sam";
     UserSession.created_at := Sample.midnight;
     UserSession.last_activity := (Sample.midnight + 1)%Z;
     UserSession.settings := [] |}.

Definition one_session : World :=
  snd (create_session Sample.service_up sam Sample.empty_world).

(** A message of the session [s1] whose timestamp is no ISO text. *)
Definition unreadable : Message.doc :=
  {| Message.id := "m9";
     Message.session_id := "s1";
     Message.content := "hi";
     Message.is_user := true;
     Message.timestamp := "yesterday";
     Message.sentiment_score := None;
     Message.sentiment_label := None;
     Message.crisis_detected := false |}.

Definition torn : World :=
  with_store Sample.after_three_turns (db_sessions Sample.after_three_turns)
    (db_messages Sample.after_three_turns ++ [unreadable])%list.

Definition mood_of (sid : string) (score : Z) : Mood.doc :=
  {| Mood.id := "m-" ++ sid;
     Mood.session_id := sid;
     Mood.mood_score := score;
     Mood.note := None;
     Mood.timestamp := "2024-01-01T00:00:00+00:00" |}.

Definition session_of (sid last_activity : string) : Session.doc :=
  {| Session.id := sid;
     Session.nickname := None;
     Session.created_at := "2023-11-01T00:00:00+00:00";
     Session.last_activity := last_activity;
     Session.settings := [] |}.

Definition message_of (sid content : string) : Message.doc :=
  {| Message.id := "m-" ++ sid;
     Message.session_id := sid;
     Message.content := content;
     Message.is_user := true;
     Message.timestamp := "2023-11-01T00:00:00+00:00";
     Message.sentiment_score := None;
     Message.sentiment_label := None;
     Message.crisis_detected := false |}.

(** The three turns of [s1], with its session, a session [s0] that was
    idle since November with a message, and a mood entry of each. *)
Definition backend : Backend :=
  {| core :=
       with_store Sample.after_three_turns
         [ session_of "s0" "2023-11-01T00:00:00+00:00";
           session_of "s1" "2024-01-01T00:00:00.000008+00:00" ]
         (message_of "s0" "long ago" :: db_messages Sample.after_three_turns);
     db_mood_entries := [ mood_of "s0" 2; mood_of "s1" 4 ] |}.

Definition mood (score : Z) : MoodRequest.t :=
  {| MoodRequest.mood_score := score;
     MoodRequest.note := Some "fine";
     MoodRequest.session_id := "s1" |}.

End SampleStore.

(** * Properties *)

(** ** Crisis detection *)

(** The three loops of [detect_crisis] as one disjunction. *)
Lemma detect_crisis_unfold (text : string) :
  detect_crisis text =
  existsb (fun keyword => Str.contains keyword (Str.lower text)) CRISIS_KEYWORDS
  || existsb (fun phrase => Str.contains phrase (Str.lower text)) CRISIS_PHRASES
  || existsb (fun pattern => Re.search pattern (Str.lower text)) crisis_patterns.
Proof.
  unfold detect_crisis.
  destruct (existsb _ CRISIS_KEYWORDS); [reflexivity|].
  destruct (existsb _ CRISIS_PHRASES); [reflexivity|].
  destruct (existsb _ crisis_patterns); reflexivity.
Qed.

(** A keyword anywhere in the lowered text is enough. *)
Lemma detect_crisis_keyword (text keyword : string) :
  In keyword CRISIS_KEYWORDS ->
  Str.contains keyword (Str.lower text) = true ->
  detect_crisis text = true.
Proof.
  intros Hin Hsub. rewrite detect_crisis_unfold.
  apply orb_true_iff; left. apply orb_true_iff; left.
  apply existsb_exists. exists keyword. split; assumption.
Qed.

(** C1, as the code has it: [detect_crisis "I want to diet"] is [true].  The
    keyword [want to die] is looked up by plain containment and is a
    substring of [i want to diet]; the word boundary is kept by the four
    patterns only, none of which matches this text. *)
Theorem detect_crisis_diet :
  detect_crisis "I want to diet" = true
  /\ Str.contains "want to die" (Str.lower "I want to diet") = true
  /\ existsb (fun pattern => Re.search pattern (Str.lower "I want to diet"))
       crisis_patterns = false.
Proof.
  split; [|split].
  - apply detect_crisis_keyword with (keyword := "want to die").
    + unfold CRISIS_KEYWORDS. simpl. tauto.
    + reflexivity.
  - reflexivity.
  - reflexivity.
Qed.

(** C1 as stated fails: the detector fires on [I want to diet]. *)
Lemma diet_triggers_the_detector : detect_crisis "I want to diet" <> false.
Proof.
  rewrite detect_crisis_unfold. vm_compute. discriminate.
Qed.

(** ** Sentiment thresholds *)

Module FloatOrder.

Open Scope float_scope.

Lemma SFcompare_swap (x y : spec_float) :
  SFcompare y x = option_map CompOpp (SFcompare x y).
Proof.
  destruct x as [s|s| |s m e], y as [s'|s'| |s' m' e']; simpl; try reflexivity;
    try (destruct s; reflexivity); try (destruct s'; reflexivity);
    try (destruct s, s'; reflexivity).
  destruct s, s'; simpl; try reflexivity;
    rewrite (Z.compare_antisym e e'); destruct (e ?= e')%Z; simpl; try reflexivity;
    change (PosDef.Pos.compare_cont Eq m' m) with (Pos.compare m' m);
    change (PosDef.Pos.compare_cont Eq m m') with (Pos.compare m m');
    rewrite (Pos.compare_antisym m m'); destruct (m ?= m')%positive; reflexivity.
Qed.

Lemma SFcompare_refl (x : spec_float) :
  SFcompare x x = None \/ SFcompare x x = Some Eq.
Proof.
  destruct x as [s|s| |s m e]; simpl; auto.
  - destruct s; auto.
  - right. rewrite Z.compare_refl.
    change (PosDef.Pos.compare_cont Eq m m) with (Pos.compare m m).
    rewrite Pos.compare_refl. destruct s; reflexivity.
Qed.

Lemma SFcompare_None (x y : spec_float) :
  SFcompare x y = None -> x = S754_nan \/ y = S754_nan.
Proof.
  destruct x as [s|s| |s m e], y as [s'|s'| |s' m' e']; simpl; auto; discriminate.
Qed.

(** Among numbers, [x <= y] fails exactly when [y < x]. *)
Lemma leb_negb_ltb (x y : float) :
  (x <=? x) = true -> (y <=? y) = true -> (x <=? y) = negb (y <? x).
Proof.
  rewrite !leb_spec, ltb_spec. unfold SFleb, SFltb.
  rewrite (SFcompare_swap (Prim2SF x) (Prim2SF y)).
  destruct (SFcompare (Prim2SF x) (Prim2SF y)) as [[]|] eqn:Hc; simpl; try reflexivity.
  destruct (SFcompare_None _ _ Hc) as [H|H]; rewrite H; simpl; discriminate.
Qed.

(** Whatever is below or above something is a number. *)
Lemma leb_number_l (x y : float) : (x <=? y) = true -> (x <=? x) = true.
Proof.
  rewrite !leb_spec. unfold SFleb.
  destruct (SFcompare_refl (Prim2SF x)) as [H|H]; rewrite H; [|reflexivity].
  destruct (SFcompare_None _ _ H) as [N|N]; rewrite N; simpl; discriminate.
Qed.

Lemma leb_number_r (x y : float) : (x <=? y) = true -> (y <=? y) = true.
Proof.
  rewrite !leb_spec. unfold SFleb.
  destruct (SFcompare_refl (Prim2SF y)) as [H|H]; rewrite H; [|reflexivity].
  destruct (SFcompare_None _ _ H) as [N|N]; rewrite N;
    destruct (Prim2SF x); simpl; discriminate.
Qed.

(** The six thresholds of [analyze_sentiment] as sign, mantissa, exponent. *)
Ltac thresholds :=
  change (Prim2SF 0.05) with (S754_finite false 7205759403792794 (-57)) in *;
  change (Prim2SF (-0.05)) with (S754_finite true 7205759403792794 (-57)) in *;
  change (Prim2SF 0.2) with (S754_finite false 7205759403792794 (-55)) in *;
  change (Prim2SF (-0.2)) with (S754_finite true 7205759403792794 (-55)) in *;
  change (Prim2SF 0.5) with (S754_finite false 4503599627370496 (-53)) in *;
  change (Prim2SF (-0.5)) with (S754_finite true 4503599627370496 (-53)) in *.

(** A float on one side of zero is not on the other: the sign decides. *)
Ltac by_sign c :=
  rewrite !leb_spec; thresholds;
  destruct (Prim2SF c) as [[]|[]| |[] ? ?];
  cbv beta iota delta [SFleb SFcompare]; congruence.

Lemma below_not_above_005 (c : float) :
  (c <=? -0.05) = true -> (0.05 <=? c) = false.
Proof. by_sign c. Qed.

Lemma above_05_not_below (c : float) :
  (0.5 <=? c) = true -> (c <=? -0.5) = false /\ (c <=? -0.2) = false.
Proof. intros H; split; revert H; by_sign c. Qed.

Lemma above_02_not_below (c : float) :
  (0.2 <=? c) = true -> (c <=? -0.5) = false /\ (c <=? -0.2) = false.
Proof. intros H; split; revert H; by_sign c. Qed.

(** Below [-0.2], not being below [-0.5] is being above it. *)
Lemma between_negative (c : float) :
  (c <=? -0.2) = true -> (c <=? -0.5) = negb (-0.5 <? c).
Proof.
  intros H. apply leb_negb_ltb; [exact (leb_number_l _ _ H) | reflexivity].
Qed.

(** Above [0.2], not being above [0.5] is being below it. *)
Lemma between_positive (c : float) :
  (0.2 <=? c) = true -> (0.5 <=? c) = negb (c <? 0.5).
Proof.
  intros H. apply leb_negb_ltb; [reflexivity | exact (leb_number_r _ _ H)].
Qed.

End FloatOrder.

(** The cascade of the label over the truth values of its two tests. *)
Lemma label_cases (p n : bool) :
  (n = true -> p = false) ->
  let label := if p then "positive" else if n then "negative" else "neutral" in
  (label = "positive" <-> p = true)
  /\ (label = "negative" <-> n = true)
  /\ (label = "neutral" <-> p = false /\ n = false).
Proof.
  intros Hn.
  destruct p, n; simpl; try (specialize (Hn eq_refl); discriminate);
    repeat split; intros; try discriminate; try reflexivity;
    repeat match goal with H : _ /\ _ |- _ => destruct H end; discriminate.
Qed.

(** The cascade of the emotional state over the truth values of its four
    tests [vn], [ng], [vp], [ps] and of the two strict comparisons [lo]
    ([-0.5 < c]) and [hi] ([c < 0.5]). *)
Lemma state_cases (vn ng vp ps lo hi : bool) :
  (vp = true -> vn = false /\ ng = false) ->
  (ps = true -> vn = false /\ ng = false) ->
  (ng = true -> vn = negb lo) ->
  (ps = true -> vp = negb hi) ->
  let state :=
    if vn then "very_negative" else if ng then "negative"
    else if vp then "very_positive" else if ps then "positive" else "neutral" in
  (state = "very_negative" <-> vn = true)
  /\ (state = "negative" <-> lo = true /\ ng = true)
  /\ (state = "very_positive" <-> vp = true)
  /\ (state = "positive" <-> ps = true /\ hi = true)
  /\ (state = "neutral" <->
      vn = false /\ (lo = false \/ ng = false)
      /\ vp = false /\ (ps = false \/ hi = false)).
Proof.
  intros Hvp Hps Hng Hhi.
  destruct vn, ng, vp, ps, lo, hi; simpl in *;
    try (destruct (Hvp eq_refl); discriminate);
    try (destruct (Hps eq_refl); discriminate);
    try (specialize (Hng eq_refl); discriminate);
    try (specialize (Hhi eq_refl); discriminate);
    clear Hvp Hps Hng Hhi; repeat split; intros; try discriminate;
    try reflexivity; intuition congruence.
Qed.

Section SentimentProperties.

Variable E : Env.

Open Scope float_scope.

(** C5: the label is [positive] iff [compound >= 0.05], [negative] iff
    [compound <= -0.05] and [neutral] otherwise; the emotional state is
    [very_negative] iff [compound <= -0.5], [negative] iff
    [-0.5 < compound <= -0.2], [very_positive] iff [compound >= 0.5],
    [positive] iff [0.2 <= compound < 0.5] and [neutral] otherwise, that
    is, when none of these four holds.  The compound score is the
    analyzer's, unchanged. *)
Theorem sentiment_thresholds (text : string) :
  let result := analyze_sentiment E text in
  let c := Sentiment.compound result in
  c = compound (polarity_scores E text)
  /\ ((Sentiment.label result = "positive" <-> (0.05 <=? c) = true)
      /\ (Sentiment.label result = "negative" <-> (c <=? -0.05) = true)
      /\ (Sentiment.label result = "neutral" <->
          (0.05 <=? c) = false /\ (c <=? -0.05) = false))
  /\ ((Sentiment.emotional_state result = "very_negative" <-> (c <=? -0.5) = true)
      /\ (Sentiment.emotional_state result = "negative" <->
          (-0.5 <? c) = true /\ (c <=? -0.2) = true)
      /\ (Sentiment.emotional_state result = "very_positive" <-> (0.5 <=? c) = true)
      /\ (Sentiment.emotional_state result = "positive" <->
          (0.2 <=? c) = true /\ (c <? 0.5) = true)
      /\ (Sentiment.emotional_state result = "neutral" <->
          (c <=? -0.5) = false
          /\ ((-0.5 <? c) = false \/ (c <=? -0.2) = false)
          /\ (0.5 <=? c) = false
          /\ ((0.2 <=? c) = false \/ (c <? 0.5) = false))).
Proof.
  intros result c. subst c result. unfold analyze_sentiment.
  set (scores := polarity_scores E text).
  change (Sentiment.compound (sentiment_of_scores scores)) with (compound scores).
  split; [reflexivity|split].
  - apply (label_cases (0.05 <=? compound scores) (compound scores <=? -0.05)).
    apply FloatOrder.below_not_above_005.
  - apply (state_cases (compound scores <=? -0.5) (compound scores <=? -0.2)
             (0.5 <=? compound scores) (0.2 <=? compound scores)
             (-0.5 <? compound scores) (compound scores <? 0.5)).
    + apply FloatOrder.above_05_not_below.
    + apply FloatOrder.above_02_not_below.
    + apply FloatOrder.between_negative.
    + apply FloatOrder.between_positive.
Qed.

End SentimentProperties.

(** ** The store's order *)

Section Sorting.

Context {A : Type}.
Variable le : A -> A -> bool.
Hypothesis le_total : forall a b, le a b = true \/ le b a = true.

Let R (a b : A) : Prop := le a b = true.

Lemma insert_by_HdRel (a x : A) (l : list A) :
  R a x -> HdRel R a l -> HdRel R a (insert_by le x l).
Proof.
  intros Hax Hl. destruct l as [|y l]; simpl.
  - constructor. exact Hax.
  - destruct (le x y); constructor.
    + exact Hax.
    + inversion Hl; assumption.
Qed.

Lemma insert_by_Sorted (x : A) (l : list A) :
  Sorted R l -> Sorted R (insert_by le x l).
Proof.
  induction l as [|y l IH]; intros Hs; simpl.
  - repeat constructor.
  - destruct (le x y) eqn:Hxy.
    + constructor; [exact Hs | constructor; exact Hxy].
    + inversion Hs as [|? ? Hl Hhd]; subst. constructor.
      * apply IH. exact Hl.
      * apply insert_by_HdRel; [|exact Hhd].
        destruct (le_total x y) as [H|H]; [congruence | exact H].
Qed.

Lemma sort_by_Sorted (l : list A) : Sorted R (sort_by le l).
Proof.
  induction l as [|x l IH]; simpl.
  - constructor.
  - apply insert_by_Sorted. exact IH.
Qed.

End Sorting.

Lemma Sorted_firstn {A : Type} (R : A -> A -> Prop) (n : nat) (l : list A) :
  Sorted R l -> Sorted R (firstn n l).
Proof.
  revert l. induction n as [|n IH]; intros l Hs; simpl.
  - constructor.
  - destruct l as [|x l]; [constructor|].
    inversion Hs as [|? ? Hl Hhd]; subst. constructor.
    + apply IH. exact Hl.
    + destruct n; simpl; [constructor|].
      destruct l; [constructor|]. inversion Hhd; subst. constructor. assumption.
Qed.

Lemma Sorted_snoc {A : Type} (R : A -> A -> Prop) (l : list A) (x : A) :
  Sorted R l -> (forall l' y, l = (l' ++ [y])%list -> R y x) ->
  Sorted R (l ++ [x]).
Proof.
  induction l as [|a l IH]; intros Hs Hlast; simpl.
  - repeat constructor.
  - inversion Hs as [|? ? Hl Hhd]; subst. constructor.
    + apply IH; [exact Hl|]. intros l' y Hy.
      apply (Hlast (a :: l') y). rewrite Hy. reflexivity.
    + destruct l as [|b l]; simpl.
      * constructor. apply (Hlast [] a). reflexivity.
      * constructor. inversion Hhd; assumption.
Qed.

(** A list sorted one way is, read backwards, sorted the other way. *)
Lemma Sorted_rev {A : Type} (R : A -> A -> Prop) (l : list A) :
  Sorted R l -> Sorted (fun a b => R b a) (rev l).
Proof.
  induction l as [|a l IH]; intros Hs; simpl.
  - constructor.
  - inversion Hs as [|? ? Hl Hhd]; subst.
    apply Sorted_snoc; [apply IH; exact Hl|].
    intros l' y Hy. destruct l as [|b l].
    + destruct l'; discriminate Hy.
    + simpl in Hy. apply app_inj_tail in Hy. destruct Hy as [_ Hy]. subst y.
      inversion Hhd; assumption.
Qed.

(** The store's answer to the query of [generate_ai_response] is newest
    first and has at most six messages, all of the session. *)
Lemma recent_messages_newest_first (sid : string) (n : nat) (docs : list Message.doc) :
  Sorted (fun a b => newer_eq a b = true) (recent_messages_of sid n docs).
Proof.
  unfold recent_messages_of. apply Sorted_firstn.
  apply (sort_by_Sorted newer_eq).
  intros a b. unfold newer_eq, older_eq.
  destruct (String.leb_total (Message.timestamp a) (Message.timestamp b)); auto.
Qed.

Lemma recent_messages_length (sid : string) (n : nat) (docs : list Message.doc) :
  (List.length (recent_messages_of sid n docs) <= n)%nat.
Proof. unfold recent_messages_of. apply firstn_le_length. Qed.

(** ** Running a handler *)

Lemma bind_ok {A B : Type} (m : M A) (k : A -> M B) (w w1 : World) (a : A) :
  m w = (Ok a, w1) -> bind m k w = k a w1.
Proof. intros H. unfold bind. rewrite H. reflexivity. Qed.

Lemma bind_raise {A B : Type} (m : M A) (k : A -> M B) (w w1 : World) (e : Exn) :
  m w = (Raise e, w1) -> bind m k w = (Raise e, w1).
Proof. intros H. unfold bind. rewrite H. reflexivity. Qed.

(** A bind that returns went through both of its halves. *)
Lemma bind_Ok_inv {A B : Type} (m : M A) (k : A -> M B) (w w' : World) (b : B) :
  bind m k w = (Ok b, w') ->
  exists a w1, m w = (Ok a, w1) /\ k a w1 = (Ok b, w').
Proof.
  unfold bind. destruct (m w) as [[a|e] w1]; intros H.
  - exists a, w1. split; [reflexivity | exact H].
  - discriminate H.
Qed.

Lemma try_except_Ok_inv {A : Type} (m : M A) (h : Exn -> M A) (w w' : World) (a : A) :
  try_except m h w = (Ok a, w') ->
  m w = (Ok a, w') \/ exists e w1, m w = (Raise e, w1) /\ h e w1 = (Ok a, w').
Proof.
  unfold try_except. destruct (m w) as [[a1|e] w1]; intros H.
  - left. exact H.
  - right. exists e, w1. split; [reflexivity | exact H].
Qed.

Lemma grows_refl (w : World) : grows w w.
Proof. split; exists []; rewrite app_nil_r; reflexivity. Qed.

Lemma grows_same (w w' : World) :
  events w' = events w -> db_messages w' = db_messages w -> grows w w'.
Proof.
  intros He Hd. split; exists []; rewrite app_nil_r; assumption.
Qed.

Lemma grows_trans (w1 w2 w3 : World) : grows w1 w2 -> grows w2 w3 -> grows w1 w3.
Proof.
  intros [[e1 He1] [d1 Hd1]] [[e2 He2] [d2 Hd2]]. split.
  - exists (e1 ++ e2)%list. rewrite He2, He1, app_assoc. reflexivity.
  - exists (d1 ++ d2)%list. rewrite Hd2, Hd1, app_assoc. reflexivity.
Qed.

Lemma growing_ret {A : Type} (a : A) : growing (ret a).
Proof. intros w. apply grows_refl. Qed.

Lemma growing_raise {A : Type} (e : Exn) : growing (@raise A e).
Proof. intros w. apply grows_refl. Qed.

Lemma growing_or_raise {A : Type} (o : option A) (e : Exn) : growing (or_raise o e).
Proof. destruct o; [apply growing_ret | apply growing_raise]. Qed.

Lemma growing_bind {A B : Type} (m : M A) (k : A -> M B) :
  growing m -> (forall a, growing (k a)) -> growing (bind m k).
Proof.
  intros Hm Hk w. unfold bind. specialize (Hm w).
  destruct (m w) as [[a|e] w1]; simpl in *.
  - apply grows_trans with w1; [exact Hm | apply Hk].
  - exact Hm.
Qed.

Lemma growing_try_except {A : Type} (m : M A) (h : Exn -> M A) :
  growing m -> (forall e, growing (h e)) -> growing (try_except m h).
Proof.
  intros Hm Hh w. unfold try_except. specialize (Hm w).
  destruct (m w) as [[a|e] w1]; simpl in *.
  - exact Hm.
  - apply grows_trans with w1; [exact Hm | apply Hh].
Qed.

Lemma requested_app (evs evs' : list Event) :
  requested (evs ++ evs') = (requested evs ++ requested evs')%list.
Proof.
  induction evs as [|ev evs IH]; simpl; [reflexivity|].
  destruct ev; simpl; rewrite IH; reflexivity.
Qed.

(** *** Events before a request *)

Lemma requested_none_no_request (evs pre post : list Event)
  (messages : list ContextMessage) :
  requested evs = [] -> evs <> (pre ++ CompletionRequested messages :: post)%list.
Proof.
  intros Hreq Heq. subst evs. rewrite requested_app in Hreq. simpl in Hreq.
  destruct (requested pre); discriminate Hreq.
Qed.

(** What stands before the first request stands before every request. *)
Lemma before_request (evs evs' pre post : list Event) (ev : Event)
  (messages : list ContextMessage) :
  requested evs = [] ->
  (forall m, ev <> CompletionRequested m) ->
  (evs ++ ev :: evs')%list = (pre ++ CompletionRequested messages :: post)%list ->
  In ev pre.
Proof.
  revert pre. induction evs as [|a evs IH]; intros pre Hreq Hev Heq.
  - destruct pre as [|b pre]; simpl in Heq.
    + inversion Heq as [[Hhd Htl]]. contradiction (Hev messages).
    + inversion Heq. left. reflexivity.
  - destruct pre as [|b pre]; simpl in Heq.
    + inversion Heq as [[Hhd Htl]]. subst a. simpl in Hreq. discriminate Hreq.
    + inversion Heq as [[Hhd Htl]]. subst b. right.
      apply IH; [|exact Hev | exact Htl].
      destruct a; simpl in Hreq; [exact Hreq | exact Hreq | discriminate Hreq | exact Hreq].
Qed.

Section HandlerProperties.

Variable E : Env.

(** *** The primitive effects *)

Lemma new_message_run (sid content : string) (is_user : bool)
  (score : option float) (label : option string) (crisis : bool) (w : World) :
  new_message E sid content is_user score label crisis w =
  (Ok {| Message.id := uuid4 E (uuids_drawn w);
         Message.session_id := sid;
         Message.content := content;
         Message.is_user := is_user;
         Message.timestamp := isoformat E (utcnow E (clock_reads w));
         Message.sentiment_score := score;
         Message.sentiment_label := label;
         Message.crisis_detected := crisis |},
   count_clock_read (count_uuid w)).
Proof. reflexivity. Qed.

Lemma new_session_run (w : World) :
  new_session E w =
  (Ok {| Session.id := uuid4 E (uuids_drawn w);
         Session.nickname := None;
         Session.created_at := isoformat E (utcnow E (clock_reads w));
         Session.last_activity := isoformat E (utcnow E (S (clock_reads w)));
         Session.settings := [] |},
   count_clock_read (count_clock_read (count_uuid w))).
Proof. reflexivity. Qed.

Lemma now_iso_run (w : World) :
  now_iso E w = (Ok (isoformat E (utcnow E (clock_reads w))), count_clock_read w).
Proof. reflexivity. Qed.

Lemma store_op_ok {A : Type} (act : World -> A * World) (w : World) :
  store_fails E (store_ops w) = false ->
  store_op E act w = (Ok (fst (act (count_store_op w))), snd (act (count_store_op w))).
Proof.
  intros H. unfold store_op. rewrite H. destruct (act _); reflexivity.
Qed.

Lemma store_op_fault {A : Type} (act : World -> A * World) (w : World) :
  store_fails E (store_ops w) = true ->
  store_op E act w = (Raise StoreError, count_store_op w).
Proof. intros H. unfold store_op. rewrite H. reflexivity. Qed.

Lemma sessions_insert_one_run (d : Session.doc) (w : World) :
  store_fails E (store_ops w) = false ->
  sessions_insert_one E d w =
  (Ok tt, emit (SessionInserted d)
            (with_store (count_store_op w) (db_sessions w ++ [d])%list (db_messages w))).
Proof. intros H. unfold sessions_insert_one. rewrite store_op_ok by exact H. reflexivity. Qed.

Lemma messages_insert_one_run (d : Message.doc) (w : World) :
  store_fails E (store_ops w) = false ->
  messages_insert_one E d w =
  (Ok tt, emit (MessageInserted d)
            (with_store (count_store_op w) (db_sessions w) (db_messages w ++ [d])%list)).
Proof. intros H. unfold messages_insert_one. rewrite store_op_ok by exact H. reflexivity. Qed.

Lemma sessions_update_run (sid ts : string) (w : World) :
  store_fails E (store_ops w) = false ->
  sessions_update_last_activity E sid ts w =
  (Ok tt, with_store (count_store_op w)
            (set_last_activity sid ts (db_sessions w)) (db_messages w)).
Proof.
  intros H. unfold sessions_update_last_activity.
  rewrite store_op_ok by exact H. reflexivity.
Qed.

Lemma growing_store_op {A : Type} (act : World -> A * World) :
  (forall w, grows (count_store_op w) (snd (act (count_store_op w)))) ->
  growing (store_op E act).
Proof.
  intros Hact w. unfold store_op.
  destruct (store_fails E (store_ops w)); simpl;
    [apply grows_same; reflexivity|].
  specialize (Hact w). destruct (act _) as [a w1]; simpl in *.
  apply grows_trans with (count_store_op w);
    [apply grows_same; reflexivity | exact Hact].
Qed.

Lemma grows_emit (ev : Event) (w : World) : grows w (emit ev w).
Proof.
  split; simpl.
  - exists [ev]. reflexivity.
  - exists []. rewrite app_nil_r. reflexivity.
Qed.

Lemma growing_messages_insert_one (d : Message.doc) : growing (messages_insert_one E d).
Proof.
  apply growing_store_op. intros w. split; simpl.
  - exists [MessageInserted d]. reflexivity.
  - exists [d]. reflexivity.
Qed.

Lemma growing_sessions_insert_one (d : Session.doc) : growing (sessions_insert_one E d).
Proof.
  apply growing_store_op. intros w. split; simpl.
  - exists [SessionInserted d]. reflexivity.
  - exists []. rewrite app_nil_r. reflexivity.
Qed.

Lemma growing_messages_find_recent (sid : string) : growing (messages_find_recent E sid).
Proof. apply growing_store_op. intros w. apply grows_refl. Qed.

Lemma growing_sessions_update (sid ts : string) :
  growing (sessions_update_last_activity E sid ts).
Proof. apply growing_store_op. intros w. apply grows_same; reflexivity. Qed.

Lemma growing_new_message (sid content : string) (is_user : bool)
  (score : option float) (label : option string) (crisis : bool) :
  growing (new_message E sid content is_user score label crisis).
Proof. intros w. apply grows_same; reflexivity. Qed.

Lemma growing_now_iso : growing (now_iso E).
Proof. intros w. apply grows_same; reflexivity. Qed.

Lemma growing_logging_error (e : Exn) : growing (logging_error e).
Proof. intros w. apply grows_emit. Qed.

Lemma growing_chat_completions_create (messages : list ContextMessage) :
  growing (chat_completions_create E messages).
Proof.
  intros w. unfold chat_completions_create.
  destruct (completions_create E (completions w) messages); simpl;
    apply (grows_emit (CompletionRequested messages) (count_completion w)).
Qed.

Lemma growing_first_content (choices : list (option string)) :
  growing (first_content choices).
Proof.
  unfold first_content.
  repeat (apply growing_bind; [apply growing_or_raise | intros ?]).
  apply growing_ret.
Qed.

Lemma growing_generate_ai_response (message sid : string) (crisis : bool) :
  growing (generate_ai_response E message sid crisis).
Proof.
  unfold generate_ai_response, generate_ai_response_try.
  apply growing_try_except.
  - apply growing_bind; [apply growing_messages_find_recent | intros recent].
    apply growing_bind; [apply growing_chat_completions_create | intros choices].
    apply growing_first_content.
  - intros e. apply growing_bind; [apply growing_logging_error | intros _].
    destruct crisis; apply growing_ret.
Qed.

(** *** The reply generator *)

(** The request that [generate_ai_response] sends from the world [w]. *)
Let request_of (message sid : string) (crisis : bool) (w : World)
  : list ContextMessage :=
  context_messages (recent_messages_of sid 6 (db_messages w)) message crisis.

(** With the store at fault the generator logs and falls back without
    calling the service. *)
Lemma generate_ai_response_store_fault (message sid : string) (crisis : bool)
  (w : World) :
  store_fails E (store_ops w) = true ->
  generate_ai_response E message sid crisis w =
  (Ok (if crisis then crisis_fallback else generic_fallback),
   emit (ErrorLogged StoreError) (count_store_op w)).
Proof.
  intros H. unfold generate_ai_response, generate_ai_response_try, try_except.
  rewrite (bind_raise _ _ w (count_store_op w) StoreError)
    by (apply store_op_fault; exact H).
  destruct crisis; reflexivity.
Qed.

(** Otherwise it calls the service once, with the context built from the
    store's answer, and falls back when lines 268-275 raise. *)
Lemma generate_ai_response_run (message sid : string) (crisis : bool) (w : World) :
  store_fails E (store_ops w) = false ->
  let messages := request_of message sid crisis w in
  let w1 := emit (CompletionRequested messages) (count_completion (count_store_op w)) in
  generate_ai_response E message sid crisis w =
  match completion_reply (completions_create E (completions w) messages) with
  | Ok text => (Ok text, w1)
  | Raise e =>
      (Ok (if crisis then crisis_fallback else generic_fallback),
       emit (ErrorLogged e) w1)
  end.
Proof.
  intros H messages w1.
  unfold generate_ai_response, generate_ai_response_try, try_except.
  rewrite (bind_ok _ _ w (count_store_op w) (recent_messages_of sid 6 (db_messages w)))
    by (unfold messages_find_recent; rewrite store_op_ok by exact H; reflexivity).
  fold (request_of message sid crisis w). fold messages.
  unfold bind at 1, chat_completions_create.
  change (completions (count_store_op w)) with (completions w).
  fold w1.
  destruct (completions_create E (completions w) messages) as [|[|[content|] choices]];
    simpl; destruct crisis; reflexivity.
Qed.

(** The generator never raises. *)
Lemma generate_ai_response_returns (message sid : string) (crisis : bool) (w : World) :
  exists text, fst (generate_ai_response E message sid crisis w) = Ok text.
Proof.
  destruct (store_fails E (store_ops w)) eqn:H.
  - rewrite generate_ai_response_store_fault by exact H. eexists; reflexivity.
  - rewrite generate_ai_response_run by exact H.
    destruct (completion_reply _); eexists; reflexivity.
Qed.

Lemma generation_fails_reply (c : Completion) :
  generation_fails c <-> exists e, completion_reply c = Raise e.
Proof.
  destruct c as [|[|[content|] choices]]; simpl; split; intros H;
    try exact I; try (eexists; reflexivity); try contradiction.
  destruct H as [e H]. discriminate H.
Qed.

(** *** The context handed to the service *)

Lemma context_messages_length (recent : list Message.doc) (message : string)
  (crisis : bool) :
  List.length (context_messages recent message crisis) = (2 + List.length recent)%nat.
Proof.
  unfold context_messages. simpl.
  rewrite length_app, length_map, length_rev. simpl. lia.
Qed.

(** C6: with the store answering, the one context that the generator hands
    to the service is the system directive, then one entry for each message
    of the fetched history, oldest first (the store's newest-first answer,
    reversed), each with the content of its message and the role [user] or
    [assistant] of its author, then the current user message. *)
Theorem context_chronological (message sid : string) (crisis : bool) (w : World) :
  store_fails E (store_ops w) = false ->
  let recent := recent_messages_of sid 6 (db_messages w) in
  Sorted (fun a b => newer_eq a b = true) recent
  /\ Sorted (fun a b => older_eq a b = true) (rev recent)
  /\ requested (events (snd (generate_ai_response E message sid crisis w))) =
     (requested (events w)
      ++ [ {| role := "system"; content := system_prompt crisis |}
           :: map (fun msg =>
                     {| role := if Message.is_user msg then "user" else "assistant";
                        content := Message.content msg |})
                (rev recent)
           ++ [ {| role := "user"; content := message |} ] ])%list.
Proof.
  intros H recent. split; [|split].
  - apply recent_messages_newest_first.
  - apply (Sorted_rev (fun a b => newer_eq a b = true)).
    apply recent_messages_newest_first.
  - rewrite generate_ai_response_run by exact H.
    destruct (completion_reply _); simpl; rewrite ?requested_app; simpl;
      rewrite ?requested_app; simpl; rewrite ?app_nil_r; reflexivity.
Qed.

(** C7, as the code has it: every context that the generator hands to the
    service is the system directive, at most 6 history messages and the
    current user message, hence at most 8 entries. *)
Theorem context_at_most_eight (message sid : string) (crisis : bool) (w : World) :
  exists evs,
    events (snd (generate_ai_response E message sid crisis w)) = (events w ++ evs)%list
    /\ Forall
         (fun messages =>
            exists history : list Message.doc,
              (List.length history <= 6)%nat
              /\ messages =
                 ({| role := "system"; content := system_prompt crisis |}
                  :: map context_entry history
                  ++ [ {| role := "user"; content := message |} ])%list
              /\ List.length messages = (1 + List.length history + 1)%nat
              /\ (List.length messages <= 8)%nat)
         (requested evs).
Proof.
  destruct (store_fails E (store_ops w)) eqn:H.
  - rewrite generate_ai_response_store_fault by exact H.
    exists [ErrorLogged StoreError]. split; [reflexivity | constructor].
  - rewrite generate_ai_response_run by exact H.
    set (recent := recent_messages_of sid 6 (db_messages w)).
    assert (Hlen : (List.length (rev recent) <= 6)%nat)
      by (rewrite length_rev; apply recent_messages_length).
    assert (Hctx : exists history : list Message.doc,
               (List.length history <= 6)%nat
               /\ request_of message sid crisis w =
                  ({| role := "system"; content := system_prompt crisis |}
                   :: map context_entry history
                   ++ [ {| role := "user"; content := message |} ])%list
               /\ List.length (request_of message sid crisis w)
                  = (1 + List.length history + 1)%nat
               /\ (List.length (request_of message sid crisis w) <= 8)%nat).
    { exists (rev recent). split; [exact Hlen|]. split; [reflexivity|].
      unfold request_of. fold recent. rewrite context_messages_length.
      rewrite length_rev in *. lia. }
    destruct (completion_reply _).
    + exists [CompletionRequested (request_of message sid crisis w)].
      split; [reflexivity|]. simpl. constructor; [exact Hctx | constructor].
    + exists [CompletionRequested (request_of message sid crisis w); ErrorLogged e].
      split; [simpl; rewrite <- app_assoc; reflexivity|].
      simpl. constructor; [exact Hctx | constructor].
Qed.

(** *** The chat turn, step by step *)

(** Lines 312-320: the session of the turn. *)
Let session_of (request : ChatRequest.t) : M string :=
  match ChatRequest.session_id request with
  | None => create_chat_session E
  | Some sid => if String.eqb sid "" then create_chat_session E else ret sid
  end.

(** Lines 327-334: the user's message as it is stored. *)
Let user_message_of (request : ChatRequest.t) (sid : string) : M Message.doc :=
  new_message E sid (ChatRequest.message request) true
    (Some (Sentiment.compound (analyze_sentiment E (ChatRequest.message request))))
    (Some (Sentiment.label (analyze_sentiment E (ChatRequest.message request))))
    (detect_crisis (ChatRequest.message request)).

(** Lines 343-372: what follows the generation of the reply. *)
Let respond (request : ChatRequest.t) (sid ai_response : string) : M ChatResponse.t :=
  ai_message <- new_message E sid ai_response false None None false ;;
  messages_insert_one E ai_message ;;;
  ts <- now_iso E ;;
  sessions_update_last_activity E sid ts ;;;
  if detect_crisis (ChatRequest.message request) then
    crisis <- or_raise (getitem "crisis" MENTAL_HEALTH_RESOURCES) KeyError ;;
    ret {| ChatResponse.message := ai_response;
           ChatResponse.session_id := sid;
           ChatResponse.crisis_detected := detect_crisis (ChatRequest.message request);
           ChatResponse.sentiment := Some (analyze_sentiment E (ChatRequest.message request));
           ChatResponse.resources := Some crisis |}
  else
    ret {| ChatResponse.message := ai_response;
           ChatResponse.session_id := sid;
           ChatResponse.crisis_detected := detect_crisis (ChatRequest.message request);
           ChatResponse.sentiment := Some (analyze_sentiment E (ChatRequest.message request));
           ChatResponse.resources := None |}.

Lemma chat_try_steps (request : ChatRequest.t) :
  chat_try E request =
  (sid <- session_of request ;;
   user_message <- user_message_of request sid ;;
   messages_insert_one E user_message ;;;
   ai_response <- generate_ai_response E (ChatRequest.message request) sid
                    (detect_crisis (ChatRequest.message request)) ;;
   respond request sid ai_response).
Proof. reflexivity. Qed.

(** [chat] returns what its [try] block returns, and turns whatever that
    raises into the status 500. *)
Lemma chat_Ok_inv (request : ChatRequest.t) (w w' : World) (response : ChatResponse.t) :
  chat E request w = (Ok response, w') -> chat_try E request w = (Ok response, w').
Proof.
  intros H. apply try_except_Ok_inv in H. destruct H as [H|(e & w1 & _ & H)].
  - exact H.
  - discriminate H.
Qed.

Lemma chat_of_try_Ok (request : ChatRequest.t) (w w' : World) (response : ChatResponse.t) :
  chat_try E request w = (Ok response, w') -> chat E request w = (Ok response, w').
Proof. intros H. unfold chat, try_except. rewrite H. reflexivity. Qed.

(** The response of a turn that got to build one. *)
Lemma respond_Ok_inv (request : ChatRequest.t) (sid ai_response : string)
  (w w' : World) (response : ChatResponse.t) :
  respond request sid ai_response w = (Ok response, w') ->
  response =
  {| ChatResponse.message := ai_response;
     ChatResponse.session_id := sid;
     ChatResponse.crisis_detected := detect_crisis (ChatRequest.message request);
     ChatResponse.sentiment := Some (analyze_sentiment E (ChatRequest.message request));
     ChatResponse.resources :=
       if detect_crisis (ChatRequest.message request)
       then getitem "crisis" MENTAL_HEALTH_RESOURCES else None |}.
Proof.
  unfold respond. intros H.
  repeat (apply bind_Ok_inv in H; destruct H as (? & ? & _ & H)).
  destruct (detect_crisis (ChatRequest.message request)).
  - change (getitem "crisis" MENTAL_HEALTH_RESOURCES)
      with (Some (match getitem "crisis" MENTAL_HEALTH_RESOURCES with
                  | Some r => r | None => [] end)) in H |- *.
    unfold or_raise, bind, ret in H. inversion H. reflexivity.
  - inversion H. reflexivity.
Qed.

(** C3: in the outcome of a chat turn the crisis flag is the detector's
    verdict on the message, the resources are present iff the flag is
    set, and when present they are the entries of the [crisis] category
    of the catalog. *)
Theorem chat_resources (request : ChatRequest.t) (w w' : World)
  (response : ChatResponse.t) :
  chat E request w = (Ok response, w') ->
  ChatResponse.crisis_detected response = detect_crisis (ChatRequest.message request)
  /\ (ChatResponse.resources response <> None <->
      ChatResponse.crisis_detected response = true)
  /\ (forall entries,
        ChatResponse.resources response = Some entries ->
        getitem "crisis" MENTAL_HEALTH_RESOURCES = Some entries).
Proof.
  intros H. apply chat_Ok_inv in H. rewrite chat_try_steps in H.
  apply bind_Ok_inv in H. destruct H as (sid & w0 & _ & H).
  apply bind_Ok_inv in H. destruct H as (user_message & w1 & _ & H).
  apply bind_Ok_inv in H. destruct H as ([] & w2 & _ & H).
  apply bind_Ok_inv in H. destruct H as (ai_response & w3 & _ & H).
  apply respond_Ok_inv in H. subst response. simpl.
  split; [reflexivity|].
  destruct (detect_crisis (ChatRequest.message request)); split.
  - split; [reflexivity | discriminate].
  - intros entries Hentries. exact Hentries.
  - split; [intros Hn; contradiction Hn; reflexivity | discriminate].
  - discriminate.
Qed.

(** *** The trace of a chat turn *)

Lemma session_of_trace (request : ChatRequest.t) (w : World) :
  exists evs,
    events (snd (session_of request w)) = (events w ++ evs)%list
    /\ requested evs = []
    /\ db_messages (snd (session_of request w)) = db_messages w.
Proof.
  assert (Hcreate : exists evs,
             events (snd (create_chat_session E w)) = (events w ++ evs)%list
             /\ requested evs = []
             /\ db_messages (snd (create_chat_session E w)) = db_messages w).
  { unfold create_chat_session.
    rewrite (bind_ok _ _ _ _ _ (new_session_run w)).
    match goal with
    | |- context [sessions_insert_one E ?d] => set (session := d)
    end.
    set (w1 := count_clock_read (count_clock_read (count_uuid w))).
    destruct (store_fails E (store_ops w1)) eqn:Hf.
    - rewrite (bind_raise _ _ w1 (count_store_op w1) StoreError)
        by (apply store_op_fault; exact Hf).
      exists []. simpl. rewrite app_nil_r. auto.
    - rewrite (bind_ok _ _ w1 _ tt (sessions_insert_one_run session w1 Hf)).
      exists [SessionInserted session]. simpl. auto. }
  unfold session_of. destruct (ChatRequest.session_id request) as [sid|].
  - destruct (String.eqb sid ""); [exact Hcreate|].
    exists []. simpl. rewrite app_nil_r. auto.
  - exact Hcreate.
Qed.

Lemma growing_respond (request : ChatRequest.t) (sid ai_response : string) :
  growing (respond request sid ai_response).
Proof.
  unfold respond.
  apply growing_bind; [apply growing_new_message | intros ai_message].
  apply growing_bind; [apply growing_messages_insert_one | intros _].
  apply growing_bind; [apply growing_now_iso | intros ts].
  apply growing_bind; [apply growing_sessions_update | intros _].
  destruct (detect_crisis _).
  - apply growing_bind; [apply growing_or_raise | intros crisis].
    apply growing_ret.
  - apply growing_ret.
Qed.

(** Either the turn never reaches the service, or its new events are some
    events without a request, the insertion of the user's message, and the
    rest of the turn; the message is then in the store at the end. *)
Lemma chat_trace (request : ChatRequest.t) (w : World) :
  (exists evs,
     events (snd (chat E request w)) = (events w ++ evs)%list
     /\ requested evs = [])
  \/ (exists evs user_message evs',
        events (snd (chat E request w)) =
        (events w ++ evs ++ MessageInserted user_message :: evs')%list
        /\ requested evs = []
        /\ is_user_message_of E request user_message
        /\ In user_message (db_messages (snd (chat E request w)))).
Proof.
  unfold chat, try_except. rewrite chat_try_steps.
  destruct (session_of_trace request w) as (evs0 & Hev0 & Hreq0 & _).
  destruct (session_of request w) as [[sid|e] w0] eqn:Hs; simpl in Hev0.
  2:{ left. rewrite (bind_raise _ _ _ _ _ Hs). simpl.
      exists (evs0 ++ [ErrorLogged e])%list. rewrite Hev0, app_assoc.
      split; [reflexivity|]. rewrite requested_app, Hreq0. reflexivity. }
  rewrite (bind_ok _ _ _ _ _ Hs). cbv beta.
  unfold user_message_of.
  rewrite (bind_ok _ _ _ _ _ (new_message_run _ _ _ _ _ _ w0)). cbv beta.
  match goal with
  | |- context [messages_insert_one E ?d] => set (user_message := d)
  end.
  set (w1 := count_clock_read (count_uuid w0)).
  destruct (store_fails E (store_ops w1)) eqn:Hf.
  { left. rewrite (bind_raise _ _ w1 (count_store_op w1) StoreError)
      by (apply store_op_fault; exact Hf).
    simpl. exists (evs0 ++ [ErrorLogged StoreError])%list.
    rewrite Hev0, app_assoc. split; [reflexivity|].
    rewrite requested_app, Hreq0. reflexivity. }
  right. rewrite (bind_ok _ _ w1 _ tt (messages_insert_one_run user_message w1 Hf)).
  match goal with
  | |- context [bind ?m ?k ?w2] =>
      assert (Hgrow : grows w2 (snd (bind m k w2)))
        by (apply growing_bind;
            [apply growing_generate_ai_response | intros; apply growing_respond]);
      destruct (bind m k w2) as [[response|e] w3]
  end;
  simpl in Hgrow; destruct Hgrow as [[evs3 Hev3] [docs3 Hdocs3]];
  simpl in Hev3, Hdocs3.
  - exists evs0, user_message, evs3. simpl.
    rewrite Hev3, Hev0, <- !app_assoc. simpl.
    repeat split; try assumption; try reflexivity.
    rewrite Hdocs3. apply in_or_app; left. apply in_or_app; right. left; reflexivity.
  - exists evs0, user_message, (evs3 ++ [ErrorLogged e])%list. simpl.
    rewrite Hev3, Hev0, <- !app_assoc. simpl.
    repeat split; try assumption; try reflexivity.
    rewrite Hdocs3. apply in_or_app; left. apply in_or_app; right. left; reflexivity.
Qed.

(** C4: whenever a chat turn sends a request to the generation service, the
    user's message, with its sentiment score, its label and its crisis
    flag, was inserted into the message store before the request; it is
    in the store when the turn ends, whatever the service answered and
    whether the turn succeeded or not. *)
Theorem user_message_before_generation (request : ChatRequest.t) (w : World)
  (pre post : list Event) (messages : list ContextMessage) :
  events (snd (chat E request w)) =
  (events w ++ pre ++ CompletionRequested messages :: post)%list ->
  exists user_message,
    In (MessageInserted user_message) pre
    /\ is_user_message_of E request user_message
    /\ In user_message (db_messages (snd (chat E request w))).
Proof.
  intros Hev.
  destruct (chat_trace request w)
    as [(evs & Hevs & Hreq) | (evs & user_message & evs' & Hevs & Hreq & Hum & Hin)];
    rewrite Hevs in Hev; apply app_inv_head in Hev.
  - contradiction (requested_none_no_request _ _ _ _ Hreq Hev).
  - exists user_message. split; [|split; assumption].
    apply (before_request evs evs' pre post _ messages Hreq); [discriminate | exact Hev].
Qed.

(** *** The chat turn with the store answering *)

(** The generator leaves the store as it found it. *)
Lemma generate_ai_response_frame (message sid : string) (crisis : bool) (w : World) :
  db_messages (snd (generate_ai_response E message sid crisis w)) = db_messages w
  /\ db_sessions (snd (generate_ai_response E message sid crisis w)) = db_sessions w.
Proof.
  destruct (store_fails E (store_ops w)) eqn:H.
  - rewrite generate_ai_response_store_fault by exact H. split; reflexivity.
  - rewrite generate_ai_response_run by exact H.
    destruct (completion_reply _); split; reflexivity.
Qed.

(** With the store answering, what follows the generation stores the reply
    and returns the response. *)
Lemma respond_run (request : ChatRequest.t) (sid ai_response : string) (w : World) :
  (forall n, store_fails E n = false) ->
  exists ai_message w',
    respond request sid ai_response w =
    (Ok {| ChatResponse.message := ai_response;
           ChatResponse.session_id := sid;
           ChatResponse.crisis_detected := detect_crisis (ChatRequest.message request);
           ChatResponse.sentiment :=
             Some (analyze_sentiment E (ChatRequest.message request));
           ChatResponse.resources :=
             if detect_crisis (ChatRequest.message request)
             then getitem "crisis" MENTAL_HEALTH_RESOURCES else None |}, w')
    /\ Message.session_id ai_message = sid
    /\ Message.content ai_message = ai_response
    /\ Message.is_user ai_message = false
    /\ db_messages w' = (db_messages w ++ [ai_message])%list
    /\ List.length (db_sessions w') = List.length (db_sessions w)
    /\ (forall s, In s (db_sessions w) ->
        exists s', In s' (db_sessions w') /\ Session.id s' = Session.id s)
    /\ completions w' = completions w
    /\ requested (events w') = requested (events w).
Proof.
  intros Hup. unfold respond.
  rewrite (bind_ok _ _ _ _ _ (new_message_run _ _ _ _ _ _ w)). cbv beta.
  match goal with
  | |- context [messages_insert_one E ?d] => set (ai_message := d)
  end.
  rewrite (bind_ok _ _ _ _ tt (messages_insert_one_run ai_message _ (Hup _))).
  cbv beta.
  exists ai_message. eexists. split.
  - rewrite (bind_ok _ _ _ _ _ (now_iso_run _)). cbv beta.
    rewrite (bind_ok _ _ _ _ tt (sessions_update_run sid _ _ (Hup _))). cbv beta.
    destruct (detect_crisis (ChatRequest.message request)); reflexivity.
  - simpl. repeat split; try reflexivity.
    + clear. induction (db_sessions w) as [|d ds IH]; [reflexivity|].
      unfold set_last_activity; fold set_last_activity.
      destruct (String.eqb (Session.id d) sid); simpl; [reflexivity|].
      rewrite IH. reflexivity.
    + clear. induction (db_sessions w) as [|d ds IH]; intros s Hin; [contradiction|].
      unfold set_last_activity; fold set_last_activity.
      destruct (String.eqb (Session.id d) sid) eqn:Heq; destruct Hin as [Hs|Hs].
      * subst s. eexists. split; [left; reflexivity | reflexivity].
      * exists s. split; [right; exact Hs | reflexivity].
      * subst s. exists d. split; [left; reflexivity | reflexivity].
      * destruct (IH s Hs) as (s' & Hin' & Hid). exists s'.
        split; [right; exact Hin' | exact Hid].
    + rewrite requested_app. simpl. rewrite app_nil_r. reflexivity.
Qed.

(** With the store answering, a request without a session id gets a new
    session, stored under a fresh draw of [uuid4]. *)
Lemma create_chat_session_run (w : World) :
  (forall n, store_fails E n = false) ->
  exists session w0,
    create_chat_session E w = (Ok (uuid4 E (uuids_drawn w)), w0)
    /\ Session.id session = uuid4 E (uuids_drawn w)
    /\ db_sessions w0 = (db_sessions w ++ [session])%list
    /\ db_messages w0 = db_messages w
    /\ completions w0 = completions w
    /\ requested (events w0) = requested (events w).
Proof.
  intros Hup. unfold create_chat_session.
  rewrite (bind_ok _ _ _ _ _ (new_session_run w)). cbv beta.
  match goal with
  | |- context [sessions_insert_one E ?d] => exists d
  end.
  eexists. split.
  - rewrite (bind_ok _ _ _ _ tt (sessions_insert_one_run _ _ (Hup _))). reflexivity.
  - simpl. repeat split; try reflexivity.
    rewrite requested_app. simpl. rewrite app_nil_r. reflexivity.
Qed.

(** With the store answering, a turn whose session is [sid] stores the
    user's message, generates a reply, stores it and returns it. *)
Lemma chat_run (request : ChatRequest.t) (sid : string) (w w0 : World) :
  (forall n, store_fails E n = false) ->
  session_of request w = (Ok sid, w0) ->
  exists user_message w2 ai_response w3 ai_message w',
    generate_ai_response E (ChatRequest.message request) sid
      (detect_crisis (ChatRequest.message request)) w2 = (Ok ai_response, w3)
    /\ completions w2 = completions w0
    /\ requested (events w2) = requested (events w0)
    /\ chat E request w =
       (Ok {| ChatResponse.message := ai_response;
              ChatResponse.session_id := sid;
              ChatResponse.crisis_detected := detect_crisis (ChatRequest.message request);
              ChatResponse.sentiment :=
                Some (analyze_sentiment E (ChatRequest.message request));
              ChatResponse.resources :=
                if detect_crisis (ChatRequest.message request)
                then getitem "crisis" MENTAL_HEALTH_RESOURCES else None |}, w')
    /\ is_user_message_of E request user_message
    /\ Message.session_id user_message = sid
    /\ Message.session_id ai_message = sid
    /\ Message.content ai_message = ai_response
    /\ Message.is_user ai_message = false
    /\ db_messages w' = (db_messages w0 ++ [user_message; ai_message])%list
    /\ List.length (db_sessions w') = List.length (db_sessions w0)
    /\ (forall s, In s (db_sessions w0) ->
        exists s', In s' (db_sessions w') /\ Session.id s' = Session.id s)
    /\ completions w' = completions w3
    /\ requested (events w') = requested (events w3).
Proof.
  intros Hup Hs.
  pose (user_message :=
    {| Message.id := uuid4 E (uuids_drawn w0);
       Message.session_id := sid;
       Message.content := ChatRequest.message request;
       Message.is_user := true;
       Message.timestamp := isoformat E (utcnow E (clock_reads w0));
       Message.sentiment_score :=
         Some (Sentiment.compound (analyze_sentiment E (ChatRequest.message request)));
       Message.sentiment_label :=
         Some (Sentiment.label (analyze_sentiment E (ChatRequest.message request)));
       Message.crisis_detected := detect_crisis (ChatRequest.message request) |}).
  pose (w1 := count_clock_read (count_uuid w0)).
  pose (w2 := emit (MessageInserted user_message)
                (with_store (count_store_op w1) (db_sessions w1)
                   (db_messages w1 ++ [user_message])%list)).
  destruct (generate_ai_response_returns (ChatRequest.message request) sid
              (detect_crisis (ChatRequest.message request)) w2) as [ai_response Hgen].
  destruct (generate_ai_response_frame (ChatRequest.message request) sid
              (detect_crisis (ChatRequest.message request)) w2) as [Hms Hss].
  destruct (generate_ai_response E (ChatRequest.message request) sid
              (detect_crisis (ChatRequest.message request)) w2) as [r w3] eqn:Hg.
  simpl in Hgen, Hms, Hss. subst r.
  destruct (respond_run request sid ai_response w3 Hup)
    as (ai_message & w' & Hr & Hsid & Hcontent & Huser & Hdocs & Hlen & Hkeep & Hc & Hreq).
  exists user_message, w2, ai_response, w3, ai_message, w'.
  split; [exact Hg|]. split; [reflexivity|].
  split; [simpl; rewrite requested_app; simpl; rewrite app_nil_r; reflexivity|].
  split.
  { apply chat_of_try_Ok. rewrite chat_try_steps.
    rewrite (bind_ok _ _ _ _ _ Hs). cbv beta. unfold user_message_of.
    rewrite (bind_ok _ _ _ _ _ (new_message_run _ _ _ _ _ _ w0)). cbv beta.
    fold user_message. fold w1.
    rewrite (bind_ok _ _ _ _ tt (messages_insert_one_run user_message w1 (Hup _))).
    cbv beta. fold w2.
    rewrite (bind_ok _ _ _ _ _ Hg). cbv beta. exact Hr. }
  split; [repeat split|].
  split; [reflexivity|].
  split; [exact Hsid|]. split; [exact Hcontent|]. split; [exact Huser|].
  split; [rewrite Hdocs, Hms; simpl; rewrite <- app_assoc; reflexivity|].
  split; [rewrite Hlen, Hss; reflexivity|].
  split; [intros s Hin; apply Hkeep; rewrite Hss; exact Hin|].
  split; assumption.
Qed.

Lemma session_of_run (request : ChatRequest.t) (w : World) :
  (forall n, store_fails E n = false) ->
  exists sid w0,
    session_of request w = (Ok sid, w0)
    /\ completions w0 = completions w
    /\ requested (events w0) = requested (events w)
    /\ db_messages w0 = db_messages w.
Proof.
  intros Hup.
  assert (Hcreate : exists sid w0,
             create_chat_session E w = (Ok sid, w0)
             /\ completions w0 = completions w
             /\ requested (events w0) = requested (events w)
             /\ db_messages w0 = db_messages w).
  { destruct (create_chat_session_run w Hup)
      as (session & w0 & Hrun & _ & _ & Hdocs & Hc & Hreq).
    exists (uuid4 E (uuids_drawn w)), w0. auto. }
  unfold session_of. destruct (ChatRequest.session_id request) as [sid|].
  - destruct (String.eqb sid ""); [exact Hcreate|].
    exists sid, w. repeat split; reflexivity.
  - exact Hcreate.
Qed.

(** C2: when the generation call fails (the service raises, or its answer
    has no usable first choice), the reply of the chat turn is the crisis
    fallback text if the crisis flag is set and the generic fallback text
    otherwise; the turn returns normally, and the service was called
    exactly once.  The generator itself never raises, from any world. *)
Theorem generation_failure_fallback (request : ChatRequest.t) (w : World) :
  (forall n, store_fails E n = false) ->
  (forall messages, generation_fails (completions_create E (completions w) messages)) ->
  (exists response w',
     chat E request w = (Ok response, w')
     /\ ChatResponse.crisis_detected response =
        detect_crisis (ChatRequest.message request)
     /\ ChatResponse.message response =
        (if ChatResponse.crisis_detected response
         then crisis_fallback else generic_fallback)
     /\ completions w' = S (completions w)
     /\ exists messages,
          requested (events w') = (requested (events w) ++ [messages])%list)
  /\ (forall message sid crisis w0,
        exists text, fst (generate_ai_response E message sid crisis w0) = Ok text).
Proof.
  intros Hup Hfail. split; [|intros; apply generate_ai_response_returns].
  destruct (session_of_run request w Hup) as (sid & w0 & Hs & Hc0 & Hreq0 & _).
  destruct (chat_run request sid w w0 Hup Hs)
    as (user_message & w2 & ai_response & w3 & ai_message & w'
        & Hgen & Hc2 & Hreq2 & Hchat & _ & _ & _ & _ & _ & _ & _ & _ & Hc & Hreq).
  rewrite (generate_ai_response_run _ _ _ w2 (Hup _)) in Hgen.
  rewrite Hc2, Hc0 in Hgen.
  match type of Hgen with
  | context [completions_create E (completions w) ?m] =>
      destruct (proj1 (generation_fails_reply _) (Hfail m)) as [e He];
      rewrite He in Hgen; set (messages := m) in *
  end.
  inversion Hgen as [[Htext Hw3]]. clear Hgen. subst ai_response w3.
  eexists. exists w'. split; [exact Hchat|]. simpl.
  split; [reflexivity|]. split; [reflexivity|]. split.
  - rewrite Hc. simpl. rewrite Hc2, Hc0. reflexivity.
  - exists messages. rewrite Hreq. simpl.
    rewrite !requested_app. simpl. rewrite app_nil_r, Hreq2, Hreq0. reflexivity.
Qed.

(** C10: a chat request without a session id is served, not rejected: the
    turn creates a session under a new id, stores the user's message and
    the reply under that id, and returns the id in the response. *)
Theorem chat_creates_session (request : ChatRequest.t) (w : World) :
  ChatRequest.session_id request = None ->
  (forall n, store_fails E n = false) ->
  exists response w' session user_message ai_message,
    chat E request w = (Ok response, w')
    /\ ChatResponse.session_id response = uuid4 E (uuids_drawn w)
    /\ In session (db_sessions w')
    /\ Session.id session = ChatResponse.session_id response
    /\ List.length (db_sessions w') = S (List.length (db_sessions w))
    /\ db_messages w' = (db_messages w ++ [user_message; ai_message])%list
    /\ Message.session_id user_message = ChatResponse.session_id response
    /\ Message.content user_message = ChatRequest.message request
    /\ Message.is_user user_message = true
    /\ Message.session_id ai_message = ChatResponse.session_id response
    /\ Message.content ai_message = ChatResponse.message response
    /\ Message.is_user ai_message = false.
Proof.
  intros Hnone Hup.
  destruct (create_chat_session_run w Hup)
    as (session & w0 & Hcreate & Hid & Hss & Hms & _ & _).
  assert (Hs : session_of request w = (Ok (uuid4 E (uuids_drawn w)), w0))
    by (unfold session_of; rewrite Hnone; exact Hcreate).
  destruct (chat_run request _ w w0 Hup Hs)
    as (user_message & w2 & ai_response & w3 & ai_message & w'
        & _ & _ & _ & Hchat & Hum & Hsid & Hasid & Hacontent & Hauser
        & Hdocs & Hlen & Hkeep & _ & _).
  destruct (Hkeep session) as (session' & Hin & Hid').
  { rewrite Hss. apply in_or_app. right. left. reflexivity. }
  destruct Hum as (Hcontent & Huser & _).
  eexists. exists w', session', user_message, ai_message.
  split; [exact Hchat|]. simpl.
  split; [reflexivity|]. split; [exact Hin|].
  split; [rewrite Hid'; exact Hid|].
  split; [rewrite Hlen, Hss, length_app; simpl; lia|].
  split; [rewrite Hdocs, Hms; reflexivity|].
  repeat split; assumption.
Qed.

(** *** Sentiment trends *)

(** C9, as the code has it: with no scored user message of the session in
    the window, the handler returns no trend and a summary made of
    [avg_sentiment] 0 and [total_messages] 0 only, without [days_analyzed];
    with such messages, the summary of whatever it returns has
    [days_analyzed] equal to the requested number of days and
    [total_messages] equal to their number. *)
Theorem trends_summary (session_id : string) (days : Z) (w : World) (start : datetime) :
  minus_days E (utcnow E (clock_reads w)) days = Some start ->
  store_fails E (store_ops w) = false ->
  let messages := scored_messages_since session_id (isoformat E start) (db_messages w) in
  (messages = [] ->
   fst (get_sentiment_trends E session_id days w) =
   Ok {| trends := [];
         summary := [ ("avg_sentiment", VInt 0); ("total_messages", VInt 0) ] |})
  /\ (messages <> [] ->
      forall result,
        fst (get_sentiment_trends E session_id days w) = Ok result ->
        getitem "days_analyzed" (summary result) = Some (VInt days)
        /\ getitem "total_messages" (summary result) =
           Some (VInt (Z.of_nat (List.length messages)))).
Proof.
  intros Hstart Hup messages.
  assert (Hrun : get_sentiment_trends E session_id days w =
                 match messages with
                 | [] =>
                     ret {| trends := [];
                            summary := [ ("avg_sentiment", VInt 0);
                                         ("total_messages", VInt 0) ] |}
                 | _ :: _ =>
                     daily_sentiments <- group_by_day E messages [] ;;
                     trends <- daily_trends daily_sentiments ;;
                     avg_sentiment <- mean (map Message.sentiment_score messages) ;;
                     ret {| trends := trends;
                            summary :=
                              [ ("avg_sentiment", VFloat avg_sentiment);
                                ("total_messages",
                                 VInt (Z.of_nat (List.length messages)));
                                ("days_analyzed", VInt days) ] |}
                 end (count_store_op (count_clock_read w))).
  { unfold get_sentiment_trends.
    rewrite (bind_ok _ _ w (count_clock_read w) (utcnow E (clock_reads w)))
      by reflexivity.
    cbv beta. rewrite Hstart. unfold or_raise at 1.
    rewrite (bind_ok _ _ _ _ _ (eq_refl : ret start (count_clock_read w) = _)).
    cbv beta. unfold messages_find_scored_since.
    rewrite (bind_ok _ _ _ _ _ (store_op_ok _ (count_clock_read w) Hup)).
    reflexivity. }
  rewrite Hrun. split.
  - intros Hnone. rewrite Hnone. reflexivity.
  - intros Hsome result Hres. destruct messages as [|msg rest] eqn:Hm;
      [contradiction Hsome; reflexivity|].
    rewrite <- Hm in Hres.
    revert Hres. unfold bind.
    destruct (group_by_day E messages [] _) as [[daily|e] w1]; [|discriminate].
    destruct (daily_trends daily w1) as [[ts|e] w2]; [|discriminate].
    destruct (mean (map Message.sentiment_score messages) w2) as [[avg|e] w3];
      [|discriminate].
    simpl. intros Hres. inversion Hres. subst result. simpl.
    rewrite Hm. split; reflexivity.
Qed.

End HandlerProperties.

(** * The properties on the sample world *)

(** The theorems above, run on the worlds of [Sample]: each lemma applies
    one of them to a concrete turn and evaluates its hypotheses there. *)

(** C2 on a turn of an open session while the service is down. *)
Lemma generation_failure_fallback_witness :
  exists response w',
    chat Sample.service_down (Sample.turn "I feel hopeless") Sample.empty_world
    = (Ok response, w')
    /\ ChatResponse.crisis_detected response = true
    /\ ChatResponse.message response = crisis_fallback
    /\ completions w' = 1%nat.
Proof.
  destruct (generation_failure_fallback Sample.service_down
              (Sample.turn "I feel hopeless") Sample.empty_world)
    as [(response & w' & Hchat & Hcrisis & Hmessage & Hcalls & _) _].
  - intros n. reflexivity.
  - intros messages. exact I.
  - exists response, w'. rewrite Hcrisis in Hmessage.
    change (detect_crisis (ChatRequest.message (Sample.turn "I feel hopeless")))
      with true in Hcrisis, Hmessage.
    repeat split; assumption.
Defined.

(** C3 on the first turn of a user in crisis. *)
Lemma chat_resources_witness :
  exists response w',
    chat Sample.service_up (Sample.first_turn "I feel hopeless") Sample.empty_world
    = (Ok response, w')
    /\ ChatResponse.crisis_detected response = true
    /\ (ChatResponse.resources response <> None <->
        ChatResponse.crisis_detected response = true)
    /\ ChatResponse.resources response = getitem "crisis" MENTAL_HEALTH_RESOURCES.
Proof.
  eexists. eexists. split; [vm_compute; reflexivity|].
  split; [reflexivity|]. split; [|reflexivity].
  eapply (chat_resources Sample.service_up
            (Sample.first_turn "I feel hopeless") Sample.empty_world).
  vm_compute. reflexivity.
Defined.

(** C4 on the first turn of the session [s1]: the new events are the
    insertion of the user's message, the request, and the insertion of
    the reply. *)
Lemma user_message_before_generation_witness :
  exists user_message,
    In (MessageInserted user_message) [MessageInserted Sample.hello]
    /\ is_user_message_of Sample.service_up (Sample.turn "hello") user_message
    /\ In user_message
         (db_messages (snd (chat Sample.service_up (Sample.turn "hello")
                              Sample.empty_world))).
Proof.
  eapply (user_message_before_generation Sample.service_up (Sample.turn "hello")
            Sample.empty_world [MessageInserted Sample.hello]).
  vm_compute. reflexivity.
Defined.

(** C6 on the fourth turn of the session [s1]: the store answers newest
    first, and the context lists the three earlier turns oldest first. *)
Lemma context_chronological_witness :
  let recent :=
    recent_messages_of "s1" 6 (db_messages Sample.after_three_turns) in
  map Message.content recent
  = ["I hear you."; "fine"; "I hear you."; "how are you"; "I hear you."; "hello"]
  /\ map Message.timestamp (rev recent)
     = [ "2024-01-01T00:00:00+00:00"; "2024-01-01T00:00:00.000001+00:00";
         "2024-01-01T00:00:00.000003+00:00"; "2024-01-01T00:00:00.000004+00:00";
         "2024-01-01T00:00:00.000006+00:00"; "2024-01-01T00:00:00.000007+00:00" ]
  /\ Sorted (fun a b => older_eq a b = true) (rev recent)
  /\ requested
       (events (snd (generate_ai_response Sample.service_up "and now" "s1" false
                       Sample.after_three_turns)))
     = (requested (events Sample.after_three_turns)
        ++ [ [ {| role := "system"; content := system_prompt false |};
               {| role := "user"; content := "hello" |};
               {| role := "assistant"; content := "I hear you." |};
               {| role := "user"; content := "how are you" |};
               {| role := "assistant"; content := "I hear you." |};
               {| role := "user"; content := "fine" |};
               {| role := "assistant"; content := "I hear you." |};
               {| role := "user"; content := "and now" |} ] ])%list.
Proof.
  intros recent.
  destruct (context_chronological Sample.service_up "and now" "s1" false
              Sample.after_three_turns eq_refl)
    as (_ & Holdest & Hrequested).
  split; [vm_compute; reflexivity|].
  split; [vm_compute; reflexivity|].
  split; [exact Holdest|].
  rewrite Hrequested. vm_compute. reflexivity.
Defined.

(** C7 as stated fails: on the fourth turn of a session the store returns
    six messages, and the context has eight entries. *)
Lemma context_of_eight_entries :
  ~ Forall (fun messages : list ContextMessage => (List.length messages <= 7)%nat)
      (requested
         (events (snd (generate_ai_response Sample.service_up "and now" "s1" false
                         Sample.after_three_turns)))).
Proof.
  intros H.
  assert (Hlen : map (@List.length ContextMessage)
                   (requested
                      (events (snd (generate_ai_response Sample.service_up "and now"
                                      "s1" false Sample.after_three_turns))))
                 = [3; 5; 7; 8]%nat) by (vm_compute; reflexivity).
  apply (proj2 (Forall_map (@List.length ContextMessage)
                  (fun n => (n <= 7)%nat) _)) in H.
  rewrite Hlen in H.
  repeat match goal with
         | H : Forall _ (_ :: _) |- _ => inversion H; clear H; subst
         end.
  lia.
Qed.

(** C9 on a session without messages and on the session [s1] after three
    turns, both over a window of seven days. *)
Lemma trends_summary_witness :
  fst (get_sentiment_trends Sample.service_up "s1" 7 Sample.empty_world)
  = Ok {| trends := [];
          summary := [ ("avg_sentiment", VInt 0); ("total_messages", VInt 0) ] |}
  /\ (forall result,
        fst (get_sentiment_trends Sample.service_up "s1" 7 Sample.after_three_turns)
        = Ok result ->
        getitem "days_analyzed" (summary result) = Some (VInt 7)
        /\ getitem "total_messages" (summary result) = Some (VInt 3)).
Proof.
  split.
  - apply (trends_summary Sample.service_up "s1" 7 Sample.empty_world
             (Sample.midnight - 7 * 86400000000)%Z); reflexivity.
  - apply (trends_summary Sample.service_up "s1" 7 Sample.after_three_turns
             (Sample.midnight + 9 - 7 * 86400000000)%Z);
      [reflexivity | reflexivity | vm_compute; discriminate].
Defined.

(** C9 as stated fails: the summary of an empty window has no
    [days_analyzed], whatever window was requested. *)
Lemma trends_empty_without_days_analyzed :
  exists result,
    fst (get_sentiment_trends Sample.service_up "s1" 7 Sample.empty_world) = Ok result
    /\ getitem "days_analyzed" (summary result) <> Some (VInt 7).
Proof.
  eexists. split; [vm_compute; reflexivity|]. vm_compute. discriminate.
Qed.

(** C10 on a first turn without a session id. *)
Lemma chat_creates_session_witness :
  exists response w' session user_message ai_message,
    chat Sample.service_up (Sample.first_turn "hello") Sample.empty_world
    = (Ok response, w')
    /\ ChatResponse.session_id response = "id-00"
    /\ In session (db_sessions w')
    /\ Session.id session = ChatResponse.session_id response
    /\ db_messages w' = [user_message; ai_message]
    /\ Message.session_id user_message = ChatResponse.session_id response
    /\ Message.session_id ai_message = ChatResponse.session_id response.
Proof.
  destruct (chat_creates_session Sample.service_up (Sample.first_turn "hello")
              Sample.empty_world)
    as (response & w' & session & user_message & ai_message
        & Hchat & Hid & Hin & Hsid & _ & Hdocs & Hu & _ & _ & Ha & _ & _).
  - reflexivity.
  - intros n. reflexivity.
  - exists response, w', session, user_message, ai_message.
    repeat split; assumption.
Defined.

(** * Further properties of the detector *)

Lemma lower_app (a b : string) : Str.lower (a ++ b) = Str.lower a ++ Str.lower b.
Proof.
  induction a as [|c a IH]; simpl; [reflexivity|]. rewrite IH. reflexivity.
Qed.

Lemma lower_length (s : string) : String.length (Str.lower s) = String.length s.
Proof.
  induction s as [|c s IH]; simpl; [reflexivity|]. rewrite IH. reflexivity.
Qed.

Lemma prefix_app (k s : string) : String.prefix k (k ++ s) = true.
Proof.
  induction k as [|c k IH]; simpl.
  - destruct s; reflexivity.
  - destruct (ascii_dec c c) as [_|Hne]; [exact IH | contradiction Hne; reflexivity].
Qed.

Lemma contains_prefix (k s : string) :
  String.prefix k s = true -> Str.contains k s = true.
Proof. intros H. destruct s; cbn [Str.contains]; rewrite H; reflexivity. Qed.

Lemma contains_app (k pre post : string) : Str.contains k (pre ++ k ++ post) = true.
Proof.
  induction pre as [|c pre IH].
  - change ("" ++ k ++ post) with (k ++ post). apply contains_prefix, prefix_app.
  - change ((String c pre) ++ k ++ post) with (String c (pre ++ k ++ post)).
    cbn [Str.contains]. rewrite IH. apply orb_true_r.
Qed.

Lemma prefix_length (k s : string) :
  String.prefix k s = true -> (String.length k <= String.length s)%nat.
Proof.
  revert s. induction k as [|c k IH]; intros s H; simpl; [lia|].
  destruct s as [|d s]; simpl in H; [discriminate|].
  destruct (ascii_dec c d); [|discriminate].
  simpl. apply IH in H. lia.
Qed.

Lemma contains_length (k s : string) :
  Str.contains k s = true -> (String.length k <= String.length s)%nat.
Proof.
  induction s as [|d s IH]; cbn [Str.contains]; intros H.
  - rewrite orb_false_r in H. apply prefix_length in H. exact H.
  - apply orb_true_iff in H. destruct H as [H|H].
    + apply prefix_length in H. exact H.
    + apply IH in H. simpl. lia.
Qed.

(** X1: a listed keyword or phrase is found wherever it stands in the text
    and however it is capitalised. *)
Theorem detect_crisis_finds_listed (pre word post k : string) :
  In k CRISIS_KEYWORDS \/ In k CRISIS_PHRASES ->
  Str.lower word = k ->
  detect_crisis (pre ++ word ++ post) = true.
Proof.
  intros Hin Hlow. rewrite detect_crisis_unfold.
  assert (Hsub : Str.contains k (Str.lower (pre ++ word ++ post)) = true)
    by (rewrite !lower_app, Hlow; apply contains_app).
  destruct Hin as [Hin|Hin].
  - apply orb_true_iff; left. apply orb_true_iff; left.
    apply existsb_exists. exists k. split; assumption.
  - apply orb_true_iff; left. apply orb_true_iff; right.
    apply existsb_exists. exists k. split; assumption.
Qed.

Lemma detect_crisis_finds_listed_witness :
  detect_crisis ("Some days I just " ++ "Give Up" ++ " on everything") = true.
Proof.
  apply (detect_crisis_finds_listed "Some days I just " "Give Up" " on everything"
           "give up").
  - left. unfold CRISIS_KEYWORDS. simpl. tauto.
  - reflexivity.
Defined.

(** *** Runs of blanks *)

Lemma match_here_boundary (p : Re.pattern) (prev : option ascii) (s : string) :
  Re.match_here (Re.WordBoundary :: p) prev s
  = Re.at_boundary prev s && Re.match_here p prev s.
Proof. reflexivity. Qed.

Lemma match_here_spaces_step (p : Re.pattern) (prev : option ascii) (x : ascii)
  (s : string) :
  Re.match_here (Re.Spaces :: p) prev (String x s)
  = Str.is_space x
    && (Re.match_here (Re.Spaces :: p) (Some x) s || Re.match_here p (Some x) s).
Proof. reflexivity. Qed.

Lemma last_char_some (c : ascii) (s : string) :
  exists z, last_char (String c s) = Some z.
Proof.
  revert c. induction s as [|d s IH]; intros c.
  - exists c. reflexivity.
  - destruct (IH d) as [z Hz]. exists z. exact Hz.
Qed.

(** A literal word of the pattern consumes the same word of the text. *)
Lemma match_here_word (w : string) (p : Re.pattern) (prev : option ascii) (s : string) :
  Re.match_here (Re.lit w ++ p)%list prev (w ++ s)
  = Re.match_here p (match last_char w with Some c => Some c | None => prev end) s.
Proof.
  revert prev. induction w as [|c w IH]; intros prev; [reflexivity|].
  change (Re.match_here (Re.Chr c :: (Re.lit w ++ p))%list prev (String c (w ++ s))
          = Re.match_here p
              (match last_char (String c w) with Some c => Some c | None => prev end) s).
  cbn [Re.match_here]. rewrite Ascii.eqb_refl, IH. simpl.
  destruct w as [|a w]; [reflexivity|].
  destruct (last_char_some a w) as [z Hz]. rewrite Hz. reflexivity.
Qed.

(** [\s+] consumes a whole run of blanks when the rest of the pattern
    matches what follows the run. *)
Lemma match_here_blank_run (p : Re.pattern) (ws s : string) (prev : option ascii) :
  blank_run ws = true ->
  (forall x, Re.match_here p (Some x) s = true) ->
  Re.match_here (Re.Spaces :: p) prev (ws ++ s) = true.
Proof.
  intros Hws Hrest. revert prev.
  induction ws as [|x ws IH]; intros prev; [discriminate Hws|].
  change (String x ws ++ s) with (String x (ws ++ s)).
  rewrite match_here_spaces_step.
  simpl in Hws. apply andb_true_iff in Hws. destruct Hws as [Hx Hws].
  rewrite Hx. cbn [andb]. destruct ws as [|y ws].
  - change ("" ++ s) with s. rewrite Hrest. apply orb_true_r.
  - rewrite IH; [reflexivity|]. exact Hws.
Qed.

Lemma search_here (p : Re.pattern) (s : string) :
  Re.match_here p None s = true -> Re.search p s = true.
Proof.
  intros H. unfold Re.search. destruct s; simpl; rewrite H; reflexivity.
Qed.

Lemma detect_crisis_pattern (text : string) (p : Re.pattern) :
  In p crisis_patterns ->
  Re.match_here p None (Str.lower text) = true ->
  detect_crisis text = true.
Proof.
  intros Hin Hm. rewrite detect_crisis_unfold. apply orb_true_iff; right.
  apply existsb_exists. exists p. split; [exact Hin | apply search_here; exact Hm].
Qed.

(** X2: the four phrases of the patterns are found when their words are
    separated by any non-empty runs of blanks (spaces, tabs, line breaks),
    in any capitalisation. *)
Theorem detect_crisis_blank_runs (text ws1 ws2 ws3 : string) :
  blank_run ws1 = true -> blank_run ws2 = true -> blank_run ws3 = true ->
  Str.lower text = "kill" ++ ws1 ++ "myself"
  \/ Str.lower text = "commit" ++ ws1 ++ "suicide"
  \/ Str.lower text = "end" ++ ws1 ++ "my" ++ ws2 ++ "life"
  \/ Str.lower text = "i" ++ ws1 ++ "want" ++ ws2 ++ "to" ++ ws3 ++ "die" ->
  detect_crisis text = true.
Proof.
  intros H1 H2 H3 [H|[H|[H|H]]].
  - apply (detect_crisis_pattern text
             (Re.WordBoundary
              :: Re.lit "kill" ++ Re.Spaces :: Re.lit "myself" ++ [Re.WordBoundary])%list).
    { simpl. tauto. }
    rewrite H, match_here_boundary. apply andb_true_iff. split; [reflexivity|].
    rewrite match_here_word. apply match_here_blank_run; [exact H1|].
    intros x. reflexivity.
  - apply (detect_crisis_pattern text
             (Re.WordBoundary
              :: Re.lit "commit" ++ Re.Spaces :: Re.lit "suicide" ++ [Re.WordBoundary])%list).
    { simpl. tauto. }
    rewrite H, match_here_boundary. apply andb_true_iff. split; [reflexivity|].
    rewrite match_here_word. apply match_here_blank_run; [exact H1|].
    intros x. reflexivity.
  - apply (detect_crisis_pattern text
             (Re.WordBoundary
              :: Re.lit "end" ++ Re.Spaces
              :: Re.lit "my" ++ Re.Spaces :: Re.lit "life" ++ [Re.WordBoundary])%list).
    { simpl. tauto. }
    rewrite H, match_here_boundary. apply andb_true_iff. split; [reflexivity|].
    rewrite match_here_word. apply match_here_blank_run; [exact H1|].
    intros x. rewrite match_here_word. apply match_here_blank_run; [exact H2|].
    intros y. reflexivity.
  - apply (detect_crisis_pattern text
             (Re.WordBoundary
              :: Re.lit "i" ++ Re.Spaces
              :: Re.lit "want" ++ Re.Spaces
              :: Re.lit "to" ++ Re.Spaces :: Re.lit "die" ++ [Re.WordBoundary])%list).
    { simpl. tauto. }
    rewrite H, match_here_boundary. apply andb_true_iff. split; [reflexivity|].
    rewrite match_here_word. apply match_here_blank_run; [exact H1|].
    intros x. rewrite match_here_word. apply match_here_blank_run; [exact H2|].
    intros y. rewrite match_here_word. apply match_here_blank_run; [exact H3|].
    intros z. reflexivity.
Qed.

Lemma detect_crisis_blank_runs_witness :
  detect_crisis "I want
	to  DIE" = true.
Proof.
  apply (detect_crisis_blank_runs _ " " "
	" "  "); try reflexivity.
  right. right. right. reflexivity.
Defined.

(** *** Short texts *)

Lemma match_here_length (p : Re.pattern) (prev : option ascii) (s : string) :
  Re.match_here p prev s = true -> (min_length p <= String.length s)%nat.
Proof.
  revert prev s. induction p as [|a p IH]; intros prev s H; [simpl; lia|].
  destruct a as [c| |].
  - destruct s as [|x s]; [discriminate H|].
    cbn [Re.match_here] in H. apply andb_true_iff in H. destruct H as [_ H].
    apply IH in H. simpl. lia.
  - revert prev H. induction s as [|x s IHs]; intros prev H; [discriminate H|].
    rewrite match_here_spaces_step in H.
    apply andb_true_iff in H. destruct H as [_ H].
    apply orb_true_iff in H. destruct H as [H|H].
    + apply IHs in H. simpl in *. lia.
    + apply IH in H. simpl. lia.
  - rewrite match_here_boundary in H.
    apply andb_true_iff in H. destruct H as [_ H].
    apply IH in H. exact H.
Qed.

Lemma search_length (p : Re.pattern) (s : string) :
  Re.search p s = true -> (min_length p <= String.length s)%nat.
Proof.
  unfold Re.search. generalize (@None ascii).
  induction s as [|x s IH]; intros prev H; cbn [Re.search_from] in H.
  - rewrite orb_false_r in H. apply match_here_length in H. exact H.
  - apply orb_true_iff in H. destruct H as [H|H].
    + apply match_here_length in H. exact H.
    + apply IH in H. simpl. lia.
Qed.

(** X3: a text of fewer than seven characters is never flagged: every
    keyword, phrase and pattern needs at least seven. *)
Theorem detect_crisis_short_text (text : string) :
  (String.length text < 7)%nat -> detect_crisis text = false.
Proof.
  intros Hlen. rewrite detect_crisis_unfold.
  rewrite <- lower_length in Hlen.
  assert (Hk : forall ks,
             Forall (fun k => (7 <= String.length k)%nat) ks ->
             existsb (fun k => Str.contains k (Str.lower text)) ks = false).
  { intros ks Hks. induction Hks as [|k ks Hk _ IH]; [reflexivity|].
    simpl. rewrite IH, orb_false_r.
    destruct (Str.contains k (Str.lower text)) eqn:Hc; [|reflexivity].
    apply contains_length in Hc. lia. }
  assert (Hp : forall ps,
             Forall (fun p => (7 <= min_length p)%nat) ps ->
             existsb (fun p => Re.search p (Str.lower text)) ps = false).
  { intros ps Hps. induction Hps as [|p ps Hmin _ IH]; [reflexivity|].
    simpl. rewrite IH, orb_false_r.
    destruct (Re.search p (Str.lower text)) eqn:Hc; [|reflexivity].
    apply search_length in Hc. lia. }
  rewrite (Hk CRISIS_KEYWORDS), (Hk CRISIS_PHRASES), (Hp crisis_patterns).
  - reflexivity.
  - unfold crisis_patterns. repeat constructor; simpl; lia.
  - unfold CRISIS_PHRASES. repeat constructor; simpl; lia.
  - unfold CRISIS_KEYWORDS. repeat constructor; simpl; lia.
Qed.

Lemma detect_crisis_short_text_witness : detect_crisis "I'm ok" = false.
Proof. apply detect_crisis_short_text. simpl. lia. Defined.

(** * Further properties of the reply generator *)

(** *** Trimming *)

Lemma lstrip_first (s : string) (c : ascii) :
  first_char (Str.lstrip s) = Some c -> Str.is_space c = false.
Proof.
  induction s as [|x s IH]; simpl; [discriminate|].
  destruct (Str.is_space x) eqn:Hx; [exact IH|].
  simpl. intros H. inversion H. subst c. exact Hx.
Qed.

Lemma rstrip_cons (x : ascii) (s : string) :
  Str.rstrip (String x s) = EmptyString
  \/ exists r, Str.rstrip (String x s) = String x r.
Proof.
  simpl. destruct (Str.rstrip s).
  - destruct (Str.is_space x); [left; reflexivity | right; eexists; reflexivity].
  - right. eexists. reflexivity.
Qed.

Lemma rstrip_first (s : string) (c : ascii) :
  first_char (Str.rstrip s) = Some c -> first_char s = Some c.
Proof.
  destruct s as [|x s]; [discriminate|].
  destruct (rstrip_cons x s) as [H|[r H]]; rewrite H; simpl; [discriminate | auto].
Qed.

Lemma rstrip_last (s : string) (c : ascii) :
  last_char (Str.rstrip s) = Some c -> Str.is_space c = false.
Proof.
  induction s as [|x s IH]; simpl; [discriminate|].
  destruct (Str.rstrip s) as [|y r] eqn:Hr.
  - destruct (Str.is_space x) eqn:Hx; simpl; [discriminate|].
    intros H. inversion H. subst c. exact Hx.
  - intros H. apply IH. exact H.
Qed.

(** [strip] leaves no blank at either end of its result. *)
Lemma strip_ends (s : string) (c : ascii) :
  first_char (Str.strip s) = Some c \/ last_char (Str.strip s) = Some c ->
  Str.is_space c = false.
Proof.
  unfold Str.strip. intros [H|H].
  - apply rstrip_first in H. apply lstrip_first in H. exact H.
  - apply rstrip_last in H. exact H.
Qed.

(** *** Membership in the store's answers *)

Lemma insert_by_In {A : Type} (le : A -> A -> bool) (x y : A) (l : list A) :
  In y (insert_by le x l) <-> y = x \/ In y l.
Proof.
  induction l as [|z l IH]; simpl.
  - split; intros [H|H]; auto.
  - destruct (le x z); simpl; [split; intros [H|H]; auto|].
    rewrite IH. tauto.
Qed.

Lemma sort_by_In {A : Type} (le : A -> A -> bool) (y : A) (l : list A) :
  In y (sort_by le l) <-> In y l.
Proof.
  induction l as [|x l IH]; simpl; [tauto|].
  rewrite insert_by_In, IH. split; intros [H|H]; auto.
Qed.

Lemma insert_by_length {A : Type} (le : A -> A -> bool) (x : A) (l : list A) :
  List.length (insert_by le x l) = S (List.length l).
Proof.
  induction l as [|z l IH]; simpl; [reflexivity|].
  destruct (le x z); simpl; [reflexivity | rewrite IH; reflexivity].
Qed.

Lemma sort_by_length {A : Type} (le : A -> A -> bool) (l : list A) :
  List.length (sort_by le l) = List.length l.
Proof.
  induction l as [|x l IH]; simpl; [reflexivity|].
  rewrite insert_by_length, IH. reflexivity.
Qed.

Lemma firstn_In {A : Type} (n : nat) (l : list A) (x : A) :
  In x (firstn n l) -> In x l.
Proof.
  revert l. induction n as [|n IH]; intros l H; simpl in H; [contradiction|].
  destruct l as [|y l]; [contradiction|].
  destruct H as [H|H]; [left; exact H | right; apply IH; exact H].
Qed.

(** The store answers the generator's query with stored messages of the
    session asked for. *)
Lemma recent_messages_In (sid : string) (n : nat) (docs : list Message.doc)
  (d : Message.doc) :
  In d (recent_messages_of sid n docs) ->
  In d docs /\ Message.session_id d = sid.
Proof.
  unfold recent_messages_of. intros H.
  apply firstn_In in H. apply sort_by_In in H. apply filter_In in H.
  destruct H as [Hin Hsid]. split; [exact Hin|].
  apply String.eqb_eq. exact Hsid.
Qed.

Section GeneratorProperties.

Variable E : Env.

(** With the store answering, the generator sends one request: the context
    built from the store's answer. *)
Lemma generator_request (message sid : string) (crisis : bool) (w : World) :
  store_fails E (store_ops w) = false ->
  requested (events (snd (generate_ai_response E message sid crisis w)))
  = (requested (events w)
     ++ [context_messages (recent_messages_of sid 6 (db_messages w)) message crisis])%list.
Proof.
  intros Hup. rewrite (generate_ai_response_run E message sid crisis w Hup).
  cbv zeta. destruct (completion_reply _); simpl;
    rewrite ?requested_app; simpl; rewrite ?requested_app; simpl;
    rewrite ?app_nil_r; reflexivity.
Qed.

(** X4: when the store answers and the first choice of the service has a
    content, the generator returns that content trimmed, with no blank at
    either end; it calls the service once, logs nothing and leaves the
    store as it was.  The other choices play no part. *)
Theorem generate_ai_response_success (message sid content : string) (crisis : bool)
  (choices : list (option string)) (w : World) :
  store_fails E (store_ops w) = false ->
  completions_create E (completions w)
    (context_messages (recent_messages_of sid 6 (db_messages w)) message crisis)
  = CompletionResponse (Some content :: choices) ->
  exists w',
    generate_ai_response E message sid crisis w = (Ok (Str.strip content), w')
    /\ (forall c,
          first_char (Str.strip content) = Some c
          \/ last_char (Str.strip content) = Some c ->
          Str.is_space c = false)
    /\ events w' =
       (events w
        ++ [CompletionRequested
              (context_messages (recent_messages_of sid 6 (db_messages w))
                 message crisis)])%list
    /\ completions w' = S (completions w)
    /\ db_messages w' = db_messages w
    /\ db_sessions w' = db_sessions w.
Proof.
  intros Hup Hanswer.
  rewrite (generate_ai_response_run E message sid crisis w Hup).
  cbv zeta. rewrite Hanswer. cbn [completion_reply].
  eexists. split; [reflexivity|].
  split; [intros c; apply strip_ends|].
  repeat split; reflexivity.
Qed.

(** X5: when the query for the history fails, the generator does not call
    the service at all: it logs the fault and returns the fallback text of
    the crisis flag. *)
Theorem generate_ai_response_without_history (message sid : string) (crisis : bool)
  (w : World) :
  store_fails E (store_ops w) = true ->
  exists w',
    generate_ai_response E message sid crisis w
    = (Ok (if crisis then crisis_fallback else generic_fallback), w')
    /\ events w' = (events w ++ [ErrorLogged StoreError])%list
    /\ requested (events w') = requested (events w)
    /\ completions w' = completions w
    /\ db_messages w' = db_messages w.
Proof.
  intros Hdown. rewrite generate_ai_response_store_fault by exact Hdown.
  eexists. split; [reflexivity|]. simpl.
  repeat split; try reflexivity.
  rewrite requested_app. simpl. apply app_nil_r.
Qed.

(** X6: the history that the generator hands to the service consists of
    stored messages of the session it was asked about, and of no other
    session. *)
Theorem context_of_own_session (message sid : string) (crisis : bool) (w : World) :
  store_fails E (store_ops w) = false ->
  exists history,
    requested (events (snd (generate_ai_response E message sid crisis w)))
    = (requested (events w)
       ++ [ {| role := "system"; content := system_prompt crisis |}
            :: map context_entry history
            ++ [ {| role := "user"; content := message |} ] ])%list
    /\ Forall (fun d => In d (db_messages w) /\ Message.session_id d = sid) history.
Proof.
  intros Hup. exists (rev (recent_messages_of sid 6 (db_messages w))). split.
  - rewrite (generator_request message sid crisis w Hup). reflexivity.
  - apply Forall_forall. intros d Hd. apply in_rev in Hd.
    apply recent_messages_In in Hd. exact Hd.
Qed.

End GeneratorProperties.

Lemma recent_messages_none (sid : string) (n : nat) (docs : list Message.doc) :
  (forall d, In d docs -> Message.session_id d <> sid) ->
  recent_messages_of sid n docs = [].
Proof.
  intros Hnone. unfold recent_messages_of.
  replace (filter (fun d => String.eqb (Message.session_id d) sid) docs)
    with (@nil Message.doc); [destruct n; reflexivity|].
  induction docs as [|d docs IH]; [reflexivity|]. simpl.
  destruct (String.eqb (Message.session_id d) sid) eqn:Heq.
  - apply String.eqb_eq in Heq. contradiction (Hnone d (or_introl eq_refl)).
  - apply IH. intros d' Hd'. apply Hnone. right. exact Hd'.
Qed.

(** X7: for a session without stored messages the generator hands the
    service exactly two entries: the system directive and the current
    message. *)
Theorem context_of_new_session (E : Env) (message sid : string) (crisis : bool)
  (w : World) :
  store_fails E (store_ops w) = false ->
  (forall d, In d (db_messages w) -> Message.session_id d <> sid) ->
  requested (events (snd (generate_ai_response E message sid crisis w)))
  = (requested (events w)
     ++ [ [ {| role := "system"; content := system_prompt crisis |};
            {| role := "user"; content := message |} ] ])%list.
Proof.
  intros Hup Hnone. rewrite (generator_request E message sid crisis w Hup).
  rewrite (recent_messages_none sid 6 (db_messages w) Hnone). reflexivity.
Qed.

(** * Further properties of the chat turn *)

Lemma requested_snoc_other (evs : list Event) (ev : Event) :
  (forall m, ev <> CompletionRequested m) ->
  requested (evs ++ [ev]) = requested evs.
Proof.
  intros Hev. rewrite requested_app. destruct ev; simpl;
    try apply app_nil_r. contradiction (Hev messages). reflexivity.
Qed.

Lemma silent_ret {A : Type} (a : A) : silent (ret a).
Proof. intros w. reflexivity. Qed.

Lemma silent_raise {A : Type} (e : Exn) : silent (@raise A e).
Proof. intros w. reflexivity. Qed.

Lemma silent_or_raise {A : Type} (o : option A) (e : Exn) : silent (or_raise o e).
Proof. destruct o; [apply silent_ret | apply silent_raise]. Qed.

Lemma silent_bind {A B : Type} (m : M A) (k : A -> M B) :
  silent m -> (forall a, silent (k a)) -> silent (bind m k).
Proof.
  intros Hm Hk w. unfold bind. specialize (Hm w).
  destruct (m w) as [[a|e] w1]; simpl in *.
  - rewrite Hk. exact Hm.
  - exact Hm.
Qed.

Lemma silent_logging_error (e : Exn) : silent (logging_error e).
Proof.
  intros w. simpl. apply requested_snoc_other. discriminate.
Qed.

Lemma faults_only_ret {A : Type} (a : A) : store_faults_only (ret a).
Proof. intros w e H. discriminate H. Qed.

Lemma faults_only_bind {A B : Type} (m : M A) (k : A -> M B) :
  store_faults_only m -> (forall a, store_faults_only (k a)) ->
  store_faults_only (bind m k).
Proof.
  intros Hm Hk w e. unfold bind. specialize (Hm w).
  destruct (m w) as [[a|e1] w1]; simpl in *.
  - apply Hk.
  - intros H. inversion H. subst e1. apply Hm. reflexivity.
Qed.

Lemma silent_after {A B : Type} (m : M A) (k : A -> M B) (w : World) :
  (forall a, silent (k a)) ->
  requested (events (snd (bind m k w))) = requested (events (snd (m w))).
Proof.
  intros Hk. unfold bind. destruct (m w) as [[a|e] w1]; simpl; [apply Hk | reflexivity].
Qed.

Lemma silent_handler {A : Type} (m : M A) (h : Exn -> M A) (w : World) :
  (forall e, silent (h e)) ->
  requested (events (snd (try_except m h w))) = requested (events (snd (m w))).
Proof.
  intros Hh. unfold try_except.
  destruct (m w) as [[a|e] w1]; simpl; [reflexivity | apply Hh].
Qed.

Lemma ltb_not_leb (a b : string) : String.ltb a b = true -> String.leb b a = false.
Proof.
  unfold String.ltb, String.leb. rewrite (String.compare_antisym a b).
  destruct (String.compare b a); simpl; intros H; try discriminate H. reflexivity.
Qed.

(** A document newer than all the others comes first, wherever it is kept. *)
Lemma sort_by_newest_last (docs : list Message.doc) (d : Message.doc) :
  (forall x, In x docs -> newer_eq x d = false) ->
  sort_by newer_eq (docs ++ [d]) = d :: sort_by newer_eq docs.
Proof.
  induction docs as [|x docs IH]; intros Hold; [reflexivity|].
  simpl. rewrite IH by (intros y Hy; apply Hold; right; exact Hy).
  simpl. rewrite (Hold x (or_introl eq_refl)). reflexivity.
Qed.

Lemma recent_messages_after_insert (sid : string) (n : nat)
  (docs : list Message.doc) (d : Message.doc) :
  Message.session_id d = sid ->
  (forall x, In x docs -> Message.session_id x = sid ->
             String.ltb (Message.timestamp x) (Message.timestamp d) = true) ->
  recent_messages_of sid (S n) (docs ++ [d]) = d :: recent_messages_of sid n docs.
Proof.
  intros Hsid Hold. unfold recent_messages_of.
  rewrite filter_app. simpl. rewrite Hsid, String.eqb_refl.
  rewrite sort_by_newest_last; [reflexivity|].
  intros x Hx. apply filter_In in Hx. destruct Hx as [Hin Heq].
  apply String.eqb_eq in Heq. unfold newer_eq, older_eq.
  apply ltb_not_leb. apply Hold; assumption.
Qed.

Section ChatProperties.

Variable E : Env.

Lemma silent_store_op {A : Type} (act : World -> A * World) :
  (forall w, requested (events (snd (act w))) = requested (events w)) ->
  silent (store_op E act).
Proof.
  intros Hact w. unfold store_op.
  destruct (store_fails E (store_ops w)); [reflexivity|].
  specialize (Hact (count_store_op w)).
  destruct (act (count_store_op w)) as [a w1]. exact Hact.
Qed.

Lemma faults_only_store_op {A : Type} (act : World -> A * World) :
  store_faults_only (store_op E act).
Proof.
  intros w e. unfold store_op.
  destruct (store_fails E (store_ops w)); simpl.
  - intros H. inversion H. reflexivity.
  - destruct (act _). discriminate.
Qed.

Lemma silent_messages_insert_one (d : Message.doc) : silent (messages_insert_one E d).
Proof.
  apply silent_store_op. intros w. simpl.
  apply requested_snoc_other. discriminate.
Qed.

Lemma silent_sessions_insert_one (d : Session.doc) : silent (sessions_insert_one E d).
Proof.
  apply silent_store_op. intros w. simpl.
  apply requested_snoc_other. discriminate.
Qed.

Lemma silent_sessions_update (sid ts : string) :
  silent (sessions_update_last_activity E sid ts).
Proof. apply silent_store_op. intros w. reflexivity. Qed.

Lemma silent_new_message (sid content : string) (is_user : bool)
  (score : option float) (label : option string) (crisis : bool) :
  silent (new_message E sid content is_user score label crisis).
Proof. intros w. reflexivity. Qed.

Lemma silent_now_iso : silent (now_iso E).
Proof. intros w. reflexivity. Qed.

Lemma silent_create_chat_session : silent (create_chat_session E).
Proof.
  unfold create_chat_session.
  apply silent_bind; [intros w; reflexivity | intros session].
  apply silent_bind; [apply silent_sessions_insert_one | intros _].
  apply silent_ret.
Qed.

Lemma growing_create_chat_session : growing (create_chat_session E).
Proof.
  unfold create_chat_session.
  apply growing_bind; [intros w; apply grows_same; reflexivity | intros session].
  apply growing_bind; [apply growing_sessions_insert_one | intros _].
  apply growing_ret.
Qed.

Lemma faults_only_create_chat_session : store_faults_only (create_chat_session E).
Proof.
  unfold create_chat_session.
  apply faults_only_bind; [intros w e H; discriminate H | intros session].
  apply faults_only_bind; [apply faults_only_store_op | intros _].
  apply faults_only_ret.
Qed.

(** Lines 343-372 of [chat]: what follows the generation of the reply. *)
Let chat_tail (request : ChatRequest.t) (sid ai_response : string) : M ChatResponse.t :=
  ai_message <- new_message E sid ai_response false None None false ;;
  messages_insert_one E ai_message ;;;
  ts <- now_iso E ;;
  sessions_update_last_activity E sid ts ;;;
  if detect_crisis (ChatRequest.message request) then
    crisis <- or_raise (getitem "crisis" MENTAL_HEALTH_RESOURCES) KeyError ;;
    ret {| ChatResponse.message := ai_response;
           ChatResponse.session_id := sid;
           ChatResponse.crisis_detected := detect_crisis (ChatRequest.message request);
           ChatResponse.sentiment := Some (analyze_sentiment E (ChatRequest.message request));
           ChatResponse.resources := Some crisis |}
  else
    ret {| ChatResponse.message := ai_response;
           ChatResponse.session_id := sid;
           ChatResponse.crisis_detected := detect_crisis (ChatRequest.message request);
           ChatResponse.sentiment := Some (analyze_sentiment E (ChatRequest.message request));
           ChatResponse.resources := None |}.

(** Lines 312-320 of [chat]: the session of the turn. *)
Let chat_session (request : ChatRequest.t) : M string :=
  match ChatRequest.session_id request with
  | None => create_chat_session E
  | Some sid => if String.eqb sid "" then create_chat_session E else ret sid
  end.

Lemma chat_try_parts (request : ChatRequest.t) :
  chat_try E request =
  (sid <- chat_session request ;;
   user_message <- new_message E sid (ChatRequest.message request) true
                     (Some (Sentiment.compound
                              (analyze_sentiment E (ChatRequest.message request))))
                     (Some (Sentiment.label
                              (analyze_sentiment E (ChatRequest.message request))))
                     (detect_crisis (ChatRequest.message request)) ;;
   messages_insert_one E user_message ;;;
   ai_response <- generate_ai_response E (ChatRequest.message request) sid
                    (detect_crisis (ChatRequest.message request)) ;;
   chat_tail request sid ai_response).
Proof. reflexivity. Qed.

Lemma silent_chat_tail (request : ChatRequest.t) (sid ai_response : string) :
  silent (chat_tail request sid ai_response).
Proof.
  unfold chat_tail.
  apply silent_bind; [apply silent_new_message | intros ai_message].
  apply silent_bind; [apply silent_messages_insert_one | intros _].
  apply silent_bind; [apply silent_now_iso | intros ts].
  apply silent_bind; [apply silent_sessions_update | intros _].
  destruct (detect_crisis _).
  - apply silent_bind; [apply silent_or_raise | intros crisis]. apply silent_ret.
  - apply silent_ret.
Qed.

Lemma faults_only_chat_tail (request : ChatRequest.t) (sid ai_response : string) :
  store_faults_only (chat_tail request sid ai_response).
Proof.
  unfold chat_tail.
  apply faults_only_bind; [intros w e H; discriminate H | intros ai_message].
  apply faults_only_bind; [apply faults_only_store_op | intros _].
  apply faults_only_bind; [intros w e H; discriminate H | intros ts].
  apply faults_only_bind; [apply faults_only_store_op | intros _].
  destruct (detect_crisis _).
  - change (getitem "crisis" MENTAL_HEALTH_RESOURCES)
      with (Some (match getitem "crisis" MENTAL_HEALTH_RESOURCES with
                  | Some r => r | None => [] end)).
    intros w e H. discriminate H.
  - apply faults_only_ret.
Qed.

Lemma growing_chat_tail (request : ChatRequest.t) (sid ai_response : string) :
  growing (chat_tail request sid ai_response).
Proof. apply growing_respond. Qed.

Lemma faults_only_chat_try (request : ChatRequest.t) :
  store_faults_only (chat_try E request).
Proof.
  rewrite chat_try_parts.
  apply faults_only_bind.
  { unfold chat_session. destruct (ChatRequest.session_id request) as [sid|].
    - destruct (String.eqb sid "");
        [apply faults_only_create_chat_session | apply faults_only_ret].
    - apply faults_only_create_chat_session. }
  intros sid.
  apply faults_only_bind; [intros w e H; discriminate H | intros user_message].
  apply faults_only_bind; [apply faults_only_store_op | intros _].
  apply faults_only_bind; [|intros ai_response; apply faults_only_chat_tail].
  intros w e H.
  destruct (generate_ai_response_returns E (ChatRequest.message request) sid
              (detect_crisis (ChatRequest.message request)) w) as [text Htext].
  rewrite Htext in H. discriminate H.
Qed.

Lemma growing_chat_try (request : ChatRequest.t) : growing (chat_try E request).
Proof.
  rewrite chat_try_parts.
  apply growing_bind.
  { unfold chat_session. destruct (ChatRequest.session_id request) as [sid|].
    - destruct (String.eqb sid "");
        [apply growing_create_chat_session | apply growing_ret].
    - apply growing_create_chat_session. }
  intros sid.
  apply growing_bind; [apply growing_new_message | intros user_message].
  apply growing_bind; [apply growing_messages_insert_one | intros _].
  apply growing_bind; [apply growing_generate_ai_response | intros ai_response].
  apply growing_chat_tail.
Qed.

(** X8: a chat turn never removes, rewrites or reorders what is stored or
    logged: the stored messages and the events before the turn are a
    prefix of those after it, whatever the store and the service do. *)
Theorem chat_only_appends (request : ChatRequest.t) (w : World) :
  (exists evs, events (snd (chat E request w)) = (events w ++ evs)%list)
  /\ (exists docs,
        db_messages (snd (chat E request w)) = (db_messages w ++ docs)%list).
Proof.
  change (grows w (snd (chat E request w))). revert w.
  change (growing (chat E request)). unfold chat.
  apply growing_try_except; [apply growing_chat_try | intros e].
  apply growing_bind; [apply growing_logging_error | intros _].
  apply growing_raise.
Qed.

(** X9: a chat turn raises nothing but the status 500 with the detail
    [Internal server error], and only after a fault of the store, which it
    logs last. *)
Theorem chat_fails_on_store_fault_only (request : ChatRequest.t) (w : World) (e : Exn) :
  fst (chat E request w) = Raise e ->
  e = HTTPException 500 "Internal server error"
  /\ exists evs,
       events (snd (chat E request w)) = (evs ++ [ErrorLogged StoreError])%list.
Proof.
  unfold chat, try_except.
  pose proof (faults_only_chat_try request w) as Hfault.
  destruct (chat_try E request w) as [[response|cause] w1]; simpl; intros H.
  - discriminate H.
  - rewrite (Hfault cause eq_refl) in *. inversion H. split; [reflexivity|].
    exists (events w1). reflexivity.
Qed.

(** With the store answering twice, what follows the generation stores the
    reply, unscored, touches the session and returns the response. *)
Lemma chat_tail_run (request : ChatRequest.t) (sid ai_response : string) (w : World) :
  store_fails E (store_ops w) = false ->
  store_fails E (S (store_ops w)) = false ->
  exists w',
    chat_tail request sid ai_response w =
    (Ok {| ChatResponse.message := ai_response;
           ChatResponse.session_id := sid;
           ChatResponse.crisis_detected := detect_crisis (ChatRequest.message request);
           ChatResponse.sentiment :=
             Some (analyze_sentiment E (ChatRequest.message request));
           ChatResponse.resources :=
             if detect_crisis (ChatRequest.message request)
             then getitem "crisis" MENTAL_HEALTH_RESOURCES else None |}, w')
    /\ db_messages w' =
       (db_messages w
        ++ [ {| Message.id := uuid4 E (uuids_drawn w);
                Message.session_id := sid;
                Message.content := ai_response;
                Message.is_user := false;
                Message.timestamp := isoformat E (utcnow E (clock_reads w));
                Message.sentiment_score := None;
                Message.sentiment_label := None;
                Message.crisis_detected := false |} ])%list
    /\ db_sessions w' =
       set_last_activity sid (isoformat E (utcnow E (S (clock_reads w))))
         (db_sessions w)
    /\ completions w' = completions w
    /\ store_ops w' = S (S (store_ops w)).
Proof.
  intros Hup1 Hup2. unfold chat_tail. eexists. split.
  - rewrite (bind_ok _ _ _ _ _ (new_message_run E _ _ _ _ _ _ w)). cbv beta.
    rewrite (bind_ok _ _ _ _ tt
               (messages_insert_one_run E _ (count_clock_read (count_uuid w)) Hup1)).
    cbv beta.
    rewrite (bind_ok _ _ _ _ _ (now_iso_run E _)). cbv beta.
    match goal with
    | |- context [bind (sessions_update_last_activity E sid ?ts) _ ?w1] =>
        rewrite (bind_ok _ _ _ _ tt (sessions_update_run E sid ts w1 Hup2))
    end. cbv beta.
    destruct (detect_crisis (ChatRequest.message request)); reflexivity.
  - repeat split; reflexivity.
Qed.

(** With the store answering, the session of the turn is the one of the
    request, or a new one. *)
Lemma chat_session_run (request : ChatRequest.t) (w : World) :
  (forall n, store_fails E n = false) ->
  exists sid w0,
    chat_session request w = (Ok sid, w0)
    /\ completions w0 = completions w
    /\ db_messages w0 = db_messages w.
Proof.
  intros Hup. destruct (session_of_run E request w Hup)
    as (sid & w0 & Hs & Hc & _ & Hdocs).
  exists sid, w0. repeat split; assumption.
Qed.

(** With the store answering, the whole turn. *)
Lemma chat_store_up (request : ChatRequest.t) (w : World) :
  (forall n, store_fails E n = false) ->
  exists response w' user_message ai_message,
    chat E request w = (Ok response, w')
    /\ db_messages w' = (db_messages w ++ [user_message; ai_message])%list
    /\ is_user_message_of E request user_message
    /\ Message.session_id user_message = ChatResponse.session_id response
    /\ Message.session_id ai_message = ChatResponse.session_id response
    /\ Message.content ai_message = ChatResponse.message response
    /\ Message.is_user ai_message = false
    /\ Message.sentiment_score ai_message = None
    /\ Message.sentiment_label ai_message = None
    /\ completions w' = S (completions w)
    /\ ChatResponse.sentiment response
       = Some (analyze_sentiment E (ChatRequest.message request)).
Proof.
  intros Hup.
  destruct (chat_session_run request w Hup) as (sid & w0 & Hs & Hc0 & Hdocs0).
  pose proof (generate_ai_response_run E (ChatRequest.message request) sid
                (detect_crisis (ChatRequest.message request))) as Hgen.
  assert (Htry : exists response w' user_message ai_message w3,
             chat_try E request w = (Ok response, w')
             /\ db_messages w' = (db_messages w3 ++ [ai_message])%list
             /\ db_messages w3 = (db_messages w0 ++ [user_message])%list
             /\ is_user_message_of E request user_message
             /\ Message.session_id user_message = sid
             /\ ChatResponse.session_id response = sid
             /\ Message.session_id ai_message = sid
             /\ Message.content ai_message = ChatResponse.message response
             /\ Message.is_user ai_message = false
             /\ Message.sentiment_score ai_message = None
             /\ Message.sentiment_label ai_message = None
             /\ completions w' = S (completions w0)
             /\ ChatResponse.sentiment response
                = Some (analyze_sentiment E (ChatRequest.message request))).
  { rewrite chat_try_parts.
    rewrite (bind_ok _ _ _ _ _ Hs). cbv beta.
    rewrite (bind_ok _ _ _ _ _ (new_message_run E _ _ _ _ _ _ w0)). cbv beta.
    rewrite (bind_ok _ _ _ _ tt (messages_insert_one_run E _ _ (Hup _))). cbv beta.
    match goal with
    | |- context [bind (generate_ai_response E _ _ _) _ ?w2] =>
        specialize (Hgen w2 (Hup _)); cbv zeta in Hgen; set (world2 := w2) in *
    end.
    destruct (completion_reply _) as [text|cause];
      rewrite (bind_ok _ _ _ _ _ Hgen); cbv beta;
      match goal with
      | |- context [chat_tail request sid ?ai ?w3] =>
          destruct (chat_tail_run request sid ai w3 (Hup _) (Hup _))
            as (w' & Htail & Hdocs & _ & Hc & _);
          rewrite Htail
      end;
      subst world2;
      eexists; exists w'; eexists; eexists; eexists;
      (split; [reflexivity|]);
      (split; [exact Hdocs|]);
      (split; [reflexivity|]);
      (split; [repeat split|]);
      repeat split; try reflexivity; rewrite Hc; reflexivity. }
  destruct Htry as (response & w' & user_message & ai_message & w3 & Htry & Hd1 & Hd2
                    & Hum & Hus & Hrs & Has & Hac & Hau & Hsc & Hsl & Hc & Hsent).
  exists response, w', user_message, ai_message.
  split; [unfold chat, try_except; rewrite Htry; reflexivity|].
  split; [rewrite Hd1, Hd2, Hdocs0, <- app_assoc; reflexivity|].
  rewrite Hrs, Hc, Hc0. split; [exact Hum|]. repeat split; assumption.
Qed.

(** X10: with the store answering, every chat turn returns a response,
    whatever the service does; it calls the service exactly once and adds
    two messages to the store, the user's and then the reply, both under
    the session of the response; the reply is stored unscored, with the
    message of the response as its content. *)
Theorem chat_returns (request : ChatRequest.t) (w : World) :
  (forall n, store_fails E n = false) ->
  exists response w' user_message ai_message,
    chat E request w = (Ok response, w')
    /\ db_messages w' = (db_messages w ++ [user_message; ai_message])%list
    /\ is_user_message_of E request user_message
    /\ Message.session_id user_message = ChatResponse.session_id response
    /\ Message.session_id ai_message = ChatResponse.session_id response
    /\ Message.content ai_message = ChatResponse.message response
    /\ Message.is_user ai_message = false
    /\ Message.sentiment_score ai_message = None
    /\ Message.sentiment_label ai_message = None
    /\ completions w' = S (completions w)
    /\ ChatResponse.sentiment response
       = Some (analyze_sentiment E (ChatRequest.message request)).
Proof. apply chat_store_up. Qed.

(** X11: in a turn of an existing session whose new timestamp is later
    than every stored timestamp of the session, the context sent to the
    service ends with the current user message twice: once as the newest
    entry of the history, because the message is stored before the history
    is fetched, and once as the current message; the history before it
    holds the five newest earlier messages. *)
Theorem chat_context_repeats_message (request : ChatRequest.t) (sid : string)
  (w : World) :
  ChatRequest.session_id request = Some sid ->
  sid <> "" ->
  store_fails E (store_ops w) = false ->
  store_fails E (S (store_ops w)) = false ->
  (forall d, In d (db_messages w) -> Message.session_id d = sid ->
             String.ltb (Message.timestamp d)
               (isoformat E (utcnow E (clock_reads w))) = true) ->
  requested (events (snd (chat E request w)))
  = (requested (events w)
     ++ [ {| role := "system";
             content := system_prompt (detect_crisis (ChatRequest.message request)) |}
          :: map context_entry (rev (recent_messages_of sid 5 (db_messages w)))
          ++ [ {| role := "user"; content := ChatRequest.message request |};
               {| role := "user"; content := ChatRequest.message request |} ] ])%list.
Proof.
  intros Hsid Hne Hup1 Hup2 Hold.
  unfold chat. rewrite silent_handler
    by (intros e; apply silent_bind;
        [apply silent_logging_error | intros _; apply silent_raise]).
  rewrite chat_try_parts.
  assert (Hs : chat_session request w = (Ok sid, w)).
  { unfold chat_session. rewrite Hsid.
    destruct (String.eqb sid "") eqn:Heq; [|reflexivity].
    apply String.eqb_eq in Heq. contradiction. }
  rewrite (bind_ok _ _ _ _ _ Hs). cbv beta.
  rewrite (bind_ok _ _ _ _ _ (new_message_run E _ _ _ _ _ _ w)). cbv beta.
  rewrite (bind_ok _ _ _ _ tt
             (messages_insert_one_run E _ (count_clock_read (count_uuid w)) Hup1)).
  cbv beta.
  rewrite silent_after by (intros ai_response; apply silent_chat_tail).
  rewrite generator_request by exact Hup2.
  cbn [db_messages emit with_store events count_store_op count_clock_read count_uuid].
  rewrite requested_snoc_other by discriminate.
  rewrite (recent_messages_after_insert sid 5) by (try reflexivity; exact Hold).
  unfold context_messages. cbn [rev map context_entry Message.is_user Message.content].
  rewrite map_app. cbn [map context_entry Message.is_user Message.content].
  rewrite <- !app_assoc. reflexivity.
Qed.

End ChatProperties.

(** * Further properties of the sentiment trends *)

Lemma append_at_grouped {V : Type} (key : string) (v : V) (daily : list (string * list V)) :
  grouped (append_at key v daily) = S (grouped daily).
Proof.
  induction daily as [|[k vs] daily IH]; simpl; [reflexivity|].
  destruct (String.eqb k key); simpl.
  - rewrite length_app. simpl. lia.
  - rewrite IH. lia.
Qed.

Lemma append_at_keys {V : Type} (key : string) (v : V) (daily : list (string * list V)) :
  map fst (append_at key v daily)
  = if existsb (String.eqb key) (map fst daily) then map fst daily
    else (map fst daily ++ [key])%list.
Proof.
  induction daily as [|[k vs] daily IH]; simpl; [reflexivity|].
  rewrite (String.eqb_sym key k).
  destruct (String.eqb k key); simpl; [reflexivity|].
  rewrite IH. destruct (existsb _ _); reflexivity.
Qed.

Lemma append_at_NoDup {V : Type} (key : string) (v : V) (daily : list (string * list V)) :
  NoDup (map fst daily) -> NoDup (map fst (append_at key v daily)).
Proof.
  intros Hnd. rewrite append_at_keys.
  destruct (existsb (String.eqb key) (map fst daily)) eqn:Hex; [exact Hnd|].
  apply NoDup_rev in Hnd. rewrite <- (rev_involutive (map fst daily ++ [key])).
  apply NoDup_rev. rewrite rev_app_distr. simpl. constructor; [|exact Hnd].
  intros Hin. apply in_rev in Hin.
  assert (Hex' : existsb (String.eqb key) (map fst daily) = true)
    by (apply existsb_exists; exists key; split; [exact Hin | apply String.eqb_refl]).
  congruence.
Qed.

Lemma append_at_Forall {V : Type} (P : list V -> Prop) (key : string) (v : V)
  (daily : list (string * list V)) :
  P [v] -> (forall vs, P vs -> P (vs ++ [v])%list) ->
  Forall (fun day => P (snd day)) daily ->
  Forall (fun day => P (snd day)) (append_at key v daily).
Proof.
  intros Hone Hmore Hall. induction Hall as [|[k vs] daily Hday Hrest IH]; simpl.
  - repeat constructor. exact Hone.
  - destruct (String.eqb k key); constructor; simpl; auto.
Qed.

Lemma sum_from_some (scores : list (option float)) (acc : float) :
  Forall (fun x => x <> None) scores -> exists total, sum_from acc scores = Some total.
Proof.
  revert acc. induction scores as [|x scores IH]; intros acc Hall; simpl.
  - eexists. reflexivity.
  - inversion Hall as [|? ? Hx Hrest]; subst.
    destruct x as [x|]; [apply IH; exact Hrest | contradiction Hx; reflexivity].
Qed.

(** The messages that the trends query returns are scored user messages of
    the session. *)
Lemma scored_messages_In (sid start : string) (docs : list Message.doc)
  (d : Message.doc) :
  In d (scored_messages_since sid start docs) ->
  In d docs
  /\ Message.session_id d = sid
  /\ Message.is_user d = true
  /\ Message.sentiment_score d <> None
  /\ String.leb start (Message.timestamp d) = true.
Proof.
  unfold scored_messages_since. intros H.
  apply sort_by_In in H. apply filter_In in H. destruct H as [Hin H].
  apply andb_true_iff in H. destruct H as [H Hts].
  apply andb_true_iff in H. destruct H as [H Hscore].
  apply andb_true_iff in H. destruct H as [Hsid Huser].
  repeat split; try assumption.
  - apply String.eqb_eq. exact Hsid.
  - destruct (Message.sentiment_score d); [discriminate | discriminate Hscore].
Qed.

Lemma NoDup_map_injective {A B : Type} (f : A -> B) (l : list A) :
  (forall a b, f a = f b -> a = b) -> NoDup l -> NoDup (map f l).
Proof.
  intros Hinj Hnd. induction Hnd as [|x l Hx _ IH]; simpl; constructor; [|exact IH].
  intros Hin. apply in_map_iff in Hin. destruct Hin as (y & Hy & Hin).
  apply Hinj in Hy. subst y. contradiction.
Qed.

Section TrendProperties.

Variable E : Env.

(** Averaging never touches the world. *)
Lemma mean_run (scores : list (option float)) (w : World) :
  scores <> [] -> Forall (fun x => x <> None) scores ->
  exists avg, mean scores w = (Ok avg, w).
Proof.
  intros Hne Hall. unfold mean, sum.
  destruct (sum_from_some scores 0%float Hall) as [total Htotal].
  rewrite Htotal. simpl. unfold bind, ret.
  destruct scores; [contradiction Hne; reflexivity|]. eexists. reflexivity.
Qed.

Lemma group_by_day_run (messages : list Message.doc)
  (daily : list (string * list (option float))) (w : World) :
  Forall (fun d => iso_date E (Message.timestamp d) <> None) messages ->
  Forall (fun d => Message.sentiment_score d <> None) messages ->
  NoDup (map fst daily) ->
  Forall (fun day => snd day <> [] /\ Forall (fun x => x <> None) (snd day)) daily ->
  exists daily',
    group_by_day E messages daily w = (Ok daily', w)
    /\ grouped daily' = (grouped daily + List.length messages)%nat
    /\ NoDup (map fst daily')
    /\ Forall (fun day => snd day <> [] /\ Forall (fun x => x <> None) (snd day)) daily'.
Proof.
  revert daily. induction messages as [|msg messages IH];
    intros daily Hdates Hscores Hnd Hgroups.
  - exists daily. simpl. repeat split; try assumption. lia.
  - inversion Hdates as [|? ? Hdate Hdates']; subst.
    inversion Hscores as [|? ? Hscore Hscores']; subst.
    cbn [group_by_day].
    destruct (iso_date E (Message.timestamp msg)) as [key|] eqn:Hkey;
      [|contradiction Hdate; reflexivity].
    rewrite (bind_ok _ _ w w key) by reflexivity.
    destruct (IH (append_at key (Message.sentiment_score msg) daily) Hdates' Hscores')
      as (daily' & Hrun & Htotal & Hnd' & Hgroups').
    + apply append_at_NoDup. exact Hnd.
    + apply (append_at_Forall
               (fun vs => vs <> [] /\ Forall (fun x : option float => x <> None) vs)).
      * split; [discriminate | repeat constructor; exact Hscore].
      * intros vs [Hne Hall]. split; [destruct vs; discriminate|].
        apply Forall_app. split; [exact Hall | repeat constructor; exact Hscore].
      * exact Hgroups.
    + exists daily'. split; [exact Hrun|]. split; [|split; assumption].
      rewrite Htotal, append_at_grouped. simpl. lia.
Qed.

Lemma daily_trends_run (daily : list (string * list (option float))) (w : World) :
  Forall (fun day => snd day <> [] /\ Forall (fun x => x <> None) (snd day)) daily ->
  exists buckets,
    daily_trends daily w = (Ok buckets, w)
    /\ map date_of buckets = map (fun day => Some (VStr (fst day))) daily
    /\ map count_of buckets = map (fun day => Z.of_nat (List.length (snd day))) daily.
Proof.
  induction 1 as [|[date scores] daily [Hne Hall] _ IH]; simpl.
  - exists []. repeat split; reflexivity.
  - destruct (mean_run scores w Hne Hall) as [avg Havg].
    destruct IH as (buckets & Hrun & Hdates & Hcounts).
    rewrite (bind_ok _ _ _ _ _ Havg). cbv beta.
    rewrite (bind_ok _ _ _ _ _ Hrun). cbv beta.
    eexists. split; [reflexivity|]. simpl.
    rewrite Hdates, Hcounts. split; reflexivity.
Qed.

(** With the date arithmetic and the store answering, the handler is the
    aggregation of the store's answer. *)
Lemma get_sentiment_trends_run (session_id : string) (days : Z) (w : World)
  (start : datetime) :
  minus_days E (utcnow E (clock_reads w)) days = Some start ->
  store_fails E (store_ops w) = false ->
  let messages := scored_messages_since session_id (isoformat E start) (db_messages w) in
  get_sentiment_trends E session_id days w =
  match messages with
  | [] =>
      ret {| trends := [];
             summary := [ ("avg_sentiment", VInt 0); ("total_messages", VInt 0) ] |}
  | _ :: _ =>
      daily_sentiments <- group_by_day E messages [] ;;
      trends <- daily_trends daily_sentiments ;;
      avg_sentiment <- mean (map Message.sentiment_score messages) ;;
      ret {| trends := trends;
             summary :=
               [ ("avg_sentiment", VFloat avg_sentiment);
                 ("total_messages", VInt (Z.of_nat (List.length messages)));
                 ("days_analyzed", VInt days) ] |}
  end (count_store_op (count_clock_read w)).
Proof.
  intros Hstart Hup messages. unfold get_sentiment_trends.
  rewrite (bind_ok _ _ w (count_clock_read w) (utcnow E (clock_reads w)))
    by reflexivity.
  cbv beta. rewrite Hstart. unfold or_raise at 1.
  rewrite (bind_ok _ _ _ _ _ (eq_refl : ret start (count_clock_read w) = _)).
  cbv beta. unfold messages_find_scored_since.
  rewrite (bind_ok _ _ _ _ _ (store_op_ok E _ (count_clock_read w) Hup)).
  reflexivity.
Qed.

Lemma grouped_counts (daily : list (string * list (option float))) :
  fold_right Z.add 0%Z (map (fun day => Z.of_nat (List.length (snd day))) daily)
  = Z.of_nat (grouped daily).
Proof.
  induction daily as [|day daily IH]; simpl; [reflexivity|].
  rewrite IH. lia.
Qed.

(** X12: when the date arithmetic and the store answer and the stored
    timestamps of the window are dates, the handler returns; it leaves the
    store and the events as they were; its buckets have pairwise
    different dates and at least one message each, and their counts add
    up to [total_messages], the number of scored user messages of the
    session in the window. *)
Theorem trends_buckets (session_id : string) (days : Z) (w : World) (start : datetime) :
  minus_days E (utcnow E (clock_reads w)) days = Some start ->
  store_fails E (store_ops w) = false ->
  let messages := scored_messages_since session_id (isoformat E start) (db_messages w) in
  (forall d, In d messages -> iso_date E (Message.timestamp d) <> None) ->
  exists result w',
    get_sentiment_trends E session_id days w = (Ok result, w')
    /\ (db_messages w' = db_messages w /\ db_sessions w' = db_sessions w
        /\ events w' = events w)
    /\ NoDup (map date_of (trends result))
    /\ Forall (fun bucket => (1 <= count_of bucket)%Z) (trends result)
    /\ fold_right Z.add 0%Z (map count_of (trends result))
       = Z.of_nat (List.length messages)
    /\ getitem "total_messages" (summary result)
       = Some (VInt (Z.of_nat (List.length messages))).
Proof.
  intros Hstart Hup messages Hdates.
  rewrite (get_sentiment_trends_run session_id days w start Hstart Hup).
  cbv zeta. fold messages.
  destruct messages as [|msg rest] eqn:Hm.
  - eexists. eexists. split; [reflexivity|]. simpl.
    repeat split; try reflexivity; constructor.
  - rewrite <- Hm in *.
    assert (Hscored : Forall (fun d => Message.sentiment_score d <> None) messages).
    { apply Forall_forall. intros d Hd. subst messages.
      apply scored_messages_In in Hd. tauto. }
    assert (Hdated : Forall (fun d => iso_date E (Message.timestamp d) <> None) messages)
      by (apply Forall_forall; exact Hdates).
    set (w1 := count_store_op (count_clock_read w)).
    destruct (group_by_day_run messages [] w1 Hdated Hscored)
      as (daily & Hgroup & Htotal & Hnd & Hgroups); [constructor | constructor|].
    destruct (daily_trends_run daily w1 Hgroups)
      as (buckets & Hbuckets & Hbdates & Hbcounts).
    destruct (mean_run (map Message.sentiment_score messages) w1) as [avg Havg].
    { rewrite Hm. discriminate. }
    { apply Forall_forall. intros x Hx. apply in_map_iff in Hx.
      destruct Hx as (d & Hd & Hin). subst x.
      apply (proj1 (Forall_forall _ _) Hscored). exact Hin. }
    rewrite (bind_ok _ _ _ _ _ Hgroup). cbv beta.
    rewrite (bind_ok _ _ _ _ _ Hbuckets). cbv beta.
    rewrite (bind_ok _ _ _ _ _ Havg). cbv beta.
    eexists. eexists. split; [reflexivity|]. simpl.
    split; [repeat split; reflexivity|].
    split.
    { rewrite Hbdates.
      rewrite <- (map_map fst (fun k => Some (VStr k))).
      apply NoDup_map_injective; [|exact Hnd].
      intros a b Hab. inversion Hab. reflexivity. }
    split.
    { apply Forall_forall. intros bucket Hb.
      assert (Hc : In (count_of bucket) (map count_of buckets))
        by (apply in_map; exact Hb).
      rewrite Hbcounts in Hc. apply in_map_iff in Hc.
      destruct Hc as (day & Hday & Hin). rewrite <- Hday.
      apply (proj1 (Forall_forall _ _) Hgroups) in Hin. destruct Hin as [Hne _].
      destruct (snd day); [contradiction Hne; reflexivity | simpl; lia]. }
    split; [|reflexivity].
    rewrite Hbcounts, grouped_counts, Htotal. reflexivity.
Qed.

Lemma group_by_day_same_day (messages : list Message.doc) (day : string)
  (scores : list (option float)) (w : World) :
  (forall d, In d messages -> iso_date E (Message.timestamp d) = Some day) ->
  group_by_day E messages [(day, scores)] w
  = (Ok [(day, (scores ++ map Message.sentiment_score messages)%list)], w).
Proof.
  revert scores. induction messages as [|msg messages IH]; intros scores Hday.
  - simpl. rewrite app_nil_r. reflexivity.
  - cbn [group_by_day]. rewrite (Hday msg (or_introl eq_refl)).
    rewrite (bind_ok _ _ w w day) by reflexivity.
    cbn [append_at]. rewrite String.eqb_refl.
    rewrite IH by (intros d Hd; apply Hday; right; exact Hd).
    rewrite <- app_assoc. reflexivity.
Qed.

(** X13: when all the scored user messages of the window bear the same
    date, the handler returns exactly one bucket, whose count is their
    number and whose average is the sum of their scores divided by their
    number; the summary carries the same average, the same number and
    the requested number of days. *)
Theorem trends_single_day (session_id day : string) (days : Z) (w : World)
  (start : datetime) :
  minus_days E (utcnow E (clock_reads w)) days = Some start ->
  store_fails E (store_ops w) = false ->
  let messages := scored_messages_since session_id (isoformat E start) (db_messages w) in
  messages <> [] ->
  (forall d, In d messages -> iso_date E (Message.timestamp d) = Some day) ->
  exists total,
    sum (map Message.sentiment_score messages) = Some total
    /\ fst (get_sentiment_trends E session_id days w)
       = Ok {| trends :=
                 [ [ ("date", VStr day);
                     ("avg_sentiment",
                      VFloat (total / float_of_nat (List.length messages))%float);
                     ("message_count", VInt (Z.of_nat (List.length messages))) ] ];
               summary :=
                 [ ("avg_sentiment",
                    VFloat (total / float_of_nat (List.length messages))%float);
                   ("total_messages", VInt (Z.of_nat (List.length messages)));
                   ("days_analyzed", VInt days) ] |}.
Proof.
  intros Hstart Hup messages Hne Hday.
  rewrite (get_sentiment_trends_run session_id days w start Hstart Hup).
  cbv zeta. fold messages.
  assert (Hscored : Forall (fun x : option float => x <> None)
                      (map Message.sentiment_score messages)).
  { apply Forall_forall. intros x Hx. apply in_map_iff in Hx.
    destruct Hx as (d & Hd & Hin). subst x messages.
    apply scored_messages_In in Hin. tauto. }
  destruct (sum_from_some _ 0%float Hscored) as [total Htotal].
  exists total. split; [exact Htotal|].
  destruct messages as [|msg rest] eqn:Hm; [contradiction Hne; reflexivity|].
  rewrite <- Hm in *.
  set (w1 := count_store_op (count_clock_read w)).
  assert (Hgroup : group_by_day E messages [] w1
                   = (Ok [(day, map Message.sentiment_score messages)], w1)).
  { rewrite Hm. cbn [group_by_day].
    rewrite (Hday msg) by (rewrite Hm; left; reflexivity).
    rewrite (bind_ok _ _ w1 w1 day) by reflexivity.
    cbn [append_at].
    rewrite group_by_day_same_day
      by (intros d Hd; apply Hday; rewrite Hm; right; exact Hd).
    reflexivity. }
  assert (Hmean : mean (map Message.sentiment_score messages) w1
                  = (Ok (total / float_of_nat (List.length messages))%float, w1)).
  { unfold mean. fold (sum (map Message.sentiment_score messages)) in Htotal.
    rewrite Htotal. cbn [or_raise].
    rewrite (bind_ok _ _ w1 w1 total) by reflexivity.
    pose proof (length_map Message.sentiment_score messages) as Hlen.
    revert Hlen. destruct (map Message.sentiment_score messages) as [|x xs] eqn:Hmap.
    - rewrite Hm in Hmap. discriminate Hmap.
    - intros Hlen. rewrite Hlen. reflexivity. }
  assert (Hdaily : daily_trends [(day, map Message.sentiment_score messages)] w1
                   = (Ok [ [ ("date", VStr day);
                             ("avg_sentiment",
                              VFloat (total / float_of_nat (List.length messages))%float);
                             ("message_count",
                              VInt (Z.of_nat (List.length messages))) ] ], w1)).
  { cbn [daily_trends].
    rewrite (bind_ok _ _ _ _ _ Hmean). cbv beta.
    rewrite (bind_ok _ _ w1 w1 []) by reflexivity. cbv beta.
    rewrite length_map. reflexivity. }
  rewrite (bind_ok _ _ _ _ _ Hgroup). cbv beta.
  rewrite (bind_ok _ _ _ _ _ Hdaily). cbv beta.
  rewrite (bind_ok _ _ _ _ _ Hmean). reflexivity.
Qed.

End TrendProperties.

(** * Properties of the other handlers *)

Lemma session_with_id_none (sid : string) (docs : list Session.doc) :
  (forall d, In d docs -> Session.id d <> sid) ->
  session_with_id sid docs = None.
Proof.
  intros Hnone. unfold session_with_id.
  induction docs as [|d docs IH]; [reflexivity|]. simpl.
  destruct (String.eqb (Session.id d) sid) eqn:Heq.
  - apply String.eqb_eq in Heq. contradiction (Hnone d (or_introl eq_refl)).
  - apply IH. intros x Hx. apply Hnone. right. exact Hx.
Qed.

Lemma session_with_id_last (sid : string) (docs : list Session.doc) (d : Session.doc) :
  (forall x, In x docs -> Session.id x <> sid) ->
  Session.id d = sid ->
  session_with_id sid (docs ++ [d]) = Some d.
Proof.
  intros Hnone Hid. unfold session_with_id.
  induction docs as [|x docs IH]; simpl.
  - rewrite Hid, String.eqb_refl. reflexivity.
  - destruct (String.eqb (Session.id x) sid) eqn:Heq.
    + apply String.eqb_eq in Heq. contradiction (Hnone x (or_introl eq_refl)).
    + apply IH. intros y Hy. apply Hnone. right. exact Hy.
Qed.

Lemma session_with_id_some (sid : string) (docs : list Session.doc) (d : Session.doc) :
  session_with_id sid docs = Some d -> In d docs /\ Session.id d = sid.
Proof.
  unfold session_with_id. intros H. apply find_some in H.
  destruct H as [Hin Heq]. split; [exact Hin | apply String.eqb_eq; exact Heq].
Qed.

Section SessionProperties.

Variable E : Env.
Variable fromisoformat : string -> option datetime.

Lemma create_session_run (request : SessionRequest.t) (w : World) :
  store_fails E (store_ops w) = false ->
  let session :=
    {| UserSession.id := uuid4 E (uuids_drawn w);
       UserSession.nickname := SessionRequest.nickname request;
       UserSession.created_at := utcnow E (clock_reads w);
       UserSession.last_activity := utcnow E (S (clock_reads w));
       UserSession.settings := [] |} in
  create_session E request w
  = (Ok session,
     emit (SessionInserted (session_doc (isoformat E) session))
       (with_store
          (count_store_op (count_clock_read (count_clock_read (count_uuid w))))
          (db_sessions w ++ [session_doc (isoformat E) session])%list
          (db_messages w))).
Proof.
  intros Hup session. unfold create_session.
  rewrite (bind_ok _ _ w (count_uuid w) (uuid4 E (uuids_drawn w))) by reflexivity.
  cbv beta.
  rewrite (bind_ok _ _ (count_uuid w) (count_clock_read (count_uuid w))
             (utcnow E (clock_reads w))) by reflexivity.
  cbv beta.
  rewrite (bind_ok _ _ (count_clock_read (count_uuid w))
             (count_clock_read (count_clock_read (count_uuid w)))
             (utcnow E (S (clock_reads w)))) by reflexivity.
  cbv beta. fold session.
  rewrite (bind_ok _ _ _ _ tt
             (sessions_insert_one_run E _
                (count_clock_read (count_clock_read (count_uuid w))) Hup)).
  reflexivity.
Qed.

(** X14: a session that was just created is read back as it was returned:
    [get_session] on the id of the session that [create_session] returned
    gives the same session, when no stored session had that id and the
    two dates of the session are read back from their ISO texts. *)
Theorem create_then_get_session (request : SessionRequest.t) (w : World) :
  store_fails E (store_ops w) = false ->
  store_fails E (S (store_ops w)) = false ->
  (forall d, In d (db_sessions w) -> Session.id d <> uuid4 E (uuids_drawn w)) ->
  fromisoformat (isoformat E (utcnow E (clock_reads w)))
  = Some (utcnow E (clock_reads w)) ->
  fromisoformat (isoformat E (utcnow E (S (clock_reads w))))
  = Some (utcnow E (S (clock_reads w))) ->
  exists session w1 w2,
    create_session E request w = (Ok session, w1)
    /\ UserSession.nickname session = SessionRequest.nickname request
    /\ get_session E fromisoformat (UserSession.id session) w1 = (Ok session, w2)
    /\ db_sessions w2 = db_sessions w1.
Proof.
  intros Hup1 Hup2 Hfresh Hcreated Hlast.
  pose proof (create_session_run request w Hup1) as Hrun. cbv zeta in Hrun.
  eexists. eexists. eexists. split; [exact Hrun|]. split; [reflexivity|].
  unfold get_session, sessions_find_one.
  match goal with
  | |- context [bind (store_op E ?act) _ ?w1] =>
      rewrite (bind_ok _ _ _ _ _ (store_op_ok E act w1 Hup2))
  end.
  cbn [fst snd]. cbn [db_sessions emit with_store count_store_op].
  rewrite session_with_id_last; [|exact Hfresh | reflexivity].
  cbn [Session.created_at Session.last_activity session_doc
         UserSession.created_at UserSession.last_activity].
  rewrite Hcreated, Hlast. split; reflexivity.
Qed.

(** X15: [get_session] on an id that no stored session has raises the
    status 404 with the detail [Session not found], and leaves the store
    as it was. *)
Theorem get_session_unknown (session_id : string) (w : World) :
  store_fails E (store_ops w) = false ->
  (forall d, In d (db_sessions w) -> Session.id d <> session_id) ->
  exists w',
    get_session E fromisoformat session_id w
    = (Raise (HTTPException 404 "Session not found"), w')
    /\ db_sessions w' = db_sessions w
    /\ db_messages w' = db_messages w
    /\ events w' = events w.
Proof.
  intros Hup Hnone. unfold get_session, sessions_find_one.
  rewrite (bind_ok _ _ _ _ _ (store_op_ok E _ _ Hup)). cbn [fst snd].
  cbn [db_sessions count_store_op].
  rewrite (session_with_id_none _ _ Hnone).
  eexists. split; [reflexivity|]. repeat split; reflexivity.
Qed.

(** X16: a session that [get_session] returns is the first stored session
    with the id asked for, with its two dates read from their ISO texts. *)
Theorem get_session_found (session_id : string) (w w' : World) (session : UserSession.t) :
  get_session E fromisoformat session_id w = (Ok session, w') ->
  exists d,
    session_with_id session_id (db_sessions w) = Some d
    /\ In d (db_sessions w)
    /\ UserSession.id session = session_id
    /\ UserSession.nickname session = Session.nickname d
    /\ fromisoformat (Session.created_at d) = Some (UserSession.created_at session)
    /\ fromisoformat (Session.last_activity d) = Some (UserSession.last_activity session)
    /\ db_sessions w' = db_sessions w.
Proof.
  unfold get_session, sessions_find_one, store_op. intros H.
  unfold bind in H.
  destruct (store_fails E (store_ops w)); [discriminate H|].
  cbn [db_sessions count_store_op] in H.
  destruct (session_with_id session_id (db_sessions w)) as [d|] eqn:Hfind;
    [|discriminate H].
  destruct (session_with_id_some _ _ _ Hfind) as [Hin Hid].
  unfold or_raise, ret, raise in H.
  destruct (fromisoformat (Session.created_at d)) as [created|] eqn:Hc;
    [|discriminate H].
  destruct (fromisoformat (Session.last_activity d)) as [last|] eqn:Hl;
    [|discriminate H].
  inversion H. subst. exists d. simpl. repeat split; try assumption; reflexivity.
Qed.

End SessionProperties.

(** * Properties of the chat history *)

Lemma Forall2_rev_both {A B : Type} (R : A -> B -> Prop) (l : list A) (l' : list B) :
  Forall2 R l l' -> Forall2 R (rev l) (rev l').
Proof.
  induction 1 as [|a b l l' Hab Hl IH]; simpl.
  - constructor.
  - apply Forall2_app; [exact IH | repeat constructor; exact Hab].
Qed.

Lemma cursor_limit_In {A : Type} (limit : Z) (l : list A) (x : A) :
  In x (cursor_limit limit l) -> In x l.
Proof.
  unfold cursor_limit. destruct (limit =? 0)%Z; [tauto | apply firstn_In].
Qed.

Lemma cursor_limit_Sorted {A : Type} (R : A -> A -> Prop) (limit : Z) (l : list A) :
  Sorted R l -> Sorted R (cursor_limit limit l).
Proof.
  unfold cursor_limit. destruct (limit =? 0)%Z; [tauto | apply Sorted_firstn].
Qed.

Lemma cursor_limit_length {A : Type} (limit : Z) (l : list A) :
  (0 < limit)%Z -> (List.length (cursor_limit limit l) <= Z.to_nat limit)%nat.
Proof.
  intros Hpos. unfold cursor_limit.
  destruct (Z.eqb_spec limit 0) as [H0|_]; [lia|].
  rewrite Zabs2Nat.abs_nat_nonneg by lia. apply firstn_le_length.
Qed.

Lemma cursor_limit_all {A : Type} (limit : Z) (l : list A) :
  (Z.of_nat (List.length l) <= limit)%Z -> cursor_limit limit l = l.
Proof.
  intros Hall. unfold cursor_limit.
  destruct (Z.eqb_spec limit 0) as [H0|_]; [reflexivity|].
  apply firstn_all2. rewrite Zabs2Nat.abs_nat_nonneg by lia. lia.
Qed.

(** The store answers the query of [get_chat_history] with stored messages
    of the session asked for, newest first. *)
Lemma history_of_In (sid : string) (limit : Z) (docs : list Message.doc)
  (d : Message.doc) :
  In d (history_of sid limit docs) ->
  In d docs /\ Message.session_id d = sid.
Proof.
  unfold history_of. intros H.
  apply cursor_limit_In in H. apply sort_by_In in H. apply filter_In in H.
  destruct H as [Hin Hsid]. split; [exact Hin|].
  apply String.eqb_eq. exact Hsid.
Qed.

Lemma history_of_newest_first (sid : string) (limit : Z) (docs : list Message.doc) :
  Sorted (fun a b => newer_eq a b = true) (history_of sid limit docs).
Proof.
  unfold history_of. apply cursor_limit_Sorted.
  apply (sort_by_Sorted newer_eq).
  intros a b. unfold newer_eq, older_eq.
  destruct (String.leb_total (Message.timestamp a) (Message.timestamp b)); auto.
Qed.

(** With a limit that the session does not exceed, the answer holds every
    stored message of the session. *)
Lemma history_of_all (sid : string) (limit : Z) (docs : list Message.doc)
  (d : Message.doc) :
  (Z.of_nat (List.length (messages_of sid docs)) <= limit)%Z ->
  In d docs -> Message.session_id d = sid ->
  In d (history_of sid limit docs).
Proof.
  intros Hall Hin Hsid. unfold history_of.
  rewrite cursor_limit_all
    by (rewrite sort_by_length; exact Hall).
  apply sort_by_In. apply filter_In. split; [exact Hin|].
  apply String.eqb_eq. exact Hsid.
Qed.

Lemma history_of_all_length (sid : string) (limit : Z) (docs : list Message.doc) :
  (Z.of_nat (List.length (messages_of sid docs)) <= limit)%Z ->
  List.length (history_of sid limit docs) = List.length (messages_of sid docs).
Proof.
  intros Hall. unfold history_of.
  rewrite cursor_limit_all by (rewrite sort_by_length; exact Hall).
  apply sort_by_length.
Qed.

Lemma Forall2_In_right {A B : Type} (R : A -> B -> Prop) (l : list A) (l' : list B)
  (b : B) :
  Forall2 R l l' -> In b l' -> exists a, In a l /\ R a b.
Proof.
  induction 1 as [|x y l l' Hxy Hl IH]; intros Hin; [contradiction|].
  destruct Hin as [Hin|Hin].
  - subst. exists x. split; [left; reflexivity | exact Hxy].
  - destruct (IH Hin) as (a & Ha & Hab). exists a. split; [right; exact Ha | exact Hab].
Qed.

Lemma history_of_none (sid : string) (limit : Z) (docs : list Message.doc) :
  (forall d, In d docs -> Message.session_id d <> sid) ->
  history_of sid limit docs = [].
Proof.
  intros Hnone. unfold history_of.
  replace (filter (fun d => String.eqb (Message.session_id d) sid) docs)
    with (@nil Message.doc).
  - unfold cursor_limit. destruct (limit =? 0)%Z; [reflexivity|].
    cbn [sort_by]. apply firstn_nil.
  - symmetry. induction docs as [|x docs IH]; [reflexivity|].
    cbn [filter].
    destruct (String.eqb_spec (Message.session_id x) sid) as [Heq|_].
    + exfalso. apply (Hnone x); [left; reflexivity | exact Heq].
    + apply IH. intros d Hd. apply Hnone. right. exact Hd.
Qed.

Section HistoryProperties.

Variable E : Env.
Variable fromisoformat : string -> option datetime.

(** The loop over the answer reads every timestamp, and changes nothing. *)
Lemma message_models_run (messages : list Message.doc) (w : World) :
  Forall (fun d => fromisoformat (Message.timestamp d) <> None) messages ->
  exists models,
    message_models fromisoformat messages w = (Ok models, w)
    /\ Forall2 (is_model_of fromisoformat) models messages.
Proof.
  induction 1 as [|d l Hd Hl IH].
  - exists []. split; [reflexivity | constructor].
  - destruct IH as (models & Hrun & Hall).
    destruct (fromisoformat (Message.timestamp d)) as [ts|] eqn:Hts;
      [|contradiction Hd; reflexivity].
    exists (message_model d ts :: models). split.
    + cbn [message_models]. unfold bind at 1. rewrite Hts. cbn [or_raise ret].
      rewrite (bind_ok _ _ _ _ _ Hrun). reflexivity.
    + constructor; [|exact Hall]. exists ts. split; [exact Hts | reflexivity].
Qed.

(** The loop stops at the first timestamp that is no ISO text. *)
Lemma message_models_raise (messages : list Message.doc) (w : World) :
  Exists (fun d => fromisoformat (Message.timestamp d) = None) messages ->
  message_models fromisoformat messages w = (Raise ValueError, w).
Proof.
  induction messages as [|d l IH]; intros Hex; [inversion Hex|].
  cbn [message_models]. unfold bind at 1.
  destruct (fromisoformat (Message.timestamp d)) as [ts|] eqn:Hts;
    cbn [or_raise ret raise]; [|reflexivity].
  inversion Hex as [? ? Hd|? ? Hl]; subst; [congruence|].
  rewrite (bind_raise _ _ _ _ _ (IH Hl)). reflexivity.
Qed.

Lemma get_chat_history_run (sid : string) (limit : Z) (w : World) :
  store_fails E (store_ops w) = false ->
  (forall d, In d (db_messages w) -> Message.session_id d = sid ->
             fromisoformat (Message.timestamp d) <> None) ->
  exists models,
    get_chat_history E fromisoformat sid limit w = (Ok models, count_store_op w)
    /\ Forall2 (is_model_of fromisoformat) models
         (rev (history_of sid limit (db_messages w))).
Proof.
  intros Hup Hparse. unfold get_chat_history, messages_find_history.
  rewrite (bind_ok _ _ _ _ _ (store_op_ok E _ _ Hup)). cbn [fst snd].
  cbn [db_messages count_store_op].
  destruct (message_models_run (history_of sid limit (db_messages w)) (count_store_op w))
    as (models & Hrun & Hall).
  { apply Forall_forall. intros d Hd. apply history_of_In in Hd.
    destruct Hd as [Hin Hsid]. apply Hparse; assumption. }
  rewrite (bind_ok _ _ _ _ _ Hrun). cbv beta.
  exists (rev models). split; [reflexivity|].
  apply Forall2_rev_both. exact Hall.
Qed.

(** X17: with the store answering and the timestamps of the session's
    messages readable, [get_chat_history] returns models of stored
    messages of the session asked for, oldest first by their ISO texts;
    with a positive limit they are at most [limit]; nothing stored
    changes and no event is recorded. *)
Theorem chat_history_oldest_first (sid : string) (limit : Z) (w : World) :
  store_fails E (store_ops w) = false ->
  (forall d, In d (db_messages w) -> Message.session_id d = sid ->
             fromisoformat (Message.timestamp d) <> None) ->
  exists models docs w',
    get_chat_history E fromisoformat sid limit w = (Ok models, w')
    /\ Forall2 (is_model_of fromisoformat) models docs
    /\ Sorted (fun a b => older_eq a b = true) docs
    /\ (forall d, In d docs -> In d (db_messages w) /\ Message.session_id d = sid)
    /\ ((0 < limit)%Z -> (List.length models <= Z.to_nat limit)%nat)
    /\ db_messages w' = db_messages w
    /\ db_sessions w' = db_sessions w
    /\ events w' = events w.
Proof.
  intros Hup Hparse.
  destruct (get_chat_history_run sid limit w Hup Hparse) as (models & Hrun & Hall).
  exists models, (rev (history_of sid limit (db_messages w))), (count_store_op w).
  split; [exact Hrun|]. split; [exact Hall|]. split.
  { apply (Sorted_rev (fun a b => newer_eq a b = true)).
    apply history_of_newest_first. }
  split.
  { intros d Hd. apply in_rev in Hd. apply (history_of_In _ _ _ _ Hd). }
  split.
  { intros Hpos. rewrite (Forall2_length Hall), length_rev.
    apply cursor_limit_length. exact Hpos. }
  repeat split; reflexivity.
Qed.

(** X18: a stored message of the session whose timestamp is no ISO text
    makes [get_chat_history] raise [ValueError] when the store's answer
    holds it, which it does when the limit covers the session. *)
Theorem chat_history_unreadable_timestamp (sid : string) (limit : Z) (w : World)
  (d : Message.doc) :
  store_fails E (store_ops w) = false ->
  (Z.of_nat (List.length (messages_of sid (db_messages w))) <= limit)%Z ->
  In d (db_messages w) ->
  Message.session_id d = sid ->
  fromisoformat (Message.timestamp d) = None ->
  exists w',
    get_chat_history E fromisoformat sid limit w = (Raise ValueError, w')
    /\ db_messages w' = db_messages w.
Proof.
  intros Hup Hall Hin Hsid Hbad. unfold get_chat_history, messages_find_history.
  rewrite (bind_ok _ _ _ _ _ (store_op_ok E _ _ Hup)). cbn [fst snd].
  cbn [db_messages count_store_op].
  assert (Hex : Exists (fun d => fromisoformat (Message.timestamp d) = None)
                  (history_of sid limit (db_messages w))).
  { apply Exists_exists. exists d. split; [|exact Hbad].
    apply history_of_all; assumption. }
  rewrite (bind_raise _ _ _ _ _
             (message_models_raise (history_of sid limit (db_messages w))
                (count_store_op w) Hex)).
  eexists. split; reflexivity.
Qed.

(** X19: after a chat turn, the history of the session of the response,
    asked with a limit that covers the store, holds the user's message and
    the reply of the turn, and two messages more than the session had. *)
Theorem chat_then_history (request : ChatRequest.t) (limit : Z) (w : World) :
  (forall n, store_fails E n = false) ->
  (Z.of_nat (List.length (db_messages w)) + 2 <= limit)%Z ->
  (forall d, In d (db_messages (snd (chat E request w))) ->
             fromisoformat (Message.timestamp d) <> None) ->
  exists response w' models w'',
    chat E request w = (Ok response, w')
    /\ get_chat_history E fromisoformat (ChatResponse.session_id response) limit w'
       = (Ok models, w'')
    /\ List.length models
       = S (S (List.length
                 (messages_of (ChatResponse.session_id response) (db_messages w))))
    /\ exists user_model ai_model,
         In user_model models /\ In ai_model models
         /\ ChatMessage.content user_model = ChatRequest.message request
         /\ ChatMessage.is_user user_model = true
         /\ ChatMessage.content ai_model = ChatResponse.message response
         /\ ChatMessage.is_user ai_model = false.
Proof.
  intros Hup Hlimit Hparse.
  destruct (chat_store_up E request w Hup)
    as (response & w' & um & am & Hchat & Hdocs & Hum & Hus & Has & Hac & Hau & _).
  rewrite Hchat in Hparse. cbn [snd] in Hparse.
  set (sid := ChatResponse.session_id response) in *.
  assert (Hcount : messages_of sid (db_messages w')
                   = (messages_of sid (db_messages w) ++ [um; am])%list).
  { rewrite Hdocs. unfold messages_of. rewrite filter_app. cbn [filter].
    rewrite Hus, Has, String.eqb_refl. reflexivity. }
  assert (Hcover : (Z.of_nat (List.length (messages_of sid (db_messages w'))) <= limit)%Z).
  { rewrite Hcount, length_app. cbn [List.length].
    pose proof (filter_length_le
                  (fun d => String.eqb (Message.session_id d) sid) (db_messages w)) as Hle.
    unfold messages_of. lia. }
  destruct (get_chat_history_run sid limit w' (Hup _)) as (models & Hrun & Hall).
  { intros d Hd _. apply Hparse. exact Hd. }
  exists response, w', models, (count_store_op w').
  split; [exact Hchat|]. split; [exact Hrun|]. split.
  { rewrite (Forall2_length Hall), length_rev.
    rewrite history_of_all_length by exact Hcover.
    rewrite Hcount, length_app. cbn [List.length]. fold sid. lia. }
  assert (Hin : forall d, In d [um; am] ->
                          exists m, In m models /\ is_model_of fromisoformat m d).
  { intros d Hd. apply (Forall2_In_right _ _ _ d Hall).
    apply -> in_rev. apply history_of_all; [exact Hcover| |].
    - rewrite Hdocs. apply in_or_app. right. exact Hd.
    - destruct Hd as [Hd|[Hd|[]]]; subst d; assumption. }
  destruct (Hin um (or_introl eq_refl)) as (mu & Hmu & tu & _ & Heu).
  destruct (Hin am (or_intror (or_introl eq_refl))) as (ma & Hma & ta & _ & Hea).
  exists mu, ma. split; [exact Hmu|]. split; [exact Hma|].
  destruct Hum as (Hcontent & Huser & _).
  subst mu ma. cbn [ChatMessage.content ChatMessage.is_user message_model].
  repeat split; assumption.
Qed.

End HistoryProperties.

(** * Properties of the deletion of a session's data *)

Lemma without_first_session_In (sid : string) (docs : list Session.doc)
  (d : Session.doc) :
  In d (without_first_session sid docs) -> In d docs.
Proof.
  induction docs as [|x docs IH]; simpl; [tauto|].
  destruct (String.eqb (Session.id x) sid); simpl; [tauto|].
  intros [H|H]; [left; exact H | right; apply IH; exact H].
Qed.

Lemma without_first_session_other (sid : string) (docs : list Session.doc)
  (d : Session.doc) :
  In d docs -> Session.id d <> sid -> In d (without_first_session sid docs).
Proof.
  induction docs as [|x docs IH]; simpl; [tauto|].
  intros [H|H] Hne.
  - subst x. apply String.eqb_neq in Hne. rewrite Hne. left. reflexivity.
  - destruct (String.eqb (Session.id x) sid); [exact H|].
    right. apply IH; assumption.
Qed.

(** Where the stored sessions have different ids, [delete_one] leaves no
    session with the id. *)
Lemma without_first_session_NoDup (sid : string) (docs : list Session.doc)
  (d : Session.doc) :
  NoDup (map Session.id docs) ->
  In d (without_first_session sid docs) -> Session.id d <> sid.
Proof.
  induction docs as [|x docs IH]; simpl; [tauto|].
  intros Hnd Hin. inversion Hnd as [|? ? Hx Hrest]; subst.
  destruct (String.eqb_spec (Session.id x) sid) as [Heq|Hne].
  - intros Hd. apply Hx. rewrite Heq, <- Hd. apply in_map. exact Hin.
  - destruct Hin as [Hin|Hin]; [subst x; exact Hne | apply IH; assumption].
Qed.

Lemma filter_not_session (sid : string) (docs : list Message.doc) (d : Message.doc) :
  In d (filter (fun d => negb (String.eqb (Message.session_id d) sid)) docs)
  <-> In d docs /\ Message.session_id d <> sid.
Proof.
  rewrite filter_In, negb_true_iff, String.eqb_neq. tauto.
Qed.

Lemma filter_not_mood_session (sid : string) (docs : list Mood.doc) (d : Mood.doc) :
  In d (filter (fun d => negb (String.eqb (Mood.session_id d) sid)) docs)
  <-> In d docs /\ Mood.session_id d <> sid.
Proof.
  rewrite filter_In, negb_true_iff, String.eqb_neq. tauto.
Qed.

Section DeletionProperties.

Variable E : Env.

Lemma delete_user_data_run (sid : string) (b : Backend) :
  store_fails E (store_ops (core b)) = false ->
  store_fails E (S (store_ops (core b))) = false ->
  store_fails E (S (S (store_ops (core b)))) = false ->
  delete_user_data E sid b
  = (Ok "All user data deleted successfully",
     {| core :=
          with_store
            (count_store_op (count_store_op (count_store_op (core b))))
            (without_first_session sid (db_sessions (core b)))
            (filter (fun d => negb (String.eqb (Message.session_id d) sid))
               (db_messages (core b)));
        db_mood_entries :=
          filter (fun d => negb (String.eqb (Mood.session_id d) sid))
            (db_mood_entries b) |}).
Proof.
  intros H1 H2 H3.
  unfold delete_user_data, try_exceptB, bindB, lift, messages_delete_many,
    moods_delete_many, sessions_delete_one, mood_store_op, store_op, retB.
  rewrite H1. cbn [core db_mood_entries store_ops count_store_op with_store].
  rewrite H2. cbn [core db_mood_entries store_ops count_store_op with_store].
  rewrite H3. reflexivity.
Qed.

(** X20: with the store answering its three calls, [delete_user_data]
    returns its message of success; after it exactly the messages and the
    mood entries of other sessions are stored, every session with another
    id is kept, no session is added, and where the stored sessions have
    different ids no session with the id is left. *)
Theorem delete_user_data_erases (sid : string) (b : Backend) :
  store_fails E (store_ops (core b)) = false ->
  store_fails E (S (store_ops (core b))) = false ->
  store_fails E (S (S (store_ops (core b)))) = false ->
  exists b',
    delete_user_data E sid b = (Ok "All user data deleted successfully", b')
    /\ (forall d, In d (db_messages (core b'))
                  <-> In d (db_messages (core b)) /\ Message.session_id d <> sid)
    /\ (forall d, In d (db_mood_entries b')
                  <-> In d (db_mood_entries b) /\ Mood.session_id d <> sid)
    /\ (forall d, In d (db_sessions (core b)) -> Session.id d <> sid ->
                  In d (db_sessions (core b')))
    /\ (forall d, In d (db_sessions (core b')) -> In d (db_sessions (core b)))
    /\ (NoDup (map Session.id (db_sessions (core b))) ->
        forall d, In d (db_sessions (core b')) -> Session.id d <> sid)
    /\ events (core b') = events (core b).
Proof.
  intros H1 H2 H3. eexists. split; [apply delete_user_data_run; assumption|].
  cbn [core db_mood_entries db_messages db_sessions events with_store count_store_op].
  split; [intros d; apply filter_not_session|].
  split; [intros d; apply filter_not_mood_session|].
  split; [intros d; apply without_first_session_other|].
  split; [intros d; apply without_first_session_In|].
  split; [|reflexivity].
  intros Hnd d. apply without_first_session_NoDup. exact Hnd.
Qed.

(** X21: the deletion is not one step: when the store fails at the third
    call, [delete_user_data] raises the status 500 with the detail
    [Error deleting user data] and logs the fault, and the messages and
    the mood entries of the session are gone while its session is still
    stored. *)
Theorem delete_user_data_partial (sid : string) (b : Backend) :
  store_fails E (store_ops (core b)) = false ->
  store_fails E (S (store_ops (core b))) = false ->
  store_fails E (S (S (store_ops (core b)))) = true ->
  exists b',
    delete_user_data E sid b
    = (Raise (HTTPException 500 "Error deleting user data"), b')
    /\ db_sessions (core b') = db_sessions (core b)
    /\ (forall d, In d (db_messages (core b')) -> Message.session_id d <> sid)
    /\ (forall d, In d (db_mood_entries b') -> Mood.session_id d <> sid)
    /\ events (core b') = (events (core b) ++ [ErrorLogged StoreError])%list.
Proof.
  intros H1 H2 H3.
  unfold delete_user_data, try_exceptB, bindB, lift, messages_delete_many,
    moods_delete_many, sessions_delete_one, mood_store_op, store_op, retB, raiseB,
    logging_error.
  rewrite H1. cbn [core db_mood_entries store_ops count_store_op with_store].
  rewrite H2. cbn [core db_mood_entries store_ops count_store_op with_store].
  rewrite H3. cbn [core db_mood_entries store_ops count_store_op with_store emit].
  eexists. split; [reflexivity|].
  cbn [core db_mood_entries db_messages db_sessions events].
  split; [reflexivity|].
  split; [intros d Hd; apply filter_not_session in Hd; tauto|].
  split; [intros d Hd; apply filter_not_mood_session in Hd; tauto|].
  reflexivity.
Qed.

(** X22: whatever the store does, [delete_user_data] returns its message
    of success or raises the status 500, and it removes no message, no
    mood entry and no session of another session id. *)
Theorem delete_user_data_spares_others (sid : string) (b : Backend) :
  (fst (delete_user_data E sid b) = Ok "All user data deleted successfully"
   \/ fst (delete_user_data E sid b)
      = Raise (HTTPException 500 "Error deleting user data"))
  /\ (forall d, In d (db_messages (core b)) -> Message.session_id d <> sid ->
                In d (db_messages (core (snd (delete_user_data E sid b)))))
  /\ (forall d, In d (db_mood_entries b) -> Mood.session_id d <> sid ->
                In d (db_mood_entries (snd (delete_user_data E sid b))))
  /\ (forall d, In d (db_sessions (core b)) -> Session.id d <> sid ->
                In d (db_sessions (core (snd (delete_user_data E sid b))))).
Proof.
  unfold delete_user_data, try_exceptB, bindB, lift, messages_delete_many,
    moods_delete_many, sessions_delete_one, mood_store_op, store_op, retB, raiseB,
    logging_error.
  destruct (store_fails E (store_ops (core b)));
    cbn [core db_mood_entries store_ops count_store_op with_store emit fst snd
           db_messages db_sessions];
    [repeat split; auto|].
  destruct (store_fails E (S (store_ops (core b))));
    cbn [core db_mood_entries store_ops count_store_op with_store emit fst snd
           db_messages db_sessions];
    [repeat split; auto; intros d Hd Hne; apply filter_not_session; tauto|].
  destruct (store_fails E (S (S (store_ops (core b)))));
    cbn [core db_mood_entries store_ops count_store_op with_store emit fst snd
           db_messages db_sessions];
    (split; [auto|]);
    (split; [intros d Hd Hne; apply filter_not_session; tauto|]);
    (split; [intros d Hd Hne; apply filter_not_mood_session; tauto|]);
    auto.
  intros d Hd Hne. apply without_first_session_other; assumption.
Qed.

(** X23: after a deletion that the store answered, the history of the
    session is empty. *)
Theorem delete_then_history_empty (fromisoformat : string -> option datetime)
  (sid : string) (limit : Z) (b : Backend) :
  (forall n, store_fails E n = false) ->
  exists b' w'',
    delete_user_data E sid b = (Ok "All user data deleted successfully", b')
    /\ get_chat_history E fromisoformat sid limit (core b') = (Ok [], w'').
Proof.
  intros Hup. eexists. eexists.
  split; [apply delete_user_data_run; apply Hup|].
  unfold get_chat_history, messages_find_history.
  rewrite (bind_ok _ _ _ _ _ (store_op_ok E _ _ (Hup _))). cbn [fst snd].
  cbn [core db_messages with_store count_store_op].
  rewrite history_of_none; [reflexivity|].
  intros d Hd. apply filter_not_session in Hd. tauto.
Qed.

End DeletionProperties.

(** * Properties of the mood entries *)

Lemma mood_score_ok_range (mood_score : Z) :
  mood_score_ok mood_score = true <-> (1 <= mood_score <= 5)%Z.
Proof. unfold mood_score_ok. rewrite andb_true_iff, !Z.leb_le. tauto. Qed.

Lemma bindB_ok {A C : Type} (m : B A) (k : A -> B C) (b b1 : Backend) (a : A) :
  m b = (Ok a, b1) -> bindB m k b = k a b1.
Proof. intros H. unfold bindB. rewrite H. reflexivity. Qed.

Lemma bindB_raise {A C : Type} (m : B A) (k : A -> B C) (b b1 : Backend) (e : Exn) :
  m b = (Raise e, b1) -> bindB m k b = (Raise e, b1).
Proof. intros H. unfold bindB. rewrite H. reflexivity. Qed.

Lemma lift_run {A : Type} (m : M A) (b : Backend) (r : Result A) (w' : World) :
  m (core b) = (r, w') ->
  lift m b = (r, {| core := w'; db_mood_entries := db_mood_entries b |}).
Proof. intros H. unfold lift. rewrite H. reflexivity. Qed.

(** The store answers the query of [get_mood_history] with stored entries
    of the session, none older than the start, oldest first. *)
Lemma moods_since_In (sid start : string) (docs : list Mood.doc) (d : Mood.doc) :
  In d (moods_since sid start docs)
  <-> In d docs /\ Mood.session_id d = sid
      /\ String.leb start (Mood.timestamp d) = true.
Proof.
  unfold moods_since. rewrite sort_by_In, filter_In, andb_true_iff, String.eqb_eq.
  tauto.
Qed.

Lemma moods_since_oldest_first (sid start : string) (docs : list Mood.doc) :
  Sorted (fun a b => mood_older_eq a b = true) (moods_since sid start docs).
Proof.
  unfold moods_since. apply (sort_by_Sorted mood_older_eq).
  intros a b. unfold mood_older_eq.
  destruct (String.leb_total (Mood.timestamp a) (Mood.timestamp b)); auto.
Qed.

Section MoodProperties.

Variable E : Env.
Variable fromisoformat : string -> option datetime.

Lemma mood_store_op_ok {A : Type} (act : list Mood.doc -> A * list Mood.doc)
  (b : Backend) :
  store_fails E (store_ops (core b)) = false ->
  mood_store_op E act b
  = (Ok (fst (act (db_mood_entries b))),
     {| core := count_store_op (core b);
        db_mood_entries := snd (act (db_mood_entries b)) |}).
Proof.
  intros H. unfold mood_store_op. rewrite H. destruct (act _); reflexivity.
Qed.

Lemma log_mood_run (request : MoodRequest.t) (b : Backend) :
  (1 <= MoodRequest.mood_score request <= 5)%Z ->
  store_fails E (store_ops (core b)) = false ->
  let mood_entry :=
    {| MoodEntry.id := uuid4 E (uuids_drawn (core b));
       MoodEntry.session_id := MoodRequest.session_id request;
       MoodEntry.mood_score := MoodRequest.mood_score request;
       MoodEntry.note := MoodRequest.note request;
       MoodEntry.timestamp := utcnow E (clock_reads (core b)) |} in
  log_mood E request b
  = (Ok mood_entry,
     {| core := count_store_op (count_clock_read (count_uuid (core b)));
        db_mood_entries :=
          (db_mood_entries b ++ [mood_doc (isoformat E) mood_entry])%list |}).
Proof.
  intros Hrange Hup mood_entry. apply mood_score_ok_range in Hrange.
  unfold log_mood, bindB, lift, new_mood_entry, bind, uuid4_str, datetime_now,
    moods_insert_one, mood_store_op, retB.
  rewrite Hrange. cbn [ret core db_mood_entries store_ops count_clock_read count_uuid].
  rewrite Hup. reflexivity.
Qed.

(** The loops over the store's answer read every timestamp and check
    every score, and change nothing. *)
Lemma mood_timestamps_run (entries : list Mood.doc) (w : World) :
  Forall (fun d => fromisoformat (Mood.timestamp d) <> None) entries ->
  exists dated,
    mood_timestamps fromisoformat entries w = (Ok dated, w)
    /\ Forall2 (fun p d => fst p = d /\ fromisoformat (Mood.timestamp d) = Some (snd p))
         dated entries.
Proof.
  induction 1 as [|d l Hd Hl IH].
  - exists []. split; [reflexivity | constructor].
  - destruct IH as (dated & Hrun & Hall).
    destruct (fromisoformat (Mood.timestamp d)) as [ts|] eqn:Hts;
      [|contradiction Hd; reflexivity].
    exists ((d, ts) :: dated). split.
    + cbn [mood_timestamps]. unfold bind at 1. rewrite Hts. cbn [or_raise ret].
      rewrite (bind_ok _ _ _ _ _ Hrun). reflexivity.
    + constructor; [|exact Hall]. split; [reflexivity | exact Hts].
Qed.

Lemma mood_models_run (dated : list (Mood.doc * datetime)) (w : World) :
  Forall (fun p => (1 <= Mood.mood_score (fst p) <= 5)%Z) dated ->
  mood_models dated w
  = (Ok (map (fun p => mood_model (fst p) (snd p)) dated), w).
Proof.
  induction 1 as [|[d ts] l Hd Hl IH]; [reflexivity|].
  cbn [mood_models map fst snd]. cbn [fst] in Hd.
  apply mood_score_ok_range in Hd. rewrite Hd.
  rewrite (bind_ok _ _ _ _ _ IH). reflexivity.
Qed.

Lemma get_mood_history_run (sid : string) (days : Z) (b : Backend) (start : datetime) :
  store_fails E (store_ops (core b)) = false ->
  minus_days E (utcnow E (clock_reads (core b))) days = Some start ->
  (forall d, In d (db_mood_entries b) -> Mood.session_id d = sid ->
             fromisoformat (Mood.timestamp d) <> None
             /\ (1 <= Mood.mood_score d <= 5)%Z) ->
  exists models,
    get_mood_history E fromisoformat sid days b
    = (Ok models,
       {| core := count_store_op (count_clock_read (core b));
          db_mood_entries := db_mood_entries b |})
    /\ Forall2 (is_mood_model_of fromisoformat) models
         (moods_since sid (isoformat E start) (db_mood_entries b)).
Proof.
  intros Hup Hstart Hgood.
  set (answer := moods_since sid (isoformat E start) (db_mood_entries b)).
  assert (Hanswer : forall d, In d answer ->
                              fromisoformat (Mood.timestamp d) <> None
                              /\ (1 <= Mood.mood_score d <= 5)%Z).
  { intros d Hd. apply moods_since_In in Hd. destruct Hd as (Hin & Hsid & _).
    apply Hgood; assumption. }
  destruct (mood_timestamps_run answer (count_store_op (count_clock_read (core b))))
    as (dated & Hdated & Hall).
  { apply Forall_forall. intros d Hd. apply (Hanswer d Hd). }
  assert (Hscores : Forall (fun p => (1 <= Mood.mood_score (fst p) <= 5)%Z) dated).
  { clear Hdated. induction Hall as [|p d l l' [Hp _] Hl IH]; constructor.
    - rewrite Hp. apply (Hanswer d). left. reflexivity.
    - apply IH. intros x Hx. apply Hanswer. right. exact Hx. }
  exists (map (fun p => mood_model (fst p) (snd p)) dated). split.
  - unfold get_mood_history.
    rewrite (bindB_ok _ _ _ _ _ (lift_run (datetime_now E) b _ _ eq_refl)). cbv beta.
    rewrite Hstart.
    rewrite (bindB_ok _ _ _ _ _ (lift_run (or_raise (Some start) OverflowError) _ _ _ eq_refl)).
    cbv beta. unfold moods_find_since.
    match goal with
    | |- context [bindB (mood_store_op E ?act) _ ?b1] =>
        rewrite (bindB_ok _ _ _ _ _ (mood_store_op_ok act b1 Hup))
    end.
    cbn [fst snd core db_mood_entries].
    fold answer.
    match goal with
    | |- bindB (lift ?m) _ ?b1 = _ =>
        rewrite (bindB_ok _ _ _ _ _ (lift_run m b1 _ _ Hdated))
    end.
    cbv beta. cbn [db_mood_entries].
    match goal with
    | |- lift ?m ?b1 = _ =>
        apply (lift_run m b1 _ _ (mood_models_run dated _ Hscores))
    end.
  - clear Hdated Hscores Hanswer.
    induction Hall as [|p d l l' [Hp Hts] Hl IH]; cbn [map]; constructor.
    + exists (snd p). split; [exact Hts | rewrite Hp; reflexivity].
    + exact IH.
Qed.

(** X24: whatever the request and the store, [log_mood] changes the mood
    entries at most by one entry added at the end, which has the session
    of the request and a score from 1 to 5; so a store whose scores are
    in that range stays so; the messages and the sessions are untouched. *)
Theorem log_mood_only_appends (request : MoodRequest.t) (b : Backend) :
  (db_mood_entries (snd (log_mood E request b)) = db_mood_entries b
   \/ exists d,
        db_mood_entries (snd (log_mood E request b)) = (db_mood_entries b ++ [d])%list
        /\ Mood.session_id d = MoodRequest.session_id request
        /\ Mood.mood_score d = MoodRequest.mood_score request
        /\ (1 <= Mood.mood_score d <= 5)%Z)
  /\ (moods_in_range (db_mood_entries b) ->
      moods_in_range (db_mood_entries (snd (log_mood E request b))))
  /\ db_messages (core (snd (log_mood E request b))) = db_messages (core b)
  /\ db_sessions (core (snd (log_mood E request b))) = db_sessions (core b).
Proof.
  unfold log_mood, bindB, lift, new_mood_entry, bind, uuid4_str, datetime_now,
    moods_insert_one, mood_store_op, retB.
  destruct (mood_score_ok (MoodRequest.mood_score request)) eqn:Hok;
    cbn [ret raise core db_mood_entries store_ops count_clock_read count_uuid snd
           db_messages db_sessions];
    [|repeat split; auto].
  destruct (store_fails E (store_ops (core b)));
    cbn [core db_mood_entries snd db_messages db_sessions count_store_op
           count_clock_read count_uuid];
    [repeat split; auto|].
  apply mood_score_ok_range in Hok.
  split; [right; eexists; split; [reflexivity|]; repeat split; apply Hok|].
  split; [|split; reflexivity].
  intros Hrange. apply Forall_app. split; [exact Hrange|].
  constructor; [exact Hok | constructor].
Qed.

(** X25: with the store answering, a start date that exists, and stored
    entries of the session that are readable and in range,
    [get_mood_history] returns models of exactly the stored entries of the
    session whose ISO timestamp is not before that of the start, oldest
    first, and leaves the mood entries as they were. *)
Theorem mood_history_oldest_first (sid : string) (days : Z) (b : Backend)
  (start : datetime) :
  store_fails E (store_ops (core b)) = false ->
  minus_days E (utcnow E (clock_reads (core b))) days = Some start ->
  (forall d, In d (db_mood_entries b) -> Mood.session_id d = sid ->
             fromisoformat (Mood.timestamp d) <> None
             /\ (1 <= Mood.mood_score d <= 5)%Z) ->
  exists models docs b',
    get_mood_history E fromisoformat sid days b = (Ok models, b')
    /\ Forall2 (is_mood_model_of fromisoformat) models docs
    /\ Sorted (fun x y => mood_older_eq x y = true) docs
    /\ (forall d, In d docs
                  <-> In d (db_mood_entries b) /\ Mood.session_id d = sid
                      /\ String.leb (isoformat E start) (Mood.timestamp d) = true)
    /\ db_mood_entries b' = db_mood_entries b.
Proof.
  intros Hup Hstart Hgood.
  destruct (get_mood_history_run sid days b start Hup Hstart Hgood)
    as (models & Hrun & Hall).
  exists models, (moods_since sid (isoformat E start) (db_mood_entries b)).
  eexists. split; [exact Hrun|]. split; [exact Hall|].
  split; [apply moods_since_oldest_first|].
  split; [intros d; apply moods_since_In | reflexivity].
Qed.

(** X26: a mood that was just logged is read back: with the store
    answering, [log_mood] on a score from 1 to 5 returns an entry with the
    session, the score and the note of the request, and a
    [get_mood_history] of the session right after it, whose start is not
    after the entry, returns that entry among its models. *)
Theorem log_mood_then_history (request : MoodRequest.t) (days : Z) (b : Backend)
  (start : datetime) :
  (1 <= MoodRequest.mood_score request <= 5)%Z ->
  store_fails E (store_ops (core b)) = false ->
  store_fails E (S (store_ops (core b))) = false ->
  minus_days E (utcnow E (S (clock_reads (core b)))) days = Some start ->
  String.leb (isoformat E start) (isoformat E (utcnow E (clock_reads (core b)))) = true ->
  fromisoformat (isoformat E (utcnow E (clock_reads (core b))))
  = Some (utcnow E (clock_reads (core b))) ->
  (forall d, In d (db_mood_entries b) ->
             Mood.session_id d = MoodRequest.session_id request ->
             fromisoformat (Mood.timestamp d) <> None
             /\ (1 <= Mood.mood_score d <= 5)%Z) ->
  exists mood_entry b' models b'',
    log_mood E request b = (Ok mood_entry, b')
    /\ MoodEntry.session_id mood_entry = MoodRequest.session_id request
    /\ MoodEntry.mood_score mood_entry = MoodRequest.mood_score request
    /\ MoodEntry.note mood_entry = MoodRequest.note request
    /\ get_mood_history E fromisoformat (MoodRequest.session_id request) days b'
       = (Ok models, b'')
    /\ In mood_entry models.
Proof.
  intros Hrange Hup1 Hup2 Hstart Hafter Hread Hgood.
  pose proof (log_mood_run request b Hrange Hup1) as Hlog. cbv zeta in Hlog.
  match type of Hlog with
  | _ = (Ok ?entry, ?b1) => set (mood_entry := entry) in *; set (b' := b1) in *
  end.
  destruct (get_mood_history_run (MoodRequest.session_id request) days b' start)
    as (models & Hrun & Hall).
  - exact Hup2.
  - exact Hstart.
  - intros d Hd Hsid. unfold b' in Hd. cbn [db_mood_entries] in Hd.
    apply in_app_or in Hd. destruct Hd as [Hd|[Hd|[]]]; [apply Hgood; assumption|].
    subst d. cbn [mood_doc Mood.timestamp Mood.mood_score mood_entry
                    MoodEntry.timestamp MoodEntry.mood_score].
    split; [rewrite Hread; discriminate | exact Hrange].
  - exists mood_entry, b', models. eexists.
    split; [exact Hlog|]. split; [reflexivity|]. split; [reflexivity|].
    split; [reflexivity|]. split; [exact Hrun|].
    assert (Hin : In (mood_doc (isoformat E) mood_entry)
                    (moods_since (MoodRequest.session_id request) (isoformat E start)
                       (db_mood_entries b'))).
    { apply moods_since_In. split; [|split].
      - unfold b'. cbn [db_mood_entries]. apply in_or_app. right. left. reflexivity.
      - reflexivity.
      - exact Hafter. }
    clear Hrun. induction Hall as [|m d l l' [ts [Hts Hm]] Hl IH]; [contradiction|].
    destruct Hin as [Hin|Hin]; [|right; apply IH; exact Hin].
    left. subst d m.
    cbn [mood_doc Mood.timestamp mood_entry MoodEntry.timestamp] in Hts.
    rewrite Hread in Hts. injection Hts as <-. reflexivity.
Qed.

End MoodProperties.

(** * Properties of the sweep at startup *)

Lemma among_In (ids : list string) (x : string) :
  among ids x = true <-> In x ids.
Proof.
  unfold among. rewrite existsb_exists. split.
  - intros (y & Hy & Heq). apply String.eqb_eq in Heq. subst y. exact Hy.
  - intros H. exists x. split; [exact H | apply String.eqb_refl].
Qed.

Lemma stale_sessions_ids (cutoff : string) (sessions : list Session.doc) (x : string) :
  In x (map Session.id (stale_sessions cutoff sessions)) <-> stale_id cutoff sessions x.
Proof.
  unfold stale_id, stale_sessions. rewrite in_map_iff. split.
  - intros (s & Hid & Hs). apply filter_In in Hs. exists s. tauto.
  - intros (s & Hin & Hstale & Hid). exists s. split; [exact Hid|].
    apply filter_In. tauto.
Qed.

Lemma not_among_stale (cutoff : string) (sessions : list Session.doc) (x : string) :
  negb (among (map Session.id (stale_sessions cutoff sessions)) x) = true
  <-> ~ stale_id cutoff sessions x.
Proof.
  rewrite negb_true_iff, <- not_true_iff_false, among_In, stale_sessions_ids.
  tauto.
Qed.

Section SweepProperties.

Variable E : Env.

(** X27: [startup_cleanup] never raises, whatever the store and the clock
    do, and it adds nothing to the store: every session, message and mood
    entry stored after it was stored before. *)
Theorem startup_cleanup_never_raises (b : Backend) :
  fst (startup_cleanup E b) = Ok tt
  /\ (forall d, In d (db_sessions (core (snd (startup_cleanup E b)))) ->
                In d (db_sessions (core b)))
  /\ (forall d, In d (db_messages (core (snd (startup_cleanup E b)))) ->
                In d (db_messages (core b)))
  /\ (forall d, In d (db_mood_entries (snd (startup_cleanup E b))) ->
                In d (db_mood_entries b)).
Proof.
  unfold startup_cleanup, try_exceptB, bindB, lift, datetime_now, or_raise,
    sessions_find_stale, messages_delete_many_in, moods_delete_many_in,
    sessions_delete_many_in, mood_store_op, store_op, retB, logging_error.
  cbn [core db_mood_entries count_clock_read].
  destruct (minus_days E (utcnow E (clock_reads (core b))) 30) as [cutoff|];
    cbn [ret raise core db_mood_entries count_clock_read store_ops emit fst snd
           db_sessions db_messages];
    [|repeat split; auto].
  destruct (store_fails E (store_ops (core b)));
    cbn [core db_mood_entries count_clock_read count_store_op store_ops emit fst snd
           db_sessions db_messages with_store];
    [repeat split; auto|].
  destruct (map Session.id (stale_sessions (isoformat E cutoff) (db_sessions (core b))))
    as [|x ids];
    cbn [core db_mood_entries count_clock_read count_store_op store_ops emit fst snd
           db_sessions db_messages with_store retB];
    [repeat split; auto|].
  destruct (store_fails E (S (store_ops (core b))));
    cbn [core db_mood_entries count_clock_read count_store_op store_ops emit fst snd
           db_sessions db_messages with_store];
    [repeat split; auto|].
  destruct (store_fails E (S (S (store_ops (core b)))));
    cbn [core db_mood_entries count_clock_read count_store_op store_ops emit fst snd
           db_sessions db_messages with_store];
    [repeat split; auto; intros d Hd; apply filter_In in Hd; tauto|].
  destruct (store_fails E (S (S (S (store_ops (core b))))));
    cbn [core db_mood_entries count_clock_read count_store_op store_ops emit fst snd
           db_sessions db_messages with_store];
    repeat split; auto; intros d Hd; apply filter_In in Hd; tauto.
Qed.

(** X28: with the store answering and a cutoff date that exists, after
    [startup_cleanup] exactly the sessions, the messages and the mood
    entries are stored whose session id is not the id of a session last
    active before the cutoff; so no session last active before the cutoff
    is left. *)
Theorem startup_cleanup_sweeps (b : Backend) (cutoff : datetime) :
  store_fails E (store_ops (core b)) = false ->
  store_fails E (S (store_ops (core b))) = false ->
  store_fails E (S (S (store_ops (core b)))) = false ->
  store_fails E (S (S (S (store_ops (core b))))) = false ->
  minus_days E (utcnow E (clock_reads (core b))) 30 = Some cutoff ->
  exists b',
    startup_cleanup E b = (Ok tt, b')
    /\ (forall d, In d (db_sessions (core b'))
                  <-> In d (db_sessions (core b))
                      /\ ~ stale_id (isoformat E cutoff) (db_sessions (core b))
                           (Session.id d))
    /\ (forall d, In d (db_messages (core b'))
                  <-> In d (db_messages (core b))
                      /\ ~ stale_id (isoformat E cutoff) (db_sessions (core b))
                           (Message.session_id d))
    /\ (forall d, In d (db_mood_entries b')
                  <-> In d (db_mood_entries b)
                      /\ ~ stale_id (isoformat E cutoff) (db_sessions (core b))
                           (Mood.session_id d))
    /\ (forall d, In d (db_sessions (core b')) ->
                  String.ltb (Session.last_activity d) (isoformat E cutoff) = false)
    /\ events (core b') = events (core b).
Proof.
  intros H1 H2 H3 H4 Hcutoff.
  assert (Hfresh : forall d, In d (db_sessions (core b)) ->
                     ~ stale_id (isoformat E cutoff) (db_sessions (core b)) (Session.id d) ->
                     String.ltb (Session.last_activity d) (isoformat E cutoff) = false).
  { intros d Hd Hns. apply not_true_iff_false. intros Hstale. apply Hns.
    exists d. repeat split; assumption. }
  unfold startup_cleanup, try_exceptB, bindB, lift, datetime_now, or_raise,
    sessions_find_stale, messages_delete_many_in, moods_delete_many_in,
    sessions_delete_many_in, mood_store_op, store_op, retB, logging_error.
  cbn [core db_mood_entries count_clock_read]. rewrite Hcutoff.
  cbn [ret core db_mood_entries count_clock_read store_ops]. rewrite H1.
  cbn [core db_mood_entries count_clock_read count_store_op store_ops db_sessions].
  pose proof (not_among_stale (isoformat E cutoff) (db_sessions (core b))) as Hids.
  destruct (map Session.id (stale_sessions (isoformat E cutoff) (db_sessions (core b))))
    as [|x ids].
  - eexists. split; [reflexivity|].
    cbn [core db_mood_entries db_sessions db_messages events count_store_op
           count_clock_read].
    assert (Hnone : forall y, ~ stale_id (isoformat E cutoff) (db_sessions (core b)) y).
    { intros y. apply Hids. reflexivity. }
    split; [intros d; specialize (Hnone (Session.id d)); tauto|].
    split; [intros d; specialize (Hnone (Message.session_id d)); tauto|].
    split; [intros d; specialize (Hnone (Mood.session_id d)); tauto|].
    split; [|reflexivity].
    intros d Hd. apply Hfresh; [exact Hd | apply Hnone].
  - cbn [core db_mood_entries count_clock_read count_store_op store_ops with_store].
    rewrite H2.
    cbn [core db_mood_entries count_clock_read count_store_op store_ops with_store].
    rewrite H3.
    cbn [core db_mood_entries count_clock_read count_store_op store_ops with_store].
    rewrite H4.
    eexists. split; [reflexivity|].
    cbn [core db_mood_entries db_sessions db_messages events count_store_op
           count_clock_read with_store].
    split; [intros d; rewrite filter_In, Hids; tauto|].
    split; [intros d; rewrite filter_In, Hids; tauto|].
    split; [intros d; rewrite filter_In, Hids; tauto|].
    split; [|reflexivity].
    intros d Hd. apply filter_In in Hd. destruct Hd as [Hd Hns].
    apply Hfresh; [exact Hd | apply Hids; exact Hns].
Qed.

End SweepProperties.

(** * The further properties on the sample store *)

(** Goes through the documents of a concrete collection. *)
Ltac each_stored H :=
  match type of H with
  | In _ ?l =>
      let Hl := fresh "Hl" in
      eassert (Hl : l = _) by (vm_compute; reflexivity);
      rewrite Hl in H; clear Hl; cbn [In] in H
  end;
  repeat (destruct H as [H|H]; [subst|]);
  try contradiction.

Lemma generate_ai_response_success_witness :
  exists w',
    generate_ai_response Sample.service_up "and now" "s1" false Sample.after_three_turns
    = (Ok "I hear you.", w')
    /\ completions w' = 4%nat
    /\ db_messages w' = db_messages Sample.after_three_turns.
Proof.
  destruct (generate_ai_response_success Sample.service_up "and now" "s1" _ false _
              Sample.after_three_turns eq_refl eq_refl)
    as (w' & Hrun & _ & _ & Hc & Hdocs & _).
  exists w'. split; [exact Hrun|]. split; [exact Hc | exact Hdocs].
Defined.

Lemma generate_ai_response_without_history_witness :
  exists w',
    generate_ai_response SampleStore.store_down "hello" "s1" false Sample.empty_world
    = (Ok generic_fallback, w')
    /\ events w' = [ErrorLogged StoreError]
    /\ completions w' = 0%nat.
Proof.
  destruct (generate_ai_response_without_history SampleStore.store_down "hello" "s1"
              false Sample.empty_world eq_refl)
    as (w' & Hrun & Hev & _ & Hc & _).
  exists w'. split; [exact Hrun|]. split; [exact Hev | exact Hc].
Defined.

Lemma context_of_own_session_witness :
  exists history,
    requested
      (events (snd (generate_ai_response Sample.service_up "and now" "s1" false
                      Sample.after_three_turns)))
    = (requested (events Sample.after_three_turns)
       ++ [ {| role := "system"; content := system_prompt false |}
            :: map context_entry history
            ++ [ {| role := "user"; content := "and now" |} ] ])%list
    /\ Forall (fun d => In d (db_messages Sample.after_three_turns)
                        /\ Message.session_id d = "s1") history.
Proof.
  apply (context_of_own_session Sample.service_up "and now" "s1" false
           Sample.after_three_turns).
  reflexivity.
Defined.

Lemma context_of_new_session_witness :
  requested
    (events (snd (generate_ai_response Sample.service_up "hello" "s2" false
                    Sample.after_three_turns)))
  = (requested (events Sample.after_three_turns)
     ++ [ [ {| role := "system"; content := system_prompt false |};
            {| role := "user"; content := "hello" |} ] ])%list.
Proof.
  apply (context_of_new_session Sample.service_up "hello" "s2" false
           Sample.after_three_turns).
  - reflexivity.
  - intros d Hd Hs. each_stored Hd; cbn in Hs; discriminate Hs.
Defined.

Lemma chat_fails_on_store_fault_only_witness :
  fst (chat SampleStore.store_down (Sample.turn "hello") Sample.empty_world)
  = Raise (HTTPException 500 "Internal server error")
  /\ exists evs,
       events (snd (chat SampleStore.store_down (Sample.turn "hello") Sample.empty_world))
       = (evs ++ [ErrorLogged StoreError])%list.
Proof.
  split; [vm_compute; reflexivity|].
  apply (chat_fails_on_store_fault_only SampleStore.store_down (Sample.turn "hello")
           Sample.empty_world (HTTPException 500 "Internal server error")).
  vm_compute. reflexivity.
Defined.

Lemma chat_returns_witness :
  exists response w',
    chat Sample.service_down (Sample.first_turn "hello") Sample.empty_world
    = (Ok response, w')
    /\ completions w' = 1%nat
    /\ ChatResponse.sentiment response = Some (analyze_sentiment Sample.service_down "hello").
Proof.
  destruct (chat_returns Sample.service_down (Sample.first_turn "hello")
              Sample.empty_world (fun n => eq_refl))
    as (response & w' & user_message & ai_message & Hchat & _ & _ & _ & _ & _ & _ & _
        & _ & Hc & Hsent).
  exists response, w'. split; [exact Hchat|]. split; [exact Hc | exact Hsent].
Defined.

Lemma chat_context_repeats_message_witness :
  requested
    (events (snd (chat Sample.service_up (Sample.turn "and now") Sample.after_three_turns)))
  = (requested (events Sample.after_three_turns)
     ++ [ {| role := "system"; content := system_prompt (detect_crisis "and now") |}
          :: map context_entry
               (rev (recent_messages_of "s1" 5 (db_messages Sample.after_three_turns)))
          ++ [ {| role := "user"; content := "and now" |};
               {| role := "user"; content := "and now" |} ] ])%list.
Proof.
  apply (chat_context_repeats_message Sample.service_up (Sample.turn "and now") "s1"
           Sample.after_three_turns).
  - reflexivity.
  - discriminate.
  - reflexivity.
  - reflexivity.
  - intros d Hd _. each_stored Hd; vm_compute; reflexivity.
Defined.

Lemma trends_buckets_witness :
  exists result w',
    get_sentiment_trends Sample.service_up "s1" 7 Sample.after_three_turns
    = (Ok result, w')
    /\ NoDup (map date_of (trends result))
    /\ getitem "total_messages" (summary result) = Some (VInt 3).
Proof.
  destruct (trends_buckets Sample.service_up "s1" 7 Sample.after_three_turns
              (Sample.midnight + 9 - 7 * 86400000000)%Z eq_refl eq_refl)
    as (result & w' & Hrun & _ & Hnd & _ & _ & Htotal).
  - intros d _ H. vm_compute in H. discriminate H.
  - exists result, w'. split; [exact Hrun|]. split; [exact Hnd | exact Htotal].
Defined.

Lemma trends_single_day_witness :
  exists total result,
    sum (map Message.sentiment_score
           (scored_messages_since "s1"
              (Sample.iso (Sample.midnight + 9 - 7 * 86400000000)%Z)
              (db_messages Sample.after_three_turns)))
    = Some total
    /\ fst (get_sentiment_trends Sample.service_up "s1" 7 Sample.after_three_turns)
       = Ok result
    /\ List.length (trends result) = 1%nat.
Proof.
  destruct (trends_single_day Sample.service_up "s1" "2024-01-01" 7
              Sample.after_three_turns
              (Sample.midnight + 9 - 7 * 86400000000)%Z eq_refl eq_refl)
    as (total & Hsum & Hrun).
  - vm_compute. discriminate.
  - intros d Hd. each_stored Hd; vm_compute; reflexivity.
  - exists total. eexists. split; [exact Hsum|]. split; [exact Hrun | reflexivity].
Defined.

Lemma create_then_get_session_witness :
  exists session w1 w2,
    create_session Sample.service_up SampleStore.sam Sample.empty_world
    = (Ok session, w1)
    /\ UserSession.nickname session = Some "sam"
    /\ get_session Sample.service_up SampleStore.fromisoformat (UserSession.id session) w1
       = (Ok session, w2)
    /\ db_sessions w2 = db_sessions w1.
Proof.
  apply (create_then_get_session Sample.service_up SampleStore.fromisoformat
           SampleStore.sam Sample.empty_world).
  - reflexivity.
  - reflexivity.
  - intros d [].
  - vm_compute. reflexivity.
  - vm_compute. reflexivity.
Defined.

Lemma get_session_unknown_witness :
  exists w',
    get_session Sample.service_up SampleStore.fromisoformat "nobody"
      SampleStore.one_session
    = (Raise (HTTPException 404 "Session not found"), w')
    /\ db_sessions w' = db_sessions SampleStore.one_session
    /\ db_messages w' = db_messages SampleStore.one_session
    /\ events w' = events SampleStore.one_session.
Proof.
  apply (get_session_unknown Sample.service_up SampleStore.fromisoformat "nobody"
           SampleStore.one_session).
  - reflexivity.
  - intros d Hd Hid. each_stored Hd. cbn in Hid. discriminate Hid.
Defined.

Lemma get_session_found_witness :
  exists d,
    session_with_id "id-00" (db_sessions SampleStore.one_session) = Some d
    /\ In d (db_sessions SampleStore.one_session)
    /\ Session.nickname d = Some "sam".
Proof.
  destruct (get_session_found Sample.service_up SampleStore.fromisoformat "id-00"
              SampleStore.one_session
              (snd (get_session Sample.service_up SampleStore.fromisoformat "id-00"
                      SampleStore.one_session))
              SampleStore.sam_session)
    as (d & Hfind & Hin & _ & Hnick & _).
  - vm_compute. reflexivity.
  - exists d. split; [exact Hfind|]. split; [exact Hin|]. symmetry. exact Hnick.
Defined.

Lemma chat_history_oldest_first_witness :
  exists models docs w',
    get_chat_history Sample.service_up SampleStore.fromisoformat "s1" 4
      Sample.after_three_turns
    = (Ok models, w')
    /\ Forall2 (is_model_of SampleStore.fromisoformat) models docs
    /\ Sorted (fun a b => older_eq a b = true) docs
    /\ (List.length models <= 4)%nat.
Proof.
  destruct (chat_history_oldest_first Sample.service_up SampleStore.fromisoformat "s1" 4
              Sample.after_three_turns eq_refl)
    as (models & docs & w' & Hrun & Hall & Hsorted & _ & Hlen & _).
  - intros d Hd _. each_stored Hd; vm_compute; discriminate.
  - exists models, docs, w'. split; [exact Hrun|]. split; [exact Hall|].
    split; [exact Hsorted|]. apply Hlen. reflexivity.
Defined.

Lemma chat_history_unreadable_timestamp_witness :
  exists w',
    get_chat_history Sample.service_up SampleStore.fromisoformat "s1" 50
      SampleStore.torn
    = (Raise ValueError, w')
    /\ db_messages w' = db_messages SampleStore.torn.
Proof.
  apply (chat_history_unreadable_timestamp Sample.service_up SampleStore.fromisoformat
           "s1" 50 SampleStore.torn SampleStore.unreadable).
  - reflexivity.
  - vm_compute. discriminate.
  - apply in_or_app. right. left. reflexivity.
  - reflexivity.
  - vm_compute. reflexivity.
Defined.

Lemma chat_then_history_witness :
  exists response w' models w'',
    chat Sample.service_up (Sample.turn "and now") Sample.after_three_turns
    = (Ok response, w')
    /\ get_chat_history Sample.service_up SampleStore.fromisoformat
         (ChatResponse.session_id response) 50 w'
       = (Ok models, w'')
    /\ List.length models
       = S (S (List.length
                 (messages_of (ChatResponse.session_id response)
                    (db_messages Sample.after_three_turns))))
    /\ exists user_model ai_model,
         In user_model models /\ In ai_model models
         /\ ChatMessage.content user_model = "and now"
         /\ ChatMessage.is_user user_model = true
         /\ ChatMessage.content ai_model = ChatResponse.message response
         /\ ChatMessage.is_user ai_model = false.
Proof.
  apply (chat_then_history Sample.service_up SampleStore.fromisoformat
           (Sample.turn "and now") 50 Sample.after_three_turns).
  - intros n. reflexivity.
  - vm_compute. discriminate.
  - intros d Hd. each_stored Hd; vm_compute; discriminate.
Defined.

Lemma delete_user_data_erases_witness :
  exists b',
    delete_user_data Sample.service_up "s1" SampleStore.backend
    = (Ok "All user data deleted successfully", b')
    /\ (forall d, In d (db_messages (core b')) -> Message.session_id d <> "s1")
    /\ (forall d, In d (db_sessions (core b')) -> Session.id d <> "s1")
    /\ In (SampleStore.mood_of "s0" 2) (db_mood_entries b').
Proof.
  destruct (delete_user_data_erases Sample.service_up "s1" SampleStore.backend
              eq_refl eq_refl eq_refl)
    as (b' & Hrun & Hdocs & Hmoods & _ & _ & Hnd & _).
  exists b'. split; [exact Hrun|]. split; [|split].
  - intros d Hd. apply Hdocs in Hd. tauto.
  - apply Hnd. vm_compute. repeat constructor; simpl; intuition discriminate.
  - apply Hmoods. split; [left; reflexivity | discriminate].
Defined.

Lemma delete_user_data_partial_witness :
  exists b',
    delete_user_data (SampleStore.failing_at 14) "s1" SampleStore.backend
    = (Raise (HTTPException 500 "Error deleting user data"), b')
    /\ db_sessions (core b') = db_sessions (core SampleStore.backend)
    /\ (forall d, In d (db_messages (core b')) -> Message.session_id d <> "s1")
    /\ (forall d, In d (db_mood_entries b') -> Mood.session_id d <> "s1")
    /\ events (core b')
       = (events (core SampleStore.backend) ++ [ErrorLogged StoreError])%list.
Proof.
  apply (delete_user_data_partial (SampleStore.failing_at 14) "s1" SampleStore.backend);
    reflexivity.
Defined.

Lemma delete_then_history_empty_witness :
  exists b' w'',
    delete_user_data Sample.service_up "s1" SampleStore.backend
    = (Ok "All user data deleted successfully", b')
    /\ get_chat_history Sample.service_up SampleStore.fromisoformat "s1" 50 (core b')
       = (Ok [], w'').
Proof.
  apply (delete_then_history_empty Sample.service_up SampleStore.fromisoformat "s1" 50
           SampleStore.backend).
  intros n. reflexivity.
Defined.

Lemma mood_history_oldest_first_witness :
  exists models docs b',
    get_mood_history Sample.service_up SampleStore.fromisoformat "s1" 7
      SampleStore.backend
    = (Ok models, b')
    /\ Forall2 (is_mood_model_of SampleStore.fromisoformat) models docs
    /\ Sorted (fun x y => mood_older_eq x y = true) docs
    /\ In (SampleStore.mood_of "s1" 4) docs
    /\ db_mood_entries b' = db_mood_entries SampleStore.backend.
Proof.
  destruct (mood_history_oldest_first Sample.service_up SampleStore.fromisoformat "s1" 7
              SampleStore.backend (Sample.midnight + 9 - 7 * 86400000000)%Z
              eq_refl eq_refl)
    as (models & docs & b' & Hrun & Hall & Hsorted & Hin & Hmoods).
  - intros d Hd Hsid. each_stored Hd; try (cbn in Hsid; discriminate Hsid).
    split; [vm_compute; discriminate | simpl; lia].
  - exists models, docs, b'. split; [exact Hrun|]. split; [exact Hall|].
    split; [exact Hsorted|]. split; [|exact Hmoods].
    apply Hin. split; [right; left; reflexivity|]. split; [reflexivity|].
    vm_compute. reflexivity.
Defined.

Lemma log_mood_then_history_witness :
  exists mood_entry b' models b'',
    log_mood Sample.service_up (SampleStore.mood 3) SampleStore.backend
    = (Ok mood_entry, b')
    /\ MoodEntry.session_id mood_entry = "s1"
    /\ MoodEntry.mood_score mood_entry = 3%Z
    /\ MoodEntry.note mood_entry = Some "fine"
    /\ get_mood_history Sample.service_up SampleStore.fromisoformat "s1" 7 b'
       = (Ok models, b'')
    /\ In mood_entry models.
Proof.
  apply (log_mood_then_history Sample.service_up SampleStore.fromisoformat
           (SampleStore.mood 3) 7 SampleStore.backend
           (Sample.midnight + 10 - 7 * 86400000000)%Z).
  - simpl. lia.
  - reflexivity.
  - reflexivity.
  - reflexivity.
  - vm_compute. reflexivity.
  - vm_compute. reflexivity.
  - intros d Hd Hsid. each_stored Hd; try (cbn in Hsid; discriminate Hsid).
    split; [vm_compute; discriminate | simpl; lia].
Defined.

Lemma startup_cleanup_sweeps_witness :
  exists b',
    startup_cleanup Sample.service_up SampleStore.backend = (Ok tt, b')
    /\ (forall d, In d (db_sessions (core b')) ->
                  String.ltb (Session.last_activity d) "2023-12-25T00:00:00+00:00"
                  = false)
    /\ (forall d, In d (db_messages (core b')) -> Message.session_id d <> "s0")
    /\ In (SampleStore.mood_of "s1" 4) (db_mood_entries b').
Proof.
  destruct (startup_cleanup_sweeps Sample.service_up SampleStore.backend
              (Sample.midnight + 9 - 30 * 86400000000)%Z
              eq_refl eq_refl eq_refl eq_refl eq_refl)
    as (b' & Hrun & _ & Hdocs & Hmoods & Hfresh & _).
  exists b'. split; [exact Hrun|]. split; [exact Hfresh|]. split.
  - intros d Hd Hsid. apply Hdocs in Hd. destruct Hd as [_ Hns]. apply Hns.
    exists (SampleStore.session_of "s0" "2023-11-01T00:00:00+00:00").
    split; [left; reflexivity|]. split; [vm_compute; reflexivity|].
    symmetry. exact Hsid.
  - apply Hmoods. split; [right; left; reflexivity|].
    intros (s & Hs & Hstale & Hid). each_stored Hs.
    + cbn in Hid. discriminate Hid.
    + vm_compute in Hstale. discriminate Hstale.
Defined.
